(** * Verification of [src/create_plot.py]

    The script scrapes a two-column table, splits the free text of the
    [country] column into country names, cleans the rows, resolves ISO-3
    codes and plots the result.  This development embeds the text parser
    ([get_countries_from_string]), the cleaner
    ([clean_same_sex_marriage_data]) and the resolver
    ([get_iso_code_from_country], [add_iso_code_to_data]); the loader and
    the plot are calls into the network and the display and are left out.

    Python values are modelled as the code has them:
    - a [str] is a sequence of Unicode code points ([pystr]);
    - a [pandas.DataFrame] is a mutable object living in a heap; the
      cleaner and the resolver receive a reference to it;
    - exceptions are results of the computation, and the heap and the log
      survive them.

    What the libraries do is written down from their documentation:
    [regex.split] for the one pattern of the script, [str.strip],
    [str.replace], [int] on a [str] as CPython 3.11 reads it, and the
    handful of [pandas] operations the script calls.  The columns of a
    frame hold Python objects, as those of the scraped table do ([year]
    holds texts such as ['Pending']); columns of the dtypes [uint64] and
    [float64] are outside the model.  The country database of [pycountry] is a parameter of the
    resolver.

    The file has two parts: the model (definitions only, with the lemmas
    that well-founded recursion needs) and the facts proved about it. *)

From Stdlib Require Import String Ascii.
From Stdlib Require Import List NArith ZArith Bool Lia.
From Stdlib Require Import Permutation Sorted.
From Equations Require Import Equations.
Import ListNotations.

(** Case analysis that remembers the equation, for the definitions by
    well-founded recursion below. *)
Definition inspect {A : Type} (a : A) : {b : A | a = b} := exist _ a eq_refl.

(* ===================================================================== *)
(** * Python strings *)
(* ===================================================================== *)

Module Py.

(** A character is a Unicode code point. *)
Definition char := N.
Definition pystr := list char.

(** [py "abc"] is the Python literal ['abc'] (ASCII literals only). *)
Definition py (s : string) : pystr :=
  map N_of_ascii (list_ascii_of_string s).

Definition char_eqb (a b : char) : bool := N.eqb a b.

Fixpoint pystr_eqb (s t : pystr) : bool :=
  match s, t with
  | [], [] => true
  | a :: s', b :: t' => char_eqb a b && pystr_eqb s' t'
  | _, _ => false
  end.

(** [str.isspace] on one character, the class used by [str.strip]:
    bidirectional type WS, B or S, or category Zs. *)
Definition isspace (c : char) : bool :=
  ((9 <=? c) && (c <=? 13) || (28 <=? c) && (c <=? 32)
   || (c =? 133) || (c =? 160) || (c =? 5760)
   || (8192 <=? c) && (c <=? 8202)
   || (c =? 8232) || (c =? 8233) || (c =? 8239) || (c =? 8287)
   || (c =? 12288))%N.

(** [str.lstrip()], [str.rstrip()], [str.strip()] *)
Fixpoint lstrip (s : pystr) : pystr :=
  match s with
  | c :: s' => if isspace c then lstrip s' else s
  | [] => []
  end.

Definition rstrip (s : pystr) : pystr := rev (lstrip (rev s)).

Definition strip (s : pystr) : pystr := rstrip (lstrip s).

(** [strip_prefix p s] is [Some r] when [s = p ++ r]. *)
Fixpoint strip_prefix (p s : pystr) : option pystr :=
  match p, s with
  | [], _ => Some s
  | a :: p', b :: s' => if char_eqb a b then strip_prefix p' s' else None
  | _ :: _, [] => None
  end.

Lemma strip_prefix_length p s r :
  strip_prefix p s = Some r -> length s = length p + length r.
Proof.
  revert s; induction p as [|a p IH]; intros [|b s]; simpl; try congruence.
  - intros [= <-]. reflexivity.
  - intros [= <-]. reflexivity.
  - destruct (char_eqb a b); [|congruence]. intros H. now rewrite (IH _ H).
Qed.

(** [s.replace(old, new)]: the occurrences of [old] are replaced from left
    to right and do not overlap; with an empty [old], [new] is inserted
    before every character and at the end. *)
Equations? replace (old new s : pystr) : pystr by wf (length s) lt :=
  replace [] new s := new ++ flat_map (fun c => c :: new) s;
  replace (a :: old') new [] := [];
  replace (a :: old') new (c :: s') with inspect (strip_prefix (a :: old') (c :: s')) => {
    | exist _ (Some rest) _ := new ++ replace (a :: old') new rest;
    | exist _ None _ := c :: replace (a :: old') new s' }.
Proof.
  change (strip_prefix (a :: old') (c :: s') = Some rest) in e.
  apply strip_prefix_length in e. simpl in *. lia.
Qed.

(** Lexicographic order on code points: [s <= t] on [str]. *)
Fixpoint pystr_leb (s t : pystr) : bool :=
  match s, t with
  | [], _ => true
  | _ :: _, [] => false
  | a :: s', b :: t' =>
      if (a <? b)%N then true else if (b <? a)%N then false else pystr_leb s' t'
  end.

End Py.
Import Py.

(* ===================================================================== *)
(** * The pattern [\s\(.*?\)] and [regex.split] *)
(* ===================================================================== *)

Module Re.

(** [\s] of the [regex] module on [str]: the Unicode property White_Space. *)
Definition is_space (c : char) : bool :=
  ((9 <=? c) && (c <=? 13) || (c =? 32)
   || (c =? 133) || (c =? 160) || (c =? 5760)
   || (8192 <=? c) && (c <=? 8202)
   || (c =? 8232) || (c =? 8233) || (c =? 8239) || (c =? 8287)
   || (c =? 12288))%N.

Definition LPAREN : char := 40%N.
Definition RPAREN : char := 41%N.
Definition NEWLINE : char := 10%N.

(** [.*?\)] at the head of [s]: the lazy star takes characters one at a
    time until a [)] follows; [.] does not match a line feed.  The result
    is what follows the match. *)
Fixpoint lazy_dots_rparen (s : pystr) : option pystr :=
  match s with
  | [] => None
  | c :: s' =>
      if char_eqb c RPAREN then Some s'
      else if char_eqb c NEWLINE then None
      else lazy_dots_rparen s'
  end.

(** The whole pattern [\s\(.*?\)] anchored at the head of [s]. *)
Definition match_here (s : pystr) : option pystr :=
  match s with
  | c :: d :: s' =>
      if is_space c && char_eqb d LPAREN then lazy_dots_rparen s' else None
  | _ => None
  end.

(** Leftmost match: the text before it and the text after it. *)
Fixpoint search (s : pystr) : option (pystr * pystr) :=
  match match_here s with
  | Some rest => Some ([], rest)
  | None =>
      match s with
      | [] => None
      | c :: s' =>
          match search s' with
          | Some (pre, rest) => Some (c :: pre, rest)
          | None => None
          end
      end
  end.

Lemma lazy_dots_rparen_length s r :
  lazy_dots_rparen s = Some r -> length r < length s.
Proof.
  induction s as [|c s IH]; simpl; [congruence|].
  destruct (char_eqb c RPAREN); [intros [= <-]; lia|].
  destruct (char_eqb c NEWLINE); [congruence|].
  intros H. specialize (IH H). lia.
Qed.

Lemma match_here_length s r : match_here s = Some r -> length r < length s.
Proof.
  destruct s as [|c [|d s]]; simpl; try congruence.
  destruct (is_space c && char_eqb d LPAREN); [|congruence].
  intros H. apply lazy_dots_rparen_length in H. lia.
Qed.

Lemma search_length s pre r :
  search s = Some (pre, r) -> length r < length s.
Proof.
  revert pre; induction s as [|c s IH]; intros pre.
  - simpl. congruence.
  - cbn [search]. destruct (match_here (c :: s)) eqn:E.
    + intros [= <- <-]. now apply match_here_length.
    + destruct (search s) as [[p r']|]; [|congruence].
      intros [= <- <-]. specialize (IH _ eq_refl). simpl. lia.
Qed.

(** [regex.split(pattern=r'\s\(.*?\)', string=s)]: the pattern has no group
    and never matches the empty string, so the result is the list of the
    texts between successive leftmost matches. *)
Equations? split (s : pystr) : list pystr by wf (length s) lt :=
  split s with inspect (search s) => {
    | exist _ (Some (pre, rest)) _ := pre :: split rest;
    | exist _ None _ := [s] }.
Proof. eapply search_length; eauto. Qed.

End Re.

(* ===================================================================== *)
(** * [get_countries_from_string] *)
(* ===================================================================== *)

Definition NATIONWIDE : pystr := Eval cbv in py "[nationwide]".

(** The element expression of the comprehension and its [if] clause. *)
Definition clean_fragment (fragment : pystr) : pystr :=
  strip (replace NATIONWIDE [] fragment).

Definition keep_fragment (fragment : pystr) : bool :=
  negb (pystr_eqb (strip fragment) []).

Definition get_countries_from_string (string_val : pystr) : list pystr :=
  let string_list := Re.split string_val in
  let cleaned_string_list :=
    map clean_fragment (filter keep_fragment string_list) in
  cleaned_string_list.

(** The shape of the texts the parser is written for. *)
Definition SPACE : char := 32%N.

(** The text "A (x) B (y)". *)
Definition two_annotated (A x B y : pystr) : pystr :=
  A ++ SPACE :: Re.LPAREN :: x ++ Re.RPAREN ::
  SPACE :: B ++ SPACE :: Re.LPAREN :: y ++ [Re.RPAREN].

Definition paren_free (s : pystr) : Prop :=
  ~ In Re.LPAREN s /\ ~ In Re.RPAREN s.

(* ===================================================================== *)
(** * Python values, exceptions and [int] *)
(* ===================================================================== *)

Inductive exn :=
| TypeError | ValueError | OverflowError | KeyError | LookupError
| AttributeError | ReferenceError.

Inductive result (A : Type) :=
| Ok (a : A)
| Raise (e : exn).
Arguments Ok {A} a.
Arguments Raise {A} e.

Definition rbind {A B} (r : result A) (k : A -> result B) : result B :=
  match r with
  | Ok a => k a
  | Raise e => Raise e
  end.

(** What a cell of the table can hold: a missing value ([NaN] or [None]),
    a [str], an integer, or the list of [str] that
    [get_countries_from_string] returns.  An integer is a Python [int] in
    a column of objects, or an element of an [int64] column. *)
Inductive cell :=
| NaN
| PyNone
| Str (s : pystr)
| Int (z : Z)
| Lst (l : list pystr).

Definition cell_eqb (a b : cell) : bool :=
  match a, b with
  | PyNone, PyNone => true
  | Str s, Str t => pystr_eqb s t
  | Int x, Int y => Z.eqb x y
  | Lst l, Lst m =>
      (fix go (l m : list pystr) : bool :=
         match l, m with
         | [], [] => true
         | s :: l', t :: m' => pystr_eqb s t && go l' m'
         | _, _ => false
         end) l m
  | _, _ => false  (* NaN differs from everything, itself included *)
  end.

(** [pandas.isna] / [notna] on one cell. *)
Definition isna (c : cell) : bool :=
  match c with
  | NaN | PyNone => true
  | _ => false
  end.
Definition notna (c : cell) : bool := negb (isna c).

Module PyInt.

Definition UNDERSCORE : char := 95%N.
Definition PLUS : char := 43%N.
Definition MINUS : char := 45%N.
Definition BLANK : char := 32%N.
Definition QUESTION : char := 63%N.

(** [Py_ISSPACE], the white space [int] skips around the digits: that of
    the C locale.  The separators 28..31, which [str.strip] removes, are
    not in it. *)
Definition c_isspace (c : char) : bool :=
  ((9 <=? c) && (c <=? 13) || (c =? 32))%N.

(** The digits zero of the scripts other than ASCII: each starts a run of
    ten decimal digits (Unicode 14.0, the database of CPython 3.11). *)
Definition DECIMAL_ZEROS : list char :=
  [1632; 1776; 1984; 2406; 2534; 2662; 2790; 2918; 3046; 3174; 3302; 3430;
   3558; 3664; 3792; 3872; 4160; 4240; 6112; 6160; 6470; 6608; 6784; 6800;
   6992; 7088; 7232; 7248; 42528; 43216; 43264; 43472; 43504; 43600; 44016;
   65296; 66720; 68912; 69734; 69872; 69942; 70096; 70384; 70736; 70864;
   71248; 71360; 71472; 71904; 72016; 72784; 73040; 73120; 92768; 92864;
   93008; 120782; 120792; 120802; 120812; 120822; 123200; 123632; 125264;
   130032]%N.

(** [Py_UNICODE_TODECIMAL] *)
Definition to_decimal (c : char) : option N :=
  match find (fun zero => (zero <=? c) && (c <? zero + 10))%N
             (48%N :: DECIMAL_ZEROS) with
  | Some zero => Some (c - zero)%N
  | None => None
  end.

Definition is_ascii (s : pystr) : bool := forallb (fun c => (c <? 128)%N) s.

(** What [int] makes of a text that is not ASCII before it reads it: the
    characters below 127 stay, a white space becomes a blank, a decimal
    digit of any script becomes the ASCII digit, and the text is cut at
    the first other character, which becomes a question mark. *)
Fixpoint transform (s : pystr) : pystr :=
  match s with
  | [] => []
  | c :: s' =>
      if (c <? 127)%N then c :: transform s'
      else if isspace c then BLANK :: transform s'
      else
        match to_decimal c with
        | Some d => (48 + d)%N :: transform s'
        | None => [QUESTION]
        end
  end.

Definition ascii_form (s : pystr) : pystr :=
  if is_ascii s then s else transform s.

Definition digit_value (c : char) : option Z :=
  if ((48 <=? c) && (c <=? 57))%N then Some (Z.of_N c - 48)%Z else None.

Fixpoint skip_spaces (s : pystr) : pystr :=
  match s with
  | [] => []
  | c :: s' => if c_isspace c then skip_spaces s' else s
  end.

(** The run of digits, with single underscores allowed between two
    digits: its value, the number of its digits and what follows it. *)
Fixpoint scan_digits (acc : Z) (digits : N) (after_digit : bool) (s : pystr)
  : option (Z * N * pystr) :=
  match s with
  | [] => if after_digit then Some (acc, digits, []) else None
  | c :: s' =>
      if char_eqb c UNDERSCORE then
        if after_digit then scan_digits acc digits false s' else None
      else
        match digit_value c with
        | Some d => scan_digits (10 * acc + d)%Z (digits + 1)%N true s'
        | None => if after_digit then Some (acc, digits, s) else None
        end
  end.

(** [sys.int_info.default_max_str_digits] *)
Definition MAX_STR_DIGITS : N := 4300%N.

(** The reading of an ASCII text in base ten: white space, an optional
    sign, the digits, white space.  More digits than the interpreter
    allows are refused. *)
Definition from_string (s : pystr) : option Z :=
  let s := skip_spaces s in
  let '(sign, s) :=
    match s with
    | c :: s' =>
        if char_eqb c PLUS then (1%Z, s')
        else if char_eqb c MINUS then ((-1)%Z, s')
        else (1%Z, s)
    | [] => (1%Z, s)
    end in
  match scan_digits 0 0 false s with
  | Some (z, digits, rest) =>
      if (MAX_STR_DIGITS <? digits)%N then None
      else if forallb c_isspace rest then Some (sign * z)%Z
      else None
  | None => None
  end.

(** [int(s)] for a [str]; [None] stands for [ValueError]. *)
Definition parse (s : pystr) : option Z := from_string (ascii_form s).

Definition INT64_MIN : Z := (- 2 ^ 63)%Z.
Definition INT64_MAX : Z := (2 ^ 63 - 1)%Z.

End PyInt.

(* ===================================================================== *)
(** * A model of the [pandas] operations the script uses *)
(* ===================================================================== *)

Module Pandas.

(** A [Series] taken out of a frame: the values of one column, in row order. *)
Definition Series := list cell.

(** One row: its index label and its cells, one per column. *)
Record row := mkrow { label : Z; cells : list cell }.

Record DataFrame := mkdf { columns : list string; rows : list row }.

(** The table without the index labels. *)
Definition records (df : DataFrame) : list (list cell) := map cells (rows df).

Definition shape (df : DataFrame) : nat * nat :=
  (length (rows df), length (columns df)).

Fixpoint col_pos (name : string) (cols : list string) : option nat :=
  match cols with
  | [] => None
  | c :: cols' =>
      if String.eqb c name then Some 0
      else option_map S (col_pos name cols')
  end.

Definition has_column (name : string) (df : DataFrame) : bool :=
  match col_pos name (columns df) with Some _ => true | None => false end.

Fixpoint set_nth {A} (j : nat) (v : A) (l : list A) : list A :=
  match j, l with
  | O, _ :: l' => v :: l'
  | S j', a :: l' => a :: set_nth j' v l'
  | _, [] => []
  end.

Definition get_cell (j : nat) (r : row) : cell := nth j (cells r) NaN.
Definition set_cell (j : nat) (v : cell) (r : row) : row :=
  mkrow (label r) (set_nth j v (cells r)).

(** [df[name]] *)
Definition df_getitem (df : DataFrame) (name : string) : result Series :=
  match col_pos name (columns df) with
  | Some j => Ok (map (get_cell j) (rows df))
  | None => Raise KeyError
  end.

Fixpoint zip_with {A B C} (f : A -> B -> C) (l : list A) (m : list B) : list C :=
  match l, m with
  | a :: l', b :: m' => f a b :: zip_with f l' m'
  | _, _ => []
  end.

(** [df[name] = values]: an existing column is overwritten, a new one is
    appended on the right. *)
Definition df_setitem (df : DataFrame) (name : string) (values : Series)
  : result DataFrame :=
  if negb (Nat.eqb (length values) (length (rows df))) then Raise ValueError
  else
    match col_pos name (columns df) with
    | Some j =>
        Ok (mkdf (columns df) (zip_with (fun r v => set_cell j v r) (rows df) values))
    | None =>
        Ok (mkdf (columns df ++ [name])
                 (zip_with (fun r v => mkrow (label r) (cells r ++ [v])) (rows df) values))
    end.

(** [df.dropna(axis=0)]: the rows with a missing value in any column go. *)
Definition df_dropna (df : DataFrame) : DataFrame :=
  mkdf (columns df) (filter (fun r => forallb notna (cells r)) (rows df)).

(** [df.explode(name)]: a list cell gives one row per element, an empty
    list gives one row holding NaN, any other cell is left alone.  The
    index label is repeated. *)
Definition explode_row (j : nat) (r : row) : list row :=
  match get_cell j r with
  | Lst [] => [set_cell j NaN r]
  | Lst l => map (fun t => set_cell j (Str t) r) l
  | _ => [r]
  end.

Definition df_explode (df : DataFrame) (name : string) : result DataFrame :=
  match col_pos name (columns df) with
  | Some j => Ok (mkdf (columns df) (flat_map (explode_row j) (rows df)))
  | None => Raise KeyError
  end.

(** [df.reset_index()]: the old labels become the first column, named
    [index] (or [level_0] when [index] is taken), and the rows are
    numbered from 0. *)
Fixpoint renumber (k : Z) (rs : list row) : list row :=
  match rs with
  | [] => []
  | r :: rs' => mkrow k (Int (label r) :: cells r) :: renumber (k + 1) rs'
  end.

Definition df_reset_index (df : DataFrame) : result DataFrame :=
  let name := if has_column "index" df then "level_0"%string else "index"%string in
  if has_column name df then Raise ValueError
  else Ok (mkdf (name :: columns df) (renumber 0 (rows df))).

(** [df.loc[mask]] for a boolean mask aligned with the rows. *)
Definition df_loc (df : DataFrame) (mask : list bool) : DataFrame :=
  mkdf (columns df) (map fst (filter snd (combine (rows df) mask))).

(** [series.map(f)]: [f] is called on the values in order; the first
    exception stops the loop. *)
Fixpoint series_map (f : cell -> result cell) (s : Series) : result Series :=
  match s with
  | [] => Ok []
  | c :: s' =>
      rbind (f c) (fun v => rbind (series_map f s') (fun vs => Ok (v :: vs)))
  end.

(** [series.replace({k1: v1, ...})] on whole values. *)
Fixpoint replace_value (mapping : list (pystr * pystr)) (c : cell) : cell :=
  match mapping with
  | [] => c
  | (k, v) :: mapping' =>
      if cell_eqb c (Str k) then Str v else replace_value mapping' c
  end.

Definition series_replace (mapping : list (pystr * pystr)) (s : Series) : Series :=
  map (replace_value mapping) s.

(** [series != value] *)
Definition series_ne (s : Series) (v : cell) : list bool :=
  map (fun c => negb (cell_eqb c v)) s.

(** [series.isnull()] *)
Definition series_isnull (s : Series) : list bool := map isna s.

Definition fits_int64 (z : Z) : bool :=
  ((PyInt.INT64_MIN <=? z) && (z <=? PyInt.INT64_MAX))%Z.

(** [series.astype(int)] on one value of a column of objects: a [str]
    goes through [int], and the integer, like one that was in the column
    already, must fit 64 bits. *)
Definition int_of_cell (c : cell) : result cell :=
  match c with
  | Int z => if fits_int64 z then Ok (Int z) else Raise OverflowError
  | Str s =>
      match PyInt.parse s with
      | Some z => if fits_int64 z then Ok (Int z) else Raise OverflowError
      | None => Raise ValueError
      end
  | NaN => Raise ValueError
  | PyNone | Lst _ => Raise TypeError
  end.

Definition series_astype_int (s : Series) : result Series :=
  series_map int_of_cell s.

(** [sorted(list(series))] for a series of [str].  A series that holds
    anything else is not sorted by this model. *)
Fixpoint insert_sorted (s : pystr) (l : list pystr) : list pystr :=
  match l with
  | [] => [s]
  | t :: l' => if pystr_leb s t then s :: l else t :: insert_sorted s l'
  end.

Fixpoint sort (l : list pystr) : list pystr :=
  match l with
  | [] => []
  | s :: l' => insert_sorted s (sort l')
  end.

Fixpoint strs_of (s : Series) : result (list pystr) :=
  match s with
  | [] => Ok []
  | Str t :: s' => rbind (strs_of s') (fun ts => Ok (t :: ts))
  | _ :: _ => Raise TypeError
  end.

Definition sorted (s : Series) : result (list pystr) :=
  rbind (strs_of s) (fun l => Ok (sort l)).

End Pandas.
Import Pandas.

(* ===================================================================== *)
(** * The heap of frames, the log and the monad of the script *)
(* ===================================================================== *)

(** What the script writes through [logger]. *)
Inductive log_event :=
| InfoCleaned (shape : nat * nat)
| DebugUnmatched (names : list pystr)
| InfoExtracted
| ErrorOccured (e : exn).

(** A variable of type [pd.DataFrame] holds a reference into the heap. *)
Definition ref := nat.

Record world := mkworld { heap : list DataFrame; log : list log_event }.

Definition M (A : Type) : Type := world -> result A * world.

Definition ret {A} (a : A) : M A := fun w => (Ok a, w).

Definition bind {A B} (m : M A) (k : A -> M B) : M B :=
  fun w =>
    match m w with
    | (Ok a, w') => k a w'
    | (Raise e, w') => (Raise e, w')
    end.

Definition raise {A} (e : exn) : M A := fun w => (Raise e, w).

Definition lift {A} (r : result A) : M A := fun w => (r, w).

(** [try: body except ...: handler]; the handler sees the heap as the
    body left it. *)
Definition try_except {A} (body : M A) (handler : exn -> M A) : M A :=
  fun w =>
    match body w with
    | (Ok a, w') => (Ok a, w')
    | (Raise e, w') => handler e w'
    end.

Declare Scope py_scope.
Delimit Scope py_scope with py.
Notation "x <- m ;; k" := (bind m (fun x => k))
  (at level 61, m at next level, right associativity) : py_scope.
Notation "m ;; k" := (bind m (fun _ => k))
  (at level 61, right associativity) : py_scope.
Local Open Scope py_scope.
Local Open Scope string_scope.
Local Open Scope list_scope.

Definition deref (r : ref) : M DataFrame :=
  fun w =>
    match nth_error (heap w) r with
    | Some df => (Ok df, w)
    | None => (Raise ReferenceError, w)
    end.

Definition assign (r : ref) (df : DataFrame) : M unit :=
  fun w => (Ok tt, mkworld (set_nth r df (heap w)) (log w)).

Definition alloc (df : DataFrame) : M ref :=
  fun w => (Ok (length (heap w)), mkworld (heap w ++ [df]) (log w)).

Definition logger (e : log_event) : M unit :=
  fun w => (Ok tt, mkworld (heap w) (log w ++ [e])).

(** The operations of [pandas] on a frame in the heap. *)
Definition getitem (r : ref) (name : string) : M Series :=
  df <- deref r ;; lift (df_getitem df name).

Definition setitem (r : ref) (name : string) (values : Series) : M unit :=
  df <- deref r ;;
  df' <- lift (df_setitem df name values) ;;
  assign r df'.

Definition dropna_inplace (r : ref) : M unit :=
  df <- deref r ;; assign r (df_dropna df).

(** [series.map(f)] for an [f] that logs. *)
Fixpoint series_mapM (f : cell -> M cell) (s : Series) : M Series :=
  match s with
  | [] => ret []
  | c :: s' => v <- f c ;; vs <- series_mapM f s' ;; ret (v :: vs)
  end.

(* ===================================================================== *)
(** * [clean_same_sex_marriage_data] *)
(* ===================================================================== *)

Definition PENDING : pystr := Eval cbv in py "Pending".

Definition MANUAL_RENAMES : list (pystr * pystr) := Eval cbv in
  [ (py "England and Wales", py "United Kingdom");
    (py "Taiwan", py "Taiwan, Province of China") ].

(** The lambda given to [map]: [regex.split] refuses what is not a [str]. *)
Definition call_get_countries_from_string (x : cell) : result cell :=
  match x with
  | Str s => Ok (Lst (get_countries_from_string s))
  | _ => Raise TypeError
  end.

(** "Splitting n countries in a single row to n rows": the first
    [dropna] up to the second one. *)
Definition split_countries_into_rows (same_sex_df : ref) : M ref :=
  dropna_inplace same_sex_df ;;
  country <- getitem same_sex_df "country" ;;
  country <- lift (series_map call_get_countries_from_string country) ;;
  setitem same_sex_df "country" country ;;
  df <- deref same_sex_df ;;
  exploded <- lift (df_explode df "country") ;;
  fresh <- lift (df_reset_index exploded) ;;
  same_sex_df <- alloc fresh ;;
  dropna_inplace same_sex_df ;;
  ret same_sex_df.

(** "Manually renaming countries": the [replace] statement. *)
Definition rename_countries (same_sex_df : ref) : M unit :=
  country <- getitem same_sex_df "country" ;;
  setitem same_sex_df "country" (series_replace MANUAL_RENAMES country).

(** "Removing 'Pending' legalisations": the [loc] statement. *)
Definition remove_pending (same_sex_df : ref) : M ref :=
  year <- getitem same_sex_df "year" ;;
  df <- deref same_sex_df ;;
  alloc (df_loc df (series_ne year (Str PENDING))).

(** The [astype(int)] statement. *)
Definition year_to_int (same_sex_df : ref) : M unit :=
  year <- getitem same_sex_df "year" ;;
  year <- lift (series_astype_int year) ;;
  setitem same_sex_df "year" year.

Definition clean_same_sex_marriage_data (same_sex_df : ref) : M ref :=
  same_sex_df <- split_countries_into_rows same_sex_df ;;
  rename_countries same_sex_df ;;
  same_sex_df <- remove_pending same_sex_df ;;
  year_to_int same_sex_df ;;
  df <- deref same_sex_df ;;
  logger (InfoCleaned (shape df)) ;;
  ret same_sex_df.

(** The statements of the cleaner before [astype(int)]. *)
Definition before_coercion (same_sex_df : ref) : M ref :=
  same_sex_df <- split_countries_into_rows same_sex_df ;;
  rename_countries same_sex_df ;;
  remove_pending same_sex_df.

(* ===================================================================== *)
(** * [get_iso_code_from_country] and [add_iso_code_to_data] *)
(* ===================================================================== *)

(** An entry of the country database of [pycountry]. *)
Record Country := mkCountry { name : pystr; alpha_2 : pystr; alpha_3 : pystr }.

Section Resolver.

(** [pycountry] is not part of the repository.  Its lookup of a country by
    name, [pycountry.countries.get(name=...)] on a [str], is a parameter:
    it returns the entry, or [None] when the database has none. *)
Variable countries_get_name : pystr -> option Country.

(** [pycountry.countries.get(name=country)]: a value that is not a [str]
    is rejected with [LookupError]. *)
Definition pycountry_countries_get (country : cell) : result (option Country) :=
  match country with
  | Str s => Ok (countries_get_name s)
  | _ => Raise LookupError
  end.

(** [info.alpha_3]: [None] has no attributes. *)
Definition getattr_alpha_3 (info : option Country) : result pystr :=
  match info with
  | Some c => Ok (alpha_3 c)
  | None => Raise AttributeError
  end.

Definition get_iso_code_from_country (country : cell) : M cell :=
  try_except
    (info <- lift (pycountry_countries_get country) ;;
     code <- lift (getattr_alpha_3 info) ;;
     ret (Str code))
    (fun error =>
       match error with
       | AttributeError => ret PyNone
       | _ => logger (ErrorOccured error) ;; raise error
       end).

Definition add_iso_code_to_data (same_sex_df : ref) : M ref :=
  country <- getitem same_sex_df "country" ;;
  iso_code <- series_mapM get_iso_code_from_country country ;;
  setitem same_sex_df "iso_code" iso_code ;;
  iso_code <- getitem same_sex_df "iso_code" ;;
  let unmatched_countries_array := series_isnull iso_code in
  df <- deref same_sex_df ;;
  unmatched <- lift (df_getitem (df_loc df unmatched_countries_array) "country") ;;
  unmatched_countries_str <- lift (sorted unmatched) ;;
  logger (DebugUnmatched unmatched_countries_str) ;;
  dropna_inplace same_sex_df ;;
  logger InfoExtracted ;;
  ret same_sex_df.

(** The two stages as [main] chains them. *)
Definition clean_and_resolve (same_sex_df : ref) : M ref :=
  same_sex_df <- clean_same_sex_marriage_data same_sex_df ;;
  same_sex_df <- add_iso_code_to_data same_sex_df ;;
  ret same_sex_df.

(** What the resolver writes for a name, and the names it cannot match. *)
Definition resolved (s : pystr) : cell :=
  match countries_get_name s with
  | Some entry => Str (alpha_3 entry)
  | None => PyNone
  end.

Definition resolved_cell (c : cell) : cell :=
  match c with
  | Str s => resolved s
  | _ => c
  end.

Definition unknown (s : pystr) : bool :=
  match countries_get_name s with
  | Some _ => false
  | None => true
  end.

End Resolver.

(* ===================================================================== *)
(** * Tables and frames of a known shape *)
(* ===================================================================== *)

(** Rows of the loader's frame and of the cleaner's frames, as records:
    the label of the row and one field per column. *)
Record row2 := mkrow2 { label2 : Z; year2 : cell; country2 : cell }.

Record row3 :=
  mkrow3 { label3 : Z; index3 : cell; year3 : cell; country3 : cell }.

Record row4 :=
  mkrow4 { label4 : Z; index4 : cell; year4 : cell; country4 : cell;
           iso_code4 : cell }.

Definition frame2 (l : list row2) : DataFrame :=
  mkdf ["year"; "country"]
       (map (fun r => mkrow (label2 r) [year2 r; country2 r]) l).

Definition frame3 (l : list row3) : DataFrame :=
  mkdf ["index"; "year"; "country"]
       (map (fun r => mkrow (label3 r) [index3 r; year3 r; country3 r]) l).

Definition frame4 (l : list row4) : DataFrame :=
  mkdf ["index"; "year"; "country"; "iso_code"]
       (map (fun r => mkrow (label4 r)
                            [index4 r; year4 r; country4 r; iso_code4 r]) l).

(** The rows of a table, labelled [k], [k+1], ... *)
Fixpoint number (k : Z) (table : list (cell * cell)) : list row2 :=
  match table with
  | [] => []
  | (y, c) :: table' => mkrow2 k y c :: number (k + 1) table'
  end.

(** [pd.DataFrame(table, columns=['year', 'country'])], the frame
    [load_same_sex_marriage_data] returns: the index is 0, 1, 2, ... *)
Definition frame_of_table (table : list (cell * cell)) : DataFrame :=
  frame2 (number 0 table).

(** A table of raw records: both fields are text. *)
Definition raw (table : list (pystr * pystr)) : list (cell * cell) :=
  map (fun '(period_text, entities_text) => (Str period_text, Str entities_text))
      table.

(** A world whose only object is [df], at reference 0. *)
Definition world_of (df : DataFrame) : world := mkworld [df] [].

(** The frame a call returned, if it returned. *)
Definition returned_frame (out : result ref * world) : option DataFrame :=
  match out with
  | (Ok r, w) => nth_error (heap w) r
  | (Raise _, _) => None
  end.

(** ** The operations of [pandas] and the statements of the script, row by row *)

Definition present2 (r : row2) : bool := notna (year2 r) && notna (country2 r).

Definition present3 (r : row3) : bool :=
  notna (index3 r) && notna (year3 r) && notna (country3 r).

Definition present4 (r : row4) : bool :=
  notna (index4 r) && notna (year4 r) && notna (country4 r)
  && notna (iso_code4 r).

Definition exploded_row (r : row2) : list row2 :=
  match country2 r with
  | Lst [] => [mkrow2 (label2 r) (year2 r) NaN]
  | Lst l => map (fun t => mkrow2 (label2 r) (year2 r) (Str t)) l
  | _ => [r]
  end.

Fixpoint reindexed (k : Z) (l : list row2) : list row3 :=
  match l with
  | [] => []
  | r :: l' =>
      mkrow3 k (Int (label2 r)) (year2 r) (country2 r) :: reindexed (k + 1) l'
  end.

Definition with_country2 (f : cell -> cell) (r : row2) : row2 :=
  mkrow2 (label2 r) (year2 r) (f (country2 r)).

Definition with_country3 (f : cell -> cell) (r : row3) : row3 :=
  mkrow3 (label3 r) (index3 r) (year3 r) (f (country3 r)).

Definition with_year3 (f : cell -> cell) (r : row3) : row3 :=
  mkrow3 (label3 r) (index3 r) (f (year3 r)) (country3 r).

Definition with_iso_code (f : cell -> cell) (r : row3) : row4 :=
  mkrow4 (label3 r) (index3 r) (year3 r) (country3 r) (f (country3 r)).

Definition is_str (c : cell) : bool :=
  match c with Str _ => true | _ => false end.

(** What [map] leaves in a [country] cell that holds text. *)
Definition tokenise_cell (c : cell) : cell :=
  match c with
  | Str s => Lst (get_countries_from_string s)
  | _ => c
  end.

(** What [astype(int)] leaves in a cell it can convert. *)
Definition coerced (c : cell) : cell :=
  match int_of_cell c with
  | Ok v => v
  | Raise _ => c
  end.

Definition coercible (c : cell) : bool :=
  match int_of_cell c with
  | Ok _ => true
  | Raise _ => false
  end.

Definition not_pending (r : row3) : bool :=
  negb (cell_eqb (year3 r) (Str PENDING)).

(** The rows after each stage, for a loader's frame with the rows [l]. *)
Definition tokenised (l : list row2) : list row2 :=
  map (with_country2 tokenise_cell) (filter present2 l).

Definition expanded (l : list row2) : list row3 :=
  filter present3 (reindexed 0 (flat_map exploded_row (tokenised l))).

Definition renamed (l : list row2) : list row3 :=
  map (with_country3 (replace_value MANUAL_RENAMES)) (expanded l).

Definition remaining (l : list row2) : list row3 :=
  filter not_pending (renamed l).

Definition cleaned (l : list row2) : list row3 :=
  map (with_year3 coerced) (remaining l).

(** [df.loc[df['year'] != 'Pending']] as a function of the frame. *)
Definition without_pending (df : DataFrame) : result DataFrame :=
  rbind (df_getitem df "year")
        (fun year => Ok (df_loc df (series_ne year (Str PENDING)))).

(** The fields of a row, without its label. *)
Definition view3 (r : row3) : cell * cell * cell :=
  (index3 r, year3 r, country3 r).

Definition fields3 (r : row3) : list cell :=
  [index3 r; year3 r; country3 r].

(** The texts of a series. *)
Fixpoint texts (s : Series) : list pystr :=
  match s with
  | [] => []
  | Str t :: s' => t :: texts s'
  | _ :: s' => texts s'
  end.

Definition unmatched4 (r : row4) : bool := isna (iso_code4 r).

Definition pystr_le (s t : pystr) : Prop := pystr_leb s t = true.

Definition with_resolved (countries_get_name : pystr -> option Country)
    (l : list row3) : list row4 :=
  map (with_iso_code (resolved_cell countries_get_name)) l.

(* ===================================================================== *)
(** * The stages in the words of the specification *)
(* ===================================================================== *)

(** The expansion in the words of the specification: one record per
    country token, the period copied into each, rows in document order
    and, inside a row, tokens in extraction order.  A record is the number
    of its source row, the period and the token. *)
Fixpoint spec_expand (i : Z) (table : list (pystr * pystr))
  : list (Z * pystr * pystr) :=
  match table with
  | [] => []
  | (period_text, entities_text) :: table' =>
      map (fun token => (i, period_text, token))
          (get_countries_from_string entities_text)
      ++ spec_expand (i + 1) table'
  end.

Definition spec_not_pending (record : Z * pystr * pystr) : bool :=
  let '(_, period, _) := record in negb (pystr_eqb period PENDING).

Definition as_cells (record : Z * pystr * pystr) : cell * cell * cell :=
  let '(i, period, token) := record in (Int i, Str period, Str token).

(** The records of the cleaner's frame in the words of the specification:
    the expansion without the pending records, the period coerced and the
    country renamed. *)
Definition spec_clean (table : list (pystr * pystr)) : list (list cell) :=
  map (fun '(i, p, t) =>
         [Int i; coerced (Str p); replace_value MANUAL_RENAMES (Str t)])
      (filter spec_not_pending (spec_expand 0 table)).

(** The name a token has after the manual renaming. *)
Definition renamed_name (token : pystr) : pystr :=
  match replace_value MANUAL_RENAMES (Str token) with
  | Str name => name
  | _ => token
  end.

(** The records of the resolver's frame in the words of the
    specification: the cleaned records whose renamed country the database
    knows, each with the code of that entry. *)
Definition spec_resolve (countries_get_name : pystr -> option Country)
    (table : list (pystr * pystr)) : list (list cell) :=
  flat_map (fun '(i, p, t) =>
              match countries_get_name (renamed_name t) with
              | Some entry =>
                  [[Int i; coerced (Str p); Str (renamed_name t);
                    Str (alpha_3 entry)]]
              | None => []
              end)
           (filter spec_not_pending (spec_expand 0 table)).

(** Every period of the table is "Pending" or can be coerced. *)
Definition periods_ok (table : list (pystr * pystr)) : Prop :=
  Forall (fun '(period, _) => period = PENDING \/ coercible (Str period) = true)
         table.

Definition fields4 (r : row4) : list cell :=
  [index4 r; year4 r; country4 r; iso_code4 r].

(* ===================================================================== *)
(** * Data for the examples *)
(* ===================================================================== *)

(** A few entries of the database of [pycountry], for the examples. *)
Definition sample_countries (s : pystr) : option Country :=
  if pystr_eqb s (py "Netherlands")
  then Some (mkCountry (py "Netherlands") (py "NL") (py "NLD"))
  else if pystr_eqb s (py "Canada")
  then Some (mkCountry (py "Canada") (py "CA") (py "CAN"))
  else if pystr_eqb s (py "United Kingdom")
  then Some (mkCountry (py "United Kingdom") (py "GB") (py "GBR"))
  else if pystr_eqb s (py "Taiwan, Province of China")
  then Some (mkCountry (py "Taiwan, Province of China") (py "TW") (py "TWN"))
  else None.

Definition two_unmatched_rows : list row3 :=
  [ mkrow3 0 (Int 0) (Int 2010) (Str (py "Mexico City"));
    mkrow3 1 (Int 1) (Int 2001) (Str (py "Netherlands"));
    mkrow3 2 (Int 2) (Int 2009) (Str (py "Coahuila"));
    mkrow3 3 (Int 3) (Int 2015) (Str (py "Mexico City")) ].

(* ===================================================================== *)
(** * Further shapes of input and of rows *)
(* ===================================================================== *)

(** The text "A1 (x1) A2 (x2) ... An (xn)" for the entries
    [(A1, x1); ...; (An, xn)]: [annotated_tail] writes each entry with a
    space in front. *)
Fixpoint annotated_tail (entries : list (pystr * pystr)) : pystr :=
  match entries with
  | [] => []
  | (A, x) :: entries' =>
      SPACE :: A ++ SPACE :: Re.LPAREN :: x ++ Re.RPAREN :: annotated_tail entries'
  end.

Definition annotated (entries : list (pystr * pystr)) : pystr :=
  match entries with
  | [] => []
  | (A, x) :: entries' =>
      A ++ SPACE :: Re.LPAREN :: x ++ Re.RPAREN :: annotated_tail entries'
  end.

(** An entry the pattern splits off as intended: no [(] in the name, no
    [)] and no line feed in the annotation, and a name that is not blank. *)
Definition well_formed_entry (entry : pystr * pystr) : Prop :=
  let '(A, x) := entry in
  ~ In Re.LPAREN A /\ ~ In Re.RPAREN x /\ ~ In Re.NEWLINE x /\ strip A <> [].

Definition LBRACKET : char := 91%N.

(** A record of the cleaner's frame as it should be: the number of the
    source row, the year as an integer, the country as text. *)
Definition typed_record (record : list cell) : Prop :=
  exists i y c, record = [Int i; Int y; Str c].

(** A row of the loader's frame that is complete but whose [country] is
    not text. *)
Definition untyped_country (r : row2) : bool :=
  present2 r && negb (is_str (country2 r)).

(** The period of a raw record that stops the coercion: it is not
    "Pending", it cannot be coerced, and the record has a country token. *)
Definition blocking_record (record : pystr * pystr) : Prop :=
  let '(period, entities) := record in
  period <> PENDING
  /\ coercible (Str period) = false
  /\ get_countries_from_string entities <> [].

(** What the resolver makes of one complete row: the row with the code of
    its country, or nothing when the database does not know the country. *)
Definition resolve_row (countries_get_name : pystr -> option Country)
    (r : row3) : list row4 :=
  match country3 r with
  | Str s =>
      match countries_get_name s with
      | Some entry =>
          [mkrow4 (label3 r) (index3 r) (year3 r) (country3 r)
                  (Str (alpha_3 entry))]
      | None => []
      end
  | _ => []
  end.

Definition with_iso_code4 (f : cell -> cell) (r : row4) : row4 :=
  mkrow4 (label4 r) (index4 r) (year4 r) (country4 r) (f (country4 r)).

(** A row as the resolver leaves it: complete, with a text country that
    the database knows and the code of that entry. *)
Definition resolved_row (countries_get_name : pystr -> option Country)
    (r : row4) : Prop :=
  notna (index4 r) = true /\ notna (year4 r) = true
  /\ exists s entry,
      country4 r = Str s /\ countries_get_name s = Some entry
      /\ iso_code4 r = Str (alpha_3 entry).

(** A record of the resolver's frame as it should be. *)
Definition typed_record4 (record : list cell) : Prop :=
  exists i y c code, record = [Int i; Int y; Str c; Str code].

(** A period written with ASCII digits only, and the number it reads as. *)
Definition ascii_digit (c : char) : bool := ((48 <=? c) && (c <=? 57))%N.

Definition ascii_digits (p : pystr) : bool := forallb ascii_digit p.

Definition decimal_value (p : pystr) : Z :=
  fold_left (fun acc c => (10 * acc + (Z.of_N c - 48))%Z) p 0%Z.

(** A year as one expects it: one to eighteen ASCII digits. *)
Definition plain_year (p : pystr) : bool :=
  negb (pystr_eqb p []) && ascii_digits p && (length p <=? 18)%nat.

(** The characters a text that [int] accepts can be made of: white space,
    a sign, an underscore, a decimal digit.  Below 127 the white space is
    that of the C locale and the digits are the ASCII ones; above, any
    white space and any decimal digit of Unicode. *)
Definition ascii_int_char (c : char) : bool :=
  PyInt.c_isspace c || char_eqb c PyInt.PLUS || char_eqb c PyInt.MINUS
  || char_eqb c PyInt.UNDERSCORE || ascii_digit c.

Definition int_char (c : char) : bool :=
  if (c <? 127)%N then ascii_int_char c
  else isspace c
       || match PyInt.to_decimal c with Some _ => true | None => false end.

(** The year 2001 in fullwidth digits, and between two of the separators
    that [str.strip] removes and [int] does not. *)
Definition FULLWIDTH_2001 : pystr := [65298; 65296; 65296; 65297]%N.
Definition SEPARATED_2001 : pystr := [28%N] ++ py "2001" ++ [31%N].

(* ===================================================================== *)
(** * The model at work *)
(* ===================================================================== *)

(** The example of the docstring of [get_countries_from_string]. *)
Example get_countries_docstring :
  get_countries_from_string (py "Spain (2002) Canada (30)")
  = [py "Spain"; py "Canada"].
Proof. vm_compute. reflexivity. Qed.

(** The split keeps the text around the annotations, the empty text after
    the last one included; only the shortest parenthesised span goes, and
    an unclosed parenthesis stays. *)
Example split_examples :
  Re.split (py "A (x) B (y)") = [py "A"; py " B"; []]
  /\ Re.split (py "a ((x)) b") = [py "a"; py ") b"]
  /\ Re.split (py "a (x") = [py "a (x"]
  /\ Re.split (py "a(x) b") = [py "a(x) b"]
  /\ Re.split [] = [[]].
Proof. repeat split; vm_compute; reflexivity. Qed.

Example replace_examples :
  replace NATIONWIDE [] (py "England and Wales[nationwide]")
  = py "England and Wales"
  /\ replace (py "aa") (py "b") (py "aaa") = py "ba"
  /\ replace [] (py "-") (py "abc") = py "-a-b-c-".
Proof. repeat split; vm_compute; reflexivity. Qed.

Example int_examples :
  PyInt.parse (py "2001") = Some 2001%Z
  /\ PyInt.parse (py " +2_001 ") = Some 2001%Z
  /\ PyInt.parse (py "-7") = Some (-7)%Z
  /\ PyInt.parse (py "Pending") = None
  /\ PyInt.parse (py "2001.0") = None
  /\ PyInt.parse (py "2__001") = None
  /\ PyInt.parse [] = None
  /\ PyInt.parse (py "+ 1") = None
  /\ PyInt.parse (py "_1") = None
  /\ PyInt.parse (py "1_") = None
  /\ PyInt.parse FULLWIDTH_2001 = Some 2001%Z
  /\ PyInt.parse ([160%N] ++ py "2001" ++ [12288%N]) = Some 2001%Z
  /\ PyInt.parse SEPARATED_2001 = None
  /\ PyInt.parse ([28%N] ++ FULLWIDTH_2001) = None
  /\ PyInt.parse (py "2001" ++ [0%N]) = None
  /\ PyInt.parse (repeat 48%N 4300) = Some 0%Z
  /\ PyInt.parse (repeat 48%N 4301) = None
  /\ int_of_cell (Str (py "99999999999999999999")) = Raise OverflowError
  /\ int_of_cell (Int (2 ^ 63)) = Raise OverflowError
  /\ int_of_cell (Int (- 2 ^ 63)) = Ok (Int (- 2 ^ 63)).
Proof. repeat split; vm_compute; reflexivity. Qed.

(** The whole cleaner on a small table: the caller's frame, the frame
    that was expanded and renamed, and the frame that is returned. *)
Example clean_example :
  clean_same_sex_marriage_data 0
    (world_of (frame_of_table
                 [(Str (py "2001"), Str (py "Netherlands"));
                  (NaN, Str (py "Spain (2005)"));
                  (Str (py "Pending"), Str (py "Example Country"));
                  (Str (py "2019"), Str (py "Taiwan (2019)"))]))
  = (Ok 2,
     mkworld
       [frame2 [mkrow2 0 (Str (py "2001")) (Lst [py "Netherlands"]);
                mkrow2 2 (Str (py "Pending")) (Lst [py "Example Country"]);
                mkrow2 3 (Str (py "2019")) (Lst [py "Taiwan"])];
        frame3 [mkrow3 0 (Int 0) (Str (py "2001")) (Str (py "Netherlands"));
                mkrow3 1 (Int 2) (Str (py "Pending")) (Str (py "Example Country"));
                mkrow3 2 (Int 3) (Str (py "2019"))
                       (Str (py "Taiwan, Province of China"))];
        frame3 [mkrow3 0 (Int 0) (Int 2001) (Str (py "Netherlands"));
                mkrow3 2 (Int 3) (Int 2019)
                       (Str (py "Taiwan, Province of China"))]]
       [InfoCleaned (2, 3)]).
Proof. vm_compute. reflexivity. Qed.

(** A [country] cell that is not text stops the cleaner with [TypeError],
    after the caller's frame has lost its incomplete rows. *)
Example clean_type_error :
  clean_same_sex_marriage_data 0
    (world_of (frame_of_table [(NaN, Str (py "Spain (2005)"));
                               (Str (py "2001"), Int 7)]))
  = (Raise TypeError, mkworld [frame2 [mkrow2 1 (Str (py "2001")) (Int 7)]] []).
Proof. vm_compute. reflexivity. Qed.

(* ===================================================================== *)
(** * Facts about strings and the pattern *)
(* ===================================================================== *)

Lemma char_eqb_eq a b : char_eqb a b = true <-> a = b.
Proof. apply N.eqb_eq. Qed.

Lemma char_eqb_neq a b : char_eqb a b = false <-> a <> b.
Proof. apply N.eqb_neq. Qed.

Lemma pystr_eqb_eq s t : pystr_eqb s t = true <-> s = t.
Proof.
  revert t; induction s as [|a s IH]; intros [|b t]; simpl;
    try (split; congruence).
  rewrite andb_true_iff, char_eqb_eq, IH. split.
  - intros [-> ->]. reflexivity.
  - intros [= -> ->]. auto.
Qed.

Lemma replace_cons a old' new c s' :
  replace (a :: old') new (c :: s') =
  match strip_prefix (a :: old') (c :: s') with
  | Some rest => new ++ replace (a :: old') new rest
  | None => c :: replace (a :: old') new s'
  end.
Proof.
  rewrite replace_equation_3. unfold replace_unfold_clause_3.
  destruct (inspect (strip_prefix (a :: old') (c :: s'))) as [[r|] e];
    rewrite e; reflexivity.
Qed.

Lemma split_unfold s :
  Re.split s =
  match Re.search s with
  | Some (pre, rest) => pre :: Re.split rest
  | None => [s]
  end.
Proof.
  rewrite Re.split_equation_1. unfold Re.split_unfold_clause_1.
  destruct (inspect (Re.search s)) as [[[p r]|] e]; rewrite e; reflexivity.
Qed.

(** ** Whitespace *)

Lemma lstrip_nil_iff s : lstrip s = [] <-> forallb isspace s = true.
Proof.
  induction s as [|c s IH]; simpl; [tauto|].
  destruct (isspace c); simpl; [exact IH|]. split; congruence.
Qed.

Lemma lstrip_head s c t : lstrip s = c :: t -> isspace c = false.
Proof.
  induction s as [|a s IH]; simpl; [congruence|].
  destruct (isspace a) eqn:E; [exact IH|]. intros [= <- <-]. exact E.
Qed.

Lemma strip_nil_iff s : strip s = [] <-> forallb isspace s = true.
Proof.
  rewrite <- lstrip_nil_iff. unfold strip, rstrip. split.
  - intros H. destruct (lstrip s) as [|c t] eqn:E; [reflexivity|].
    exfalso. apply (f_equal (@rev _)) in H. rewrite rev_involutive in H.
    simpl in H. apply lstrip_nil_iff in H.
    rewrite forallb_app in H. simpl in H.
    rewrite (lstrip_head _ _ _ E) in H. rewrite andb_false_r in H. discriminate.
  - intros ->. reflexivity.
Qed.

Lemma strip_space s : strip (SPACE :: s) = strip s.
Proof. reflexivity. Qed.

(** A text made of whitespace holds no tag. *)
Lemma replace_blank s :
  forallb isspace s = true -> replace NATIONWIDE [] s = s.
Proof.
  induction s as [|c s IH]; intros H.
  - reflexivity.
  - simpl in H. apply andb_true_iff in H as [Hc Hs].
    unfold NATIONWIDE. rewrite replace_cons. cbn [strip_prefix].
    destruct (char_eqb 91%N c) eqn:E.
    + apply char_eqb_eq in E. subst c. discriminate Hc.
    + f_equal. apply IH, Hs.
Qed.

Lemma clean_fragment_not_blank s : clean_fragment s <> [] -> strip s <> [].
Proof.
  intros H E. apply H. apply strip_nil_iff in E.
  unfold clean_fragment. rewrite (replace_blank _ E).
  now apply strip_nil_iff.
Qed.

Lemma clean_fragment_space s : clean_fragment (SPACE :: s) = clean_fragment s.
Proof.
  unfold clean_fragment, NATIONWIDE. rewrite replace_cons. reflexivity.
Qed.

Lemma keep_fragment_true s : strip s <> [] -> keep_fragment s = true.
Proof.
  intros H. unfold keep_fragment. apply negb_true_iff.
  destruct (pystr_eqb (strip s) []) eqn:E; [|reflexivity].
  apply pystr_eqb_eq in E. contradiction.
Qed.

(** ** Where the pattern matches *)

Lemma lazy_dots_rparen_app x rest :
  ~ In Re.RPAREN x -> ~ In Re.NEWLINE x ->
  Re.lazy_dots_rparen (x ++ Re.RPAREN :: rest) = Some rest.
Proof.
  induction x as [|c x IH]; intros Hr Hn; simpl.
  - reflexivity.
  - simpl in Hr, Hn.
    destruct (char_eqb c Re.RPAREN) eqn:E1.
    { apply char_eqb_eq in E1. subst. tauto. }
    destruct (char_eqb c Re.NEWLINE) eqn:E2.
    { apply char_eqb_eq in E2. subst. tauto. }
    apply IH; tauto.
Qed.

Lemma match_here_no_lparen c d s :
  d <> Re.LPAREN -> Re.match_here (c :: d :: s) = None.
Proof.
  intros H. simpl. apply char_eqb_neq in H. rewrite H.
  now rewrite andb_false_r.
Qed.

(** In a text without [(] followed by [ (x)], the leftmost match is that
    annotation. *)
Lemma search_annotation s x rest :
  ~ In Re.LPAREN s -> ~ In Re.RPAREN x -> ~ In Re.NEWLINE x ->
  Re.search (s ++ SPACE :: Re.LPAREN :: x ++ Re.RPAREN :: rest) = Some (s, rest).
Proof.
  intros Hs Hr Hn. induction s as [|a s IH].
  - cbn [app Re.search Re.match_here]. cbn [andb Re.is_space].
    change (Re.is_space SPACE && char_eqb Re.LPAREN Re.LPAREN) with true.
    cbv iota. now rewrite lazy_dots_rparen_app.
  - simpl in Hs. cbn [app Re.search].
    assert (Re.match_here (a :: s ++ SPACE :: Re.LPAREN :: x ++ Re.RPAREN :: rest) = None)
      as ->.
    { destruct s as [|b s]; cbn [app]; apply match_here_no_lparen.
      - discriminate.
      - simpl in Hs. intros ->. tauto. }
    rewrite IH by tauto. reflexivity.
Qed.

Lemma split_annotation s x rest :
  ~ In Re.LPAREN s -> ~ In Re.RPAREN x -> ~ In Re.NEWLINE x ->
  Re.split (s ++ SPACE :: Re.LPAREN :: x ++ Re.RPAREN :: rest) = s :: Re.split rest.
Proof.
  intros. rewrite split_unfold, search_annotation by assumption. reflexivity.
Qed.

Lemma split_two_annotated A x B y :
  ~ In Re.LPAREN A -> ~ In Re.LPAREN B ->
  ~ In Re.RPAREN x -> ~ In Re.NEWLINE x ->
  ~ In Re.RPAREN y -> ~ In Re.NEWLINE y ->
  Re.split (two_annotated A x B y) = [A; SPACE :: B; []].
Proof.
  intros HA HB Hx Hx' Hy Hy'. unfold two_annotated.
  rewrite split_annotation by assumption.
  change (SPACE :: B ++ SPACE :: Re.LPAREN :: y ++ [Re.RPAREN])
    with ((SPACE :: B) ++ SPACE :: Re.LPAREN :: y ++ Re.RPAREN :: []).
  rewrite split_annotation; try assumption.
  - reflexivity.
  - simpl. intros [E|E]; [discriminate E | contradiction].
Qed.

(* ===================================================================== *)
(** * The text parser *)
(* ===================================================================== *)

Lemma get_countries_two_annotated A x B y :
  ~ In Re.LPAREN A -> ~ In Re.LPAREN B ->
  ~ In Re.RPAREN x -> ~ In Re.NEWLINE x ->
  ~ In Re.RPAREN y -> ~ In Re.NEWLINE y ->
  strip A <> [] -> strip B <> [] ->
  get_countries_from_string (two_annotated A x B y) =
  [clean_fragment A; clean_fragment B].
Proof.
  intros HA HB Hx Hx' Hy Hy' SA SB. unfold get_countries_from_string.
  rewrite split_two_annotated by assumption.
  cbn [filter]. rewrite (keep_fragment_true A SA).
  rewrite (keep_fragment_true (SPACE :: B)) by (rewrite strip_space; exact SB).
  change (keep_fragment []) with false. cbn [map].
  now rewrite clean_fragment_space.
Qed.

Example two_annotated_example :
  two_annotated (py "Spain") (py "2005") (py "Canada") (py "2005")
  = py "Spain (2005) Canada (2005)".
Proof. reflexivity. Qed.

(** C2, as amended.  For names [A], [B] and annotations [x], [y] without
    parentheses, where moreover the annotations hold no line feed and the
    names are not empty once the tag is removed and the whitespace
    trimmed, [get_countries_from_string] maps "A (x) B (y)" to the two
    names, in that order, each with every "[nationwide]" removed and then
    trimmed.  It maps "England and Wales[nationwide] (2014)" to
    ["England and Wales"]. *)
Theorem get_countries_two_names :
  (forall A x B y : pystr,
      paren_free A -> paren_free B -> paren_free x -> paren_free y ->
      ~ In Re.NEWLINE x -> ~ In Re.NEWLINE y ->
      clean_fragment A <> [] -> clean_fragment B <> [] ->
      get_countries_from_string (two_annotated A x B y)
      = [strip (replace NATIONWIDE [] A); strip (replace NATIONWIDE [] B)])
  /\ get_countries_from_string (py "England and Wales[nationwide] (2014)")
     = [py "England and Wales"].
Proof.
  split.
  - intros A x B y [HA _] [HB _] [_ Hx] [_ Hy] Nx Ny CA CB.
    apply get_countries_two_annotated; auto using clean_fragment_not_blank.
  - vm_compute. reflexivity.
Qed.

Ltac not_in_literal :=
  lazymatch goal with
  | |- ~ In _ _ =>
      let H := fresh in
      cbv; intros H;
      repeat (destruct H as [H|H]; [discriminate H|]); exact H
  end.

Ltac paren_free_literal :=
  lazymatch goal with
  | |- paren_free _ => split; not_in_literal
  end.

Lemma get_countries_two_names_witness :
  get_countries_from_string
    (two_annotated (py "England and Wales[nationwide]") (py "2014")
                   (py "Spain") (py "2005"))
  = [py "England and Wales"; py "Spain"].
Proof.
  apply (proj1 get_countries_two_names
           (py "England and Wales[nationwide]") (py "2014") (py "Spain") (py "2005"));
    first [paren_free_literal | not_in_literal | vm_compute; discriminate].
Defined.

(** C2, as stated, fails when an annotation holds a line feed: [.] does
    not match it, so "A (\n) B (y)" is split only at " (y)" and comes back
    as one token.  It also fails for a name made of whitespace: the name is
    dropped, not returned trimmed. *)
Lemma get_countries_two_names_counterexample :
  (let A := py "A" in
   let x := [Re.NEWLINE] in
   let B := py "B" in
   let y := py "y" in
   paren_free A /\ paren_free B /\ paren_free x /\ paren_free y
   /\ A <> [] /\ B <> []
   /\ get_countries_from_string (two_annotated A x B y)
      = [py "A (" ++ [Re.NEWLINE] ++ py ") B"]
   /\ get_countries_from_string (two_annotated A x B y)
      <> [strip (replace NATIONWIDE [] A); strip (replace NATIONWIDE [] B)])
  /\ (let A := [SPACE] in
      let x := py "x" in
      let B := py "B" in
      let y := py "y" in
      paren_free A /\ paren_free B /\ paren_free x /\ paren_free y
      /\ A <> [] /\ B <> []
      /\ get_countries_from_string (two_annotated A x B y) = [py "B"]
      /\ get_countries_from_string (two_annotated A x B y)
         <> [strip (replace NATIONWIDE [] A); strip (replace NATIONWIDE [] B)]).
Proof.
  cbv zeta.
  repeat match goal with |- _ /\ _ => split end;
    first [paren_free_literal | vm_compute; first [reflexivity | discriminate]].
Qed.

(** What the comprehension does guarantee: a token is the cleaned form of
    a fragment of the split that is not blank. *)
Lemma get_countries_from_kept_fragments s token :
  In token (get_countries_from_string s) ->
  exists fragment,
    In fragment (Re.split s) /\ strip fragment <> []
    /\ token = clean_fragment fragment.
Proof.
  unfold get_countries_from_string. intros H.
  apply in_map_iff in H as [f [<- H]]. apply filter_In in H as [H K].
  exists f. repeat split; [exact H|]. intros E.
  unfold keep_fragment in K. rewrite E in K. discriminate K.
Qed.

(** C3.  The emptiness test of the comprehension looks at the fragment
    before the tag is removed: a fragment made of the tag alone passes it
    and comes back as an empty token.  The empty string gives no token. *)
Theorem get_countries_tag_only :
  get_countries_from_string (py "[nationwide]") = [[]]
  /\ get_countries_from_string (py "[nationwide] (2014)") = [[]]
  /\ get_countries_from_string [] = [].
Proof. repeat split; vm_compute; reflexivity. Qed.

(* ===================================================================== *)
(** * The [pandas] operations on frames of a known shape *)
(* ===================================================================== *)

Lemma df_dropna_frame2 l : df_dropna (frame2 l) = frame2 (filter present2 l).
Proof.
  unfold df_dropna, frame2. cbn [columns rows]. f_equal.
  induction l as [|r l IH]; [reflexivity|]. cbn [map filter cells forallb].
  unfold present2. rewrite andb_true_r.
  destruct (notna (year2 r) && notna (country2 r)); cbn [map]; now rewrite IH.
Qed.

Lemma df_dropna_frame3 l : df_dropna (frame3 l) = frame3 (filter present3 l).
Proof.
  unfold df_dropna, frame3. cbn [columns rows]. f_equal.
  induction l as [|r l IH]; [reflexivity|]. cbn [map filter cells forallb].
  unfold present3. rewrite andb_true_r, andb_assoc.
  destruct (notna (index3 r) && notna (year3 r) && notna (country3 r));
    cbn [map]; now rewrite IH.
Qed.

Lemma df_dropna_frame4 l : df_dropna (frame4 l) = frame4 (filter present4 l).
Proof.
  unfold df_dropna, frame4. cbn [columns rows]. f_equal.
  induction l as [|r l IH]; [reflexivity|]. cbn [map filter cells forallb].
  unfold present4. rewrite andb_true_r, !andb_assoc.
  destruct (notna (index4 r) && notna (year4 r) && notna (country4 r)
            && notna (iso_code4 r)); cbn [map]; now rewrite IH.
Qed.

Lemma df_getitem_frame2_country l :
  df_getitem (frame2 l) "country" = Ok (map country2 l).
Proof. unfold df_getitem, frame2. simpl. now rewrite map_map. Qed.

Lemma df_getitem_frame3_country l :
  df_getitem (frame3 l) "country" = Ok (map country3 l).
Proof. unfold df_getitem, frame3. simpl. now rewrite map_map. Qed.

Lemma df_getitem_frame3_year l :
  df_getitem (frame3 l) "year" = Ok (map year3 l).
Proof. unfold df_getitem, frame3. simpl. now rewrite map_map. Qed.

Lemma df_getitem_frame4_country l :
  df_getitem (frame4 l) "country" = Ok (map country4 l).
Proof. unfold df_getitem, frame4. simpl. now rewrite map_map. Qed.

Lemma df_getitem_frame4_iso_code l :
  df_getitem (frame4 l) "iso_code" = Ok (map iso_code4 l).
Proof. unfold df_getitem, frame4. simpl. now rewrite map_map. Qed.

Lemma zip_with_map {A B C D} (f : A -> B -> C) (g : D -> A) (h : D -> B) l :
  zip_with f (map g l) (map h l) = map (fun x => f (g x) (h x)) l.
Proof. induction l as [|x l IH]; simpl; [reflexivity|now rewrite IH]. Qed.

Lemma eqb_length_map {A B C} (f : A -> B) (g : A -> C) l :
  Nat.eqb (length (map f l)) (length (map g l)) = true.
Proof. rewrite !length_map. apply Nat.eqb_refl. Qed.

Lemma df_setitem_frame2_country l (f : cell -> cell) :
  df_setitem (frame2 l) "country" (map (fun r => f (country2 r)) l)
  = Ok (frame2 (map (with_country2 f) l)).
Proof.
  unfold df_setitem, frame2. cbn [columns rows].
  rewrite eqb_length_map. simpl. rewrite zip_with_map, map_map. reflexivity.
Qed.

Lemma df_setitem_frame3_country l (f : cell -> cell) :
  df_setitem (frame3 l) "country" (map (fun r => f (country3 r)) l)
  = Ok (frame3 (map (with_country3 f) l)).
Proof.
  unfold df_setitem, frame3. cbn [columns rows].
  rewrite eqb_length_map. simpl. rewrite zip_with_map, map_map. reflexivity.
Qed.

Lemma df_setitem_frame3_year l (f : cell -> cell) :
  df_setitem (frame3 l) "year" (map (fun r => f (year3 r)) l)
  = Ok (frame3 (map (with_year3 f) l)).
Proof.
  unfold df_setitem, frame3. cbn [columns rows].
  rewrite eqb_length_map. simpl. rewrite zip_with_map, map_map. reflexivity.
Qed.

Lemma df_setitem_frame3_iso_code l (f : cell -> cell) :
  df_setitem (frame3 l) "iso_code" (map (fun r => f (country3 r)) l)
  = Ok (frame4 (map (with_iso_code f) l)).
Proof.
  unfold df_setitem, frame3, frame4. cbn [columns rows].
  rewrite eqb_length_map. simpl. rewrite zip_with_map, map_map. reflexivity.
Qed.

Lemma df_explode_frame2 l :
  df_explode (frame2 l) "country" = Ok (frame2 (flat_map exploded_row l)).
Proof.
  unfold df_explode, frame2. simpl. do 2 f_equal.
  induction l as [|r l IH]; [reflexivity|].
  cbn [map flat_map]. rewrite map_app, <- IH. f_equal.
  destruct r as [i y [| | |z|[|t ts]]]; try reflexivity.
  unfold explode_row, exploded_row, get_cell.
  cbn [cells nth country2 label2 year2]. now rewrite map_map.
Qed.

Lemma renumber_frame2 k l :
  renumber k (map (fun r => mkrow (label2 r) [year2 r; country2 r]) l)
  = map (fun r => mkrow (label3 r) [index3 r; year3 r; country3 r])
        (reindexed k l).
Proof.
  revert k; induction l as [|r l IH]; intros k; [reflexivity|].
  cbn [map renumber reindexed]. now rewrite IH.
Qed.

Lemma df_reset_index_frame2 l :
  df_reset_index (frame2 l) = Ok (frame3 (reindexed 0 l)).
Proof.
  unfold df_reset_index, frame2, frame3. simpl. now rewrite renumber_frame2.
Qed.

Lemma loc_mask {A} (p : A -> bool) (l : list A) :
  map fst (filter snd (combine l (map p l))) = filter p l.
Proof.
  induction l as [|a l IH]; [reflexivity|]. cbn [map combine filter snd].
  destruct (p a); cbn [map fst]; now rewrite IH.
Qed.

Lemma df_loc_frame3 l (p : row3 -> bool) :
  df_loc (frame3 l) (map p l) = frame3 (filter p l).
Proof.
  unfold df_loc, frame3. cbn [columns rows]. f_equal.
  rewrite <- (loc_mask p l).
  induction l as [|r l IH]; [reflexivity|]. cbn [map combine filter snd].
  destruct (p r); cbn [map fst]; now rewrite IH.
Qed.

Lemma df_loc_frame4 l (p : row4 -> bool) :
  df_loc (frame4 l) (map p l) = frame4 (filter p l).
Proof.
  unfold df_loc, frame4. cbn [columns rows]. f_equal.
  rewrite <- (loc_mask p l).
  induction l as [|r l IH]; [reflexivity|]. cbn [map combine filter snd].
  destruct (p r); cbn [map fst]; now rewrite IH.
Qed.

(** ** The element-wise steps *)

Lemma series_map_ok (g : cell -> result cell) s vs :
  series_map g s = Ok vs ->
  vs = map (fun c => match g c with Ok v => v | Raise _ => c end) s
  /\ Forall (fun c => exists v, g c = Ok v) s.
Proof.
  revert vs; induction s as [|c s IH]; intros vs; cbn [series_map].
  - intros [= <-]. split; constructor.
  - destruct (g c) as [v|e] eqn:E; cbn [rbind]; [|discriminate].
    destruct (series_map g s) as [vs'|e]; cbn [rbind]; [|discriminate].
    intros [= <-]. destruct (IH _ eq_refl) as [-> F]. split.
    + cbn [map]. now rewrite E.
    + constructor; eauto.
Qed.

Lemma series_map_raise (g : cell -> result cell) s e :
  series_map g s = Raise e -> Exists (fun c => g c = Raise e) s.
Proof.
  induction s as [|c s IH]; cbn [series_map]; [discriminate|].
  destruct (g c) as [v|e'] eqn:E; cbn [rbind].
  - destruct (series_map g s) as [vs'|e']; cbn [rbind]; [discriminate|].
    intros [= ->]. apply Exists_cons_tl. now apply IH.
  - intros [= ->]. now apply Exists_cons_hd.
Qed.

Lemma series_map_all_ok (g : cell -> result cell) s :
  Forall (fun c => exists v, g c = Ok v) s ->
  exists vs, series_map g s = Ok vs.
Proof.
  induction 1 as [|c s [v E] _ [vs IH]]; cbn [series_map].
  - eauto.
  - rewrite E, IH. cbn [rbind]. eauto.
Qed.

Lemma series_map_tokens s :
  series_map call_get_countries_from_string s =
  if forallb is_str s then Ok (map tokenise_cell s) else Raise TypeError.
Proof.
  induction s as [|c s IH]; [reflexivity|]. cbn [series_map forallb map].
  destruct c; try reflexivity. cbn [call_get_countries_from_string rbind is_str andb].
  rewrite IH. now destruct (forallb is_str s).
Qed.

(** ** The stages of the cleaner, run on the loader's frame *)

Lemma bind_run {A B} (m : M A) (k : A -> M B) w :
  bind m k w =
  match m w with
  | (Ok a, w') => k a w'
  | (Raise e, w') => (Raise e, w')
  end.
Proof. reflexivity. Qed.

Lemma deref_run w r df :
  nth_error (heap w) r = Some df -> deref r w = (Ok df, w).
Proof. intros H. unfold deref. now rewrite H. Qed.

Lemma getitem_run w r df name :
  nth_error (heap w) r = Some df ->
  getitem r name w = (df_getitem df name, w).
Proof.
  intros H. unfold getitem. now rewrite bind_run, (deref_run _ _ _ H).
Qed.

Lemma setitem_run w r df df' name values :
  nth_error (heap w) r = Some df ->
  df_setitem df name values = Ok df' ->
  setitem r name values w = (Ok tt, mkworld (set_nth r df' (heap w)) (log w)).
Proof.
  intros H E. unfold setitem.
  rewrite bind_run, (deref_run _ _ _ H), bind_run. unfold lift. now rewrite E.
Qed.

Lemma dropna_inplace_run w r df :
  nth_error (heap w) r = Some df ->
  dropna_inplace r w
  = (Ok tt, mkworld (set_nth r (df_dropna df) (heap w)) (log w)).
Proof.
  intros H. unfold dropna_inplace. now rewrite bind_run, (deref_run _ _ _ H).
Qed.

Lemma nth_error_set_nth {A} (h : list A) r (x y : A) :
  nth_error h r = Some x -> nth_error (set_nth r y h) r = Some y.
Proof.
  revert r; induction h as [|a h IH]; intros [|r]; cbn; try discriminate.
  - reflexivity.
  - apply IH.
Qed.

Lemma set_nth_set_nth {A} (h : list A) r (x y : A) :
  set_nth r y (set_nth r x h) = set_nth r y h.
Proof.
  revert r; induction h as [|a h IH]; intros [|r]; cbn; try reflexivity.
  now rewrite IH.
Qed.

Ltac run_heap :=
  unfold getitem, setitem, dropna_inplace, deref, assign, alloc, lift, logger,
    bind, ret, world_of;
  cbn [heap log nth_error set_nth length app].

Lemma split_countries_into_rows_run l :
  split_countries_into_rows 0 (world_of (frame2 l)) =
  let present := filter present2 l in
  let tokenised := map (with_country2 tokenise_cell) present in
  if forallb is_str (map country2 present) then
    (Ok 1,
     mkworld [frame2 tokenised;
              frame3 (filter present3
                        (reindexed 0 (flat_map exploded_row tokenised)))] [])
  else (Raise TypeError, mkworld [frame2 present] []).
Proof.
  cbv zeta. unfold split_countries_into_rows. run_heap.
  rewrite df_dropna_frame2, df_getitem_frame2_country, series_map_tokens.
  destruct (forallb is_str (map country2 (filter present2 l))); [|reflexivity].
  rewrite map_map. rewrite df_setitem_frame2_country.
  cbn [heap log nth_error set_nth length app].
  rewrite df_explode_frame2, df_reset_index_frame2.
  cbn [heap log nth_error set_nth length app].
  rewrite df_dropna_frame3. reflexivity.
Qed.

Lemma rename_countries_run h0 l lg :
  rename_countries 1 (mkworld [h0; frame3 l] lg) =
  (Ok tt,
   mkworld [h0; frame3 (map (with_country3 (replace_value MANUAL_RENAMES)) l)] lg).
Proof.
  unfold rename_countries. run_heap.
  rewrite df_getitem_frame3_country. unfold series_replace.
  rewrite map_map, df_setitem_frame3_country. reflexivity.
Qed.

Lemma remove_pending_run h0 l lg :
  remove_pending 1 (mkworld [h0; frame3 l] lg) =
  (Ok 2, mkworld [h0; frame3 l; frame3 (filter not_pending l)] lg).
Proof.
  unfold remove_pending. run_heap.
  rewrite df_getitem_frame3_year. unfold series_ne.
  rewrite map_map. cbn [heap log nth_error set_nth length app].
  change (fun x : row3 => negb (cell_eqb (year3 x) (Str PENDING)))
    with not_pending.
  now rewrite df_loc_frame3.
Qed.

Lemma year_to_int_run h0 h1 l lg :
  year_to_int 2 (mkworld [h0; h1; frame3 l] lg) =
  match series_astype_int (map year3 l) with
  | Ok _ => (Ok tt, mkworld [h0; h1; frame3 (map (with_year3 coerced) l)] lg)
  | Raise e => (Raise e, mkworld [h0; h1; frame3 l] lg)
  end.
Proof.
  unfold year_to_int. run_heap.
  rewrite df_getitem_frame3_year.
  destruct (series_astype_int (map year3 l)) as [ys|e] eqn:E; [|reflexivity].
  apply series_map_ok in E as [-> _].
  rewrite map_map. cbn [heap log nth_error set_nth length app].
  change (fun x : row3 => match int_of_cell (year3 x) with
                          | Ok v => v
                          | Raise _ => year3 x
                          end)
    with (fun x : row3 => coerced (year3 x)).
  now rewrite df_setitem_frame3_year.
Qed.

Lemma before_coercion_run l :
  before_coercion 0 (world_of (frame2 l)) =
  if forallb is_str (map country2 (filter present2 l)) then
    (Ok 2, mkworld [frame2 (tokenised l); frame3 (renamed l);
                    frame3 (remaining l)] [])
  else (Raise TypeError, mkworld [frame2 (filter present2 l)] []).
Proof.
  unfold before_coercion. rewrite bind_run, split_countries_into_rows_run.
  cbv zeta.
  destruct (forallb is_str (map country2 (filter present2 l))); [|reflexivity].
  rewrite bind_run, rename_countries_run, remove_pending_run. reflexivity.
Qed.

Lemma shape_frame3 l : shape (frame3 l) = (length l, 3).
Proof. unfold shape, frame3. cbn [rows columns length]. now rewrite length_map. Qed.

(** The cleaner on the loader's frame, statement by statement. *)
Lemma clean_run l :
  clean_same_sex_marriage_data 0 (world_of (frame2 l)) =
  if forallb is_str (map country2 (filter present2 l)) then
    match series_astype_int (map year3 (remaining l)) with
    | Ok _ =>
        (Ok 2,
         mkworld [frame2 (tokenised l); frame3 (renamed l); frame3 (cleaned l)]
                 [InfoCleaned (length (cleaned l), 3)])
    | Raise e =>
        (Raise e,
         mkworld [frame2 (tokenised l); frame3 (renamed l);
                  frame3 (remaining l)] [])
    end
  else (Raise TypeError, mkworld [frame2 (filter present2 l)] []).
Proof.
  unfold clean_same_sex_marriage_data.
  rewrite bind_run, split_countries_into_rows_run. cbv zeta.
  destruct (forallb is_str (map country2 (filter present2 l))); [|reflexivity].
  rewrite bind_run, rename_countries_run.
  rewrite bind_run, remove_pending_run.
  rewrite bind_run, year_to_int_run.
  unfold cleaned, remaining, renamed, expanded, tokenised.
  destruct (series_astype_int _); [|reflexivity].
  run_heap. rewrite shape_frame3. reflexivity.
Qed.

(* ===================================================================== *)
(** * The cleaner on a table of raw records *)
(* ===================================================================== *)

Lemma records_frame3 l : records (frame3 l) = map fields3 l.
Proof. unfold records, frame3. cbn [rows]. now rewrite map_map. Qed.

Lemma present2_raw i table :
  filter present2 (number i (raw table)) = number i (raw table).
Proof.
  revert i; induction table as [|[p e] table IH]; intros i; [reflexivity|].
  cbn [raw map number filter]. cbn. f_equal. apply IH.
Qed.

Lemma is_str_raw i table :
  forallb is_str (map country2 (number i (raw table))) = true.
Proof.
  revert i; induction table as [|[p e] table IH]; intros i; [reflexivity|].
  cbn. apply IH.
Qed.

Lemma is_str_present2_raw i table :
  forallb is_str (map country2 (filter present2 (number i (raw table)))) = true.
Proof. rewrite present2_raw. apply is_str_raw. Qed.

Lemma view3_reindexed k l :
  map view3 (filter present3 (reindexed k l))
  = map (fun r => (Int (label2 r), year2 r, country2 r)) (filter present2 l).
Proof.
  revert k; induction l as [|r l IH]; intros k; [reflexivity|].
  cbn [reindexed filter]. unfold present3 at 1, present2 at 1.
  cbn [index3 year3 country3 notna isna negb andb].
  destruct (notna (year2 r) && notna (country2 r)); cbn [map]; now rewrite IH.
Qed.

Lemma present2_tokens i p ts :
  filter present2 (map (fun t => mkrow2 i (Str p) (Str t)) ts)
  = map (fun t => mkrow2 i (Str p) (Str t)) ts.
Proof. induction ts as [|t ts IH]; [reflexivity|]. cbn. now rewrite IH. Qed.

Lemma present2_exploded_row i p e :
  filter present2
    (exploded_row (with_country2 tokenise_cell (mkrow2 i (Str p) (Str e))))
  = map (fun t => mkrow2 i (Str p) (Str t)) (get_countries_from_string e).
Proof.
  unfold exploded_row, with_country2, tokenise_cell.
  cbn [country2 label2 year2].
  destruct (get_countries_from_string e) as [|t ts]; [reflexivity|].
  apply present2_tokens.
Qed.

(** The rows of the expanded frame are the records of [spec_expand]. *)
Lemma expanded_raw table :
  map view3 (expanded (number 0 (raw table)))
  = map as_cells (spec_expand 0 table).
Proof.
  unfold expanded, tokenised. rewrite present2_raw, view3_reindexed.
  generalize 0%Z as i.
  induction table as [|[p e] table IH]; intros i; [reflexivity|].
  cbn [raw map number flat_map spec_expand].
  rewrite filter_app, !map_app. f_equal.
  - rewrite present2_exploded_row, !map_map. reflexivity.
  - apply IH.
Qed.

Lemma view3_rename_filter (f : cell -> cell) l records :
  map view3 l = map as_cells records ->
  map view3 (filter not_pending (map (with_country3 f) l))
  = map (fun '(i, p, t) => (Int i, Str p, f (Str t)))
        (filter spec_not_pending records).
Proof.
  revert records; induction l as [|r l IH]; intros [|[[i p] t] records];
    cbn [map]; try discriminate; [reflexivity|].
  intros E. injection E as Ei Ey Ec E. apply (IH _) in E.
  cbn [filter]. unfold not_pending at 1, spec_not_pending at 1.
  cbn [with_country3 year3]. rewrite Ey. cbn [cell_eqb].
  destruct (negb (pystr_eqb p PENDING)); [|exact E].
  cbn [map]. rewrite E. unfold view3 at 1.
  cbn [index3 year3 country3 with_country3]. now rewrite Ei, Ey, Ec.
Qed.

(** The rows left before the coercion, and their periods. *)
Lemma remaining_raw table :
  map view3 (remaining (number 0 (raw table)))
  = map (fun '(i, p, t) => (Int i, Str p, replace_value MANUAL_RENAMES (Str t)))
        (filter spec_not_pending (spec_expand 0 table)).
Proof.
  unfold remaining, renamed. apply view3_rename_filter, expanded_raw.
Qed.

Lemma year3_view3 l : map year3 l = map (fun v => snd (fst v)) (map view3 l).
Proof. now rewrite map_map. Qed.

Lemma remaining_years_raw table :
  map year3 (remaining (number 0 (raw table)))
  = map (fun '(i, p, t) => Str p) (filter spec_not_pending (spec_expand 0 table)).
Proof.
  rewrite year3_view3, remaining_raw, map_map.
  apply map_ext. now intros [[i p] t].
Qed.

Lemma fields3_view3 l :
  map fields3 l = map (fun '(i, y, c) => [i; y; c]) (map view3 l).
Proof. now rewrite map_map. Qed.

Lemma cleaned_raw table :
  map fields3 (cleaned (number 0 (raw table))) = spec_clean table.
Proof.
  unfold cleaned, spec_clean. rewrite map_map.
  change (fun x => fields3 (with_year3 coerced x))
    with (fun x => (fun '(i, y, c) => [i; coerced y; c]) (view3 x)).
  rewrite <- (map_map view3), remaining_raw, map_map.
  apply map_ext. now intros [[i p] t].
Qed.

Lemma In_spec_expand i p t k table :
  In (i, p, t) (spec_expand k table) -> exists e, In (p, e) table.
Proof.
  revert k; induction table as [|[p' e'] table IH]; intros k; cbn [spec_expand].
  - intros [].
  - rewrite in_app_iff, in_map_iff. intros [[t' [[= <- <- <-] _]]|H].
    + exists e'. now left.
    + destruct (IH _ H) as [e He]. exists e. now right.
Qed.

Lemma coercible_iff c : coercible c = true <-> exists v, int_of_cell c = Ok v.
Proof.
  unfold coercible. destruct (int_of_cell c) as [v|e]; split; eauto;
    try discriminate. intros [v [=]].
Qed.

Lemma int_of_cell_Int c v : int_of_cell c = Ok v -> exists z, v = Int z.
Proof.
  destruct c as [| |s|z|l]; cbn [int_of_cell]; try discriminate.
  - destruct (PyInt.parse s) as [z|]; [|discriminate].
    destruct (fits_int64 z); [|discriminate]. intros [= <-]. eauto.
  - destruct (fits_int64 z); [|discriminate]. intros [= <-]. eauto.
Qed.

Lemma int_of_cell_Str_raise s e :
  int_of_cell (Str s) = Raise e -> e = ValueError \/ e = OverflowError.
Proof.
  cbn [int_of_cell]. destruct (PyInt.parse s) as [z|].
  - destruct (fits_int64 z); [discriminate|]. intros [= <-]. now right.
  - intros [= <-]. now left.
Qed.

Lemma kept_coercible table :
  periods_ok table ->
  Forall (fun '(_, p, _) => coercible (Str p) = true)
         (filter spec_not_pending (spec_expand 0 table)).
Proof.
  intros H. apply Forall_forall. intros [[i p] t] Hy.
  apply filter_In in Hy as [Hy Hp].
  apply In_spec_expand in Hy as [e He].
  unfold periods_ok in H. rewrite Forall_forall in H. specialize (H _ He).
  cbn in H. destruct H as [->|H]; [|exact H].
  cbn in Hp. discriminate.
Qed.

Lemma remaining_coercible table :
  periods_ok table ->
  Forall (fun y => coercible y = true)
         (map year3 (remaining (number 0 (raw table)))).
Proof.
  intros H. rewrite remaining_years_raw. apply Forall_forall.
  intros y Hy. apply in_map_iff in Hy as [[[i p] t] [<- Hy]].
  apply kept_coercible in H. rewrite Forall_forall in H. exact (H _ Hy).
Qed.

(** The cleaner returns as soon as every remaining year can be coerced. *)
Lemma clean_raw_ok table :
  Forall (fun y => coercible y = true)
         (map year3 (remaining (number 0 (raw table)))) ->
  clean_same_sex_marriage_data 0 (world_of (frame_of_table (raw table))) =
  (Ok 2,
   mkworld [frame2 (tokenised (number 0 (raw table)));
            frame3 (renamed (number 0 (raw table)));
            frame3 (cleaned (number 0 (raw table)))]
           [InfoCleaned (length (cleaned (number 0 (raw table))), 3)]).
Proof.
  intros H. unfold frame_of_table. rewrite clean_run.
  rewrite is_str_present2_raw.
  destruct (series_map_all_ok int_of_cell (map year3 (remaining (number 0 (raw table)))))
    as [ys E].
  { eapply Forall_impl; [|exact H]. intros c. apply coercible_iff. }
  unfold series_astype_int. now rewrite E.
Qed.

(** C4.  On a table of raw records the expansion stage returns a frame
    whose records are, row after row in document order, one record per
    token of the row in extraction order, each carrying the number of its
    source row and the period unchanged.  When every period is a number
    or "Pending" the cleaner returns these records without the pending
    ones, the period coerced and the country renamed.  The record with
    entities "Spain (2005) Portugal (2010)" and period "2005" yields
    (2005, "Spain") then (2005, "Portugal"). *)
Theorem split_countries_one_record_per_token :
  (forall table : list (pystr * pystr),
      exists w df,
        split_countries_into_rows 0 (world_of (frame_of_table (raw table)))
        = (Ok 1, w)
        /\ nth_error (heap w) 1 = Some df
        /\ columns df = ["index"; "year"; "country"]
        /\ records df
           = map (fun '(i, period, token) => [Int i; Str period; Str token])
                 (spec_expand 0 table))
  /\ (forall table : list (pystr * pystr),
         periods_ok table ->
         exists w df,
           clean_same_sex_marriage_data 0 (world_of (frame_of_table (raw table)))
           = (Ok 2, w)
           /\ nth_error (heap w) 2 = Some df
           /\ records df = spec_clean table)
  /\ returned_frame
       (clean_same_sex_marriage_data 0
          (world_of (frame_of_table
                       (raw [(py "2005", py "Spain (2005) Portugal (2010)")]))))
     = Some (mkdf ["index"; "year"; "country"]
                  [mkrow 0 [Int 0; Int 2005; Str (py "Spain")];
                   mkrow 1 [Int 0; Int 2005; Str (py "Portugal")]]).
Proof.
  split; [|split].
  - intros table. unfold frame_of_table.
    rewrite split_countries_into_rows_run. cbv zeta.
    rewrite is_str_present2_raw.
    eexists _, _. repeat split.
    rewrite records_frame3, fields3_view3.
    change (filter present3 _) with (expanded (number 0 (raw table))).
    rewrite expanded_raw, map_map. apply map_ext. now intros [[i p] t].
  - intros table H. rewrite clean_raw_ok.
    + eexists _, _. repeat split. rewrite records_frame3. apply cleaned_raw.
    + now apply remaining_coercible.
  - vm_compute. reflexivity.
Qed.

Lemma split_countries_one_record_per_token_witness :
  exists w df,
    clean_same_sex_marriage_data 0
      (world_of (frame_of_table
                   (raw [(py "2005", py "Spain (2005) Portugal (2010)");
                         (py "Pending", py "Example Country");
                         (py "2019", py "Taiwan (2019)")])))
    = (Ok 2, w)
    /\ nth_error (heap w) 2 = Some df
    /\ records df
       = [[Int 0; Int 2005; Str (py "Spain")];
          [Int 0; Int 2005; Str (py "Portugal")];
          [Int 2; Int 2019; Str (py "Taiwan, Province of China")]].
Proof.
  apply (proj1 (proj2 split_countries_one_record_per_token)
           [(py "2005", py "Spain (2005) Portugal (2010)");
            (py "Pending", py "Example Country");
            (py "2019", py "Taiwan (2019)")]).
  repeat (apply Forall_cons;
          [first [left; reflexivity | right; vm_compute; reflexivity]|]).
  apply Forall_nil.
Defined.

Lemma not_pending_years l : ~ In (Str PENDING) (map year3 (remaining l)).
Proof.
  intros H. apply in_map_iff in H as [r [E H]].
  apply filter_In in H as [_ H]. unfold not_pending in H.
  rewrite E in H. discriminate H.
Qed.

Lemma astype_raise_iff years :
  (exists e, series_astype_int years = Raise e)
  <-> Exists (fun y => coercible y = false) years.
Proof.
  split.
  - intros [e H]. apply series_map_raise in H.
    eapply Exists_impl; [|exact H]. cbn beta. intros c E.
    unfold coercible. now rewrite E.
  - intros H. destruct (series_astype_int years) as [ys|e] eqn:E; [|eauto].
    exfalso. apply series_map_ok in E as [_ F].
    apply Exists_exists in H as [c [Hc Hn]].
    rewrite Forall_forall in F. destruct (F _ Hc) as [v Hv].
    unfold coercible in Hn. rewrite Hv in Hn. discriminate.
Qed.

(** ** What [int] reads *)

Ltac bool_facts H :=
  repeat first
    [ rewrite orb_true_iff in H | rewrite andb_true_iff in H
    | rewrite orb_false_iff in H | rewrite andb_false_iff in H
    | rewrite N.leb_le in H | rewrite N.ltb_lt in H | rewrite N.eqb_eq in H
    | rewrite N.leb_gt in H | rewrite N.ltb_ge in H | rewrite N.eqb_neq in H ].

Lemma ascii_digit_bounds c : ascii_digit c = true -> (48 <= c <= 57)%N.
Proof. unfold ascii_digit. intros H. bool_facts H. lia. Qed.

Lemma ascii_digit_plain c :
  ascii_digit c = true ->
  PyInt.c_isspace c = false /\ char_eqb c PyInt.PLUS = false
  /\ char_eqb c PyInt.MINUS = false /\ char_eqb c PyInt.UNDERSCORE = false.
Proof.
  intros H. apply ascii_digit_bounds in H.
  unfold PyInt.c_isspace, char_eqb, PyInt.PLUS, PyInt.MINUS, PyInt.UNDERSCORE.
  repeat split;
    match goal with |- ?b = false => destruct b eqn:E; [|reflexivity] end;
    bool_facts E; lia.
Qed.

Lemma scan_digits_ascii p :
  ascii_digits p = true ->
  forall acc n b, b = true \/ p <> [] ->
    PyInt.scan_digits acc n b p
    = Some (fold_left (fun a c => (10 * a + (Z.of_N c - 48))%Z) p acc,
            (n + N.of_nat (length p))%N, []).
Proof.
  unfold ascii_digits.
  induction p as [|c p IH]; cbn [forallb]; intros D acc n b Hb.
  - destruct Hb as [->|H]; [|congruence]. cbn. now rewrite N.add_0_r.
  - apply andb_true_iff in D as [Dc D].
    destruct (ascii_digit_plain c Dc) as [_ [_ [_ U]]].
    cbn [PyInt.scan_digits fold_left length]. rewrite U.
    unfold PyInt.digit_value. unfold ascii_digit in Dc. rewrite Dc.
    rewrite (IH D _ _ true (or_introl eq_refl)).
    do 3 f_equal. lia.
Qed.

Lemma decimal_value_bound p :
  ascii_digits p = true ->
  forall acc, (0 <= acc)%Z ->
    (0 <= fold_left (fun a c => (10 * a + (Z.of_N c - 48))%Z) p acc
     < (acc + 1) * 10 ^ Z.of_nat (length p))%Z.
Proof.
  unfold ascii_digits.
  induction p as [|c p IH]; cbn [forallb fold_left length]; intros D acc Ha.
  - cbn. lia.
  - apply andb_true_iff in D as [Dc D]. apply ascii_digit_bounds in Dc.
    specialize (IH D (10 * acc + (Z.of_N c - 48))%Z ltac:(lia)).
    rewrite Nat2Z.inj_succ, Z.pow_succ_r by lia.
    assert (0 < 10 ^ Z.of_nat (length p))%Z by (apply Z.pow_pos_nonneg; lia).
    nia.
Qed.

Lemma is_ascii_digits p : ascii_digits p = true -> PyInt.is_ascii p = true.
Proof.
  unfold ascii_digits, PyInt.is_ascii. intros H.
  apply forallb_forall. intros c Hc.
  rewrite forallb_forall in H. apply H, ascii_digit_bounds in Hc.
  apply N.ltb_lt. lia.
Qed.

(** A text of ASCII digits reads as its decimal value. *)
Lemma parse_ascii_digits p :
  p <> [] -> ascii_digits p = true -> (length p <= 4300)%nat ->
  PyInt.parse p = Some (decimal_value p).
Proof.
  intros Hp D L. unfold PyInt.parse, PyInt.ascii_form.
  rewrite (is_ascii_digits _ D). unfold PyInt.from_string.
  destruct p as [|c p]; [congruence|].
  assert (Dc : ascii_digit c = true)
    by (unfold ascii_digits in D; cbn [forallb] in D;
        now apply andb_true_iff in D as [Dc _]).
  destruct (ascii_digit_plain c Dc) as [S [P [M _]]].
  cbn [PyInt.skip_spaces]. rewrite S, P, M.
  rewrite (scan_digits_ascii _ D 0 0 false) by (right; discriminate).
  assert (B : (PyInt.MAX_STR_DIGITS <? 0 + N.of_nat (length (c :: p)))%N = false)
    by (apply N.ltb_ge; unfold PyInt.MAX_STR_DIGITS; lia).
  rewrite B. cbn [forallb]. unfold decimal_value. now rewrite Z.mul_1_l.
Qed.

Lemma int_of_cell_plain_year p :
  plain_year p = true -> int_of_cell (Str p) = Ok (Int (decimal_value p)).
Proof.
  unfold plain_year. intros H.
  apply andb_true_iff in H as [H L]. apply andb_true_iff in H as [E D].
  apply Nat.leb_le in L.
  assert (Hp : p <> []) by (intros ->; discriminate E).
  cbn [int_of_cell]. rewrite (parse_ascii_digits p Hp D) by lia.
  pose proof (decimal_value_bound p D 0 ltac:(lia)) as B.
  fold (decimal_value p) in B.
  assert (P : (10 ^ Z.of_nat (length p) <= 10 ^ 18)%Z)
    by (apply Z.pow_le_mono_r; lia).
  assert (T : (10 ^ 18 = 1000000000000000000)%Z) by reflexivity.
  assert (F : fits_int64 (decimal_value p) = true).
  { unfold fits_int64, PyInt.INT64_MIN, PyInt.INT64_MAX.
    change (2 ^ 63)%Z with 9223372036854775808%Z.
    apply andb_true_iff. split; apply Z.leb_le; lia. }
  now rewrite F.
Qed.

Lemma skip_spaces_split s :
  exists ws, s = ws ++ PyInt.skip_spaces s
             /\ forallb PyInt.c_isspace ws = true.
Proof.
  induction s as [|c s [ws [E W]]]; [now exists []|].
  cbn [PyInt.skip_spaces]. destruct (PyInt.c_isspace c) eqn:S.
  - exists (c :: ws). cbn [app forallb]. rewrite S, W. now rewrite <- E.
  - now exists [].
Qed.

Lemma scan_digits_chars s :
  forall acc n b z m rest,
    PyInt.scan_digits acc n b s = Some (z, m, rest) ->
    exists body,
      s = body ++ rest
      /\ forallb (fun c => char_eqb c PyInt.UNDERSCORE || ascii_digit c) body
         = true.
Proof.
  induction s as [|c s IH]; intros acc n b z m rest H; cbn [PyInt.scan_digits] in H.
  - destruct b; [|discriminate]. injection H as _ _ <-. now exists [].
  - destruct (char_eqb c PyInt.UNDERSCORE) eqn:U.
    + destruct b; [|discriminate]. apply IH in H as [body [-> F]].
      exists (c :: body). cbn [app forallb]. now rewrite U, F.
    + unfold PyInt.digit_value in H.
      destruct ((48 <=? c)%N && (c <=? 57)%N) eqn:D.
      * apply IH in H as [body [-> F]].
        exists (c :: body). cbn [app forallb]. unfold ascii_digit at 1.
        now rewrite D, F, orb_true_r.
      * destruct b; [|discriminate]. injection H as _ _ <-. now exists [].
Qed.

(** Whatever [int] accepts in ASCII is made of the characters of a number. *)
Lemma from_string_chars t z :
  PyInt.from_string t = Some z -> forall c, In c t -> ascii_int_char c = true.
Proof.
  unfold PyInt.from_string. intros H c Hc.
  destruct (skip_spaces_split t) as [ws [E W]].
  rewrite forallb_forall in W.
  assert (Body : forall acc n b u,
             match PyInt.scan_digits acc n b u with
             | Some (z0, digits, rest) =>
                 if (PyInt.MAX_STR_DIGITS <? digits)%N then None
                 else if forallb PyInt.c_isspace rest then Some z0 else None
             | None => None
             end <> @None Z ->
             forall c, In c u -> ascii_int_char c = true).
  { intros acc n b u G d Hd.
    destruct (PyInt.scan_digits acc n b u) as [[[z0 m] rest]|] eqn:S;
      [|congruence].
    destruct (PyInt.MAX_STR_DIGITS <? m)%N; [congruence|].
    destruct (forallb PyInt.c_isspace rest) eqn:R; [|congruence].
    apply scan_digits_chars in S as [body [-> F]].
    rewrite forallb_forall in F, R. unfold ascii_int_char.
    apply in_app_iff in Hd as [Hd|Hd].
    - apply F in Hd. apply orb_true_iff in Hd as [->| ->];
        now rewrite ?orb_true_r.
    - now rewrite (R _ Hd). }
  rewrite E in Hc. apply in_app_iff in Hc as [Hc|Hc].
  { unfold ascii_int_char. now rewrite (W _ Hc). }
  destruct (PyInt.skip_spaces t) as [|c0 u] eqn:K; [destruct Hc|].
  destruct (char_eqb c0 PyInt.PLUS) eqn:P;
    [|destruct (char_eqb c0 PyInt.MINUS) eqn:M].
  - destruct Hc as [<-|Hc].
    + unfold ascii_int_char. now rewrite P, ?orb_true_r.
    + apply (Body 0%Z 0%N false u); [|exact Hc].
      destruct (PyInt.scan_digits 0 0 false u) as [[[z0 m] rest]|]; [|discriminate].
      destruct (PyInt.MAX_STR_DIGITS <? m)%N; [discriminate|].
      destruct (forallb PyInt.c_isspace rest); discriminate.
  - destruct Hc as [<-|Hc].
    + unfold ascii_int_char. now rewrite M, ?orb_true_r.
    + apply (Body 0%Z 0%N false u); [|exact Hc].
      destruct (PyInt.scan_digits 0 0 false u) as [[[z0 m] rest]|]; [|discriminate].
      destruct (PyInt.MAX_STR_DIGITS <? m)%N; [discriminate|].
      destruct (forallb PyInt.c_isspace rest); discriminate.
  - apply (Body 0%Z 0%N false (c0 :: u)); [|exact Hc].
    destruct (PyInt.scan_digits 0 0 false (c0 :: u)) as [[[z0 m] rest]|];
      [|discriminate].
    destruct (PyInt.MAX_STR_DIGITS <? m)%N; [discriminate|].
    destruct (forallb PyInt.c_isspace rest); discriminate.
Qed.

Lemma transform_foreign p :
  Exists (fun c => int_char c = false) p ->
  exists c, In c (PyInt.transform p) /\ ascii_int_char c = false.
Proof.
  induction p as [|a p IH]; intros H; [inversion H|].
  cbn [PyInt.transform]. destruct (a <? 127)%N eqn:L.
  - apply Exists_cons in H as [H|H].
    + unfold int_char in H. rewrite L in H. exists a. split; [now left|exact H].
    + destruct (IH H) as [c [Hc Hf]]. exists c. split; [now right|exact Hf].
  - destruct (isspace a) eqn:S.
    + apply Exists_cons in H as [H|H].
      * unfold int_char in H. rewrite L, S in H. discriminate.
      * destruct (IH H) as [c [Hc Hf]]. exists c. split; [now right|exact Hf].
    + destruct (PyInt.to_decimal a) as [d|] eqn:T.
      * apply Exists_cons in H as [H|H].
        -- unfold int_char in H. rewrite L, S, T in H. discriminate.
        -- destruct (IH H) as [c [Hc Hf]]. exists c. split; [now right|exact Hf].
      * exists PyInt.QUESTION. split; [now left|reflexivity].
Qed.

(** A text with a character that belongs to no number is refused. *)
Lemma parse_foreign p :
  Exists (fun c => int_char c = false) p -> PyInt.parse p = None.
Proof.
  intros H. destruct (PyInt.parse p) as [z|] eqn:E; [exfalso|reflexivity].
  unfold PyInt.parse in E. pose proof (from_string_chars _ _ E) as F.
  unfold PyInt.ascii_form in F. destruct (PyInt.is_ascii p) eqn:A.
  - apply Exists_exists in H as [c [Hc Hf]].
    unfold PyInt.is_ascii in A. rewrite forallb_forall in A.
    pose proof (A _ Hc) as Lc. apply N.ltb_lt in Lc.
    specialize (F _ Hc). unfold int_char in Hf.
    destruct (c <? 127)%N eqn:L; [congruence|].
    apply N.ltb_ge in L. assert (c = 127%N) by lia. subst c.
    discriminate F.
  - destruct (transform_foreign p H) as [c [Hc Hf]].
    rewrite (F _ Hc) in Hf. discriminate.
Qed.

Lemma int_of_cell_foreign p :
  Exists (fun c => int_char c = false) p ->
  int_of_cell (Str p) = Raise ValueError.
Proof. intros H. cbn [int_of_cell]. now rewrite (parse_foreign p H). Qed.

(** ** Which records stop the coercion *)

Lemma In_spec_expand_tokens p t k table :
  (exists i, In (i, p, t) (spec_expand k table))
  <-> exists e, In (p, e) table /\ In t (get_countries_from_string e).
Proof.
  revert k; induction table as [|[p' e'] table IH]; intros k; cbn [spec_expand].
  - split; [intros [i []] | intros [e [[] _]]].
  - split.
    + intros [i H]. apply in_app_iff in H as [H|H].
      * apply in_map_iff in H as [t' [[= <- <- <-] Ht]].
        exists e'. split; [now left|exact Ht].
      * destruct (proj1 (IH _) (ex_intro _ i H)) as [e [He Ht]].
        exists e. split; [now right|exact Ht].
    + intros [e [[[= -> ->]|He] Ht]].
      * exists k. apply in_app_iff. left. now apply in_map.
      * destruct (proj2 (IH (k + 1)%Z) (ex_intro _ e (conj He Ht))) as [i Hi].
        exists i. apply in_app_iff. now right.
Qed.

Lemma spec_not_pending_iff i p t : spec_not_pending (i, p, t) = true <-> p <> PENDING.
Proof.
  cbn [spec_not_pending]. rewrite negb_true_iff. split.
  - intros H ->. assert (pystr_eqb PENDING PENDING = true) by now apply pystr_eqb_eq.
    congruence.
  - intros H. destruct (pystr_eqb p PENDING) eqn:E; [|reflexivity].
    apply pystr_eqb_eq in E. contradiction.
Qed.

Lemma blocking_iff_remaining table :
  Exists blocking_record table
  <-> Exists (fun y => coercible y = false)
             (map year3 (remaining (number 0 (raw table)))).
Proof.
  rewrite remaining_years_raw, !Exists_exists. split.
  - intros [[p e] [He [Hp [Hc Ht]]]].
    destruct (get_countries_from_string e) as [|t ts] eqn:T; [congruence|].
    destruct (proj2 (In_spec_expand_tokens p t 0 table)) as [i Hi].
    { exists e. split; [exact He|]. rewrite T. now left. }
    exists (Str p). split; [|exact Hc].
    apply in_map_iff. exists (i, p, t). split; [reflexivity|].
    apply filter_In. split; [exact Hi|]. now apply spec_not_pending_iff.
  - intros [y [Hy Hc]]. apply in_map_iff in Hy as [[[i p] t] [<- Hy]].
    apply filter_In in Hy as [Hy Hp].
    destruct (proj1 (In_spec_expand_tokens p t 0 table) (ex_intro _ i Hy))
      as [e [He Ht]].
    exists (p, e). split; [exact He|]. repeat split.
    + now apply (spec_not_pending_iff i p t).
    + exact Hc.
    + intros E. rewrite E in Ht. destruct Ht.
Qed.

(** C5.  On a table of raw records the statements before [astype(int)]
    return, and the frame they leave holds no "Pending" period: those
    records are dropped before the coercion.  The cleaner raises exactly
    when the coercion of that frame does, which happens exactly when one
    of the remaining periods cannot be coerced to a 64-bit integer; the
    exception is then [ValueError] (not a number) or [OverflowError] (a
    number that does not fit 64 bits).  Which periods those are: a table
    whose periods are "Pending" or one to eighteen ASCII digits never
    raises; a period other than "Pending" that holds a character which is
    no white space, sign, underscore or decimal digit, in a record with a
    country token, always raises.  Value by value, a period of one to
    eighteen ASCII digits is coerced to the number it reads as, and a
    text with such a foreign character gives [ValueError]; a sign,
    single underscores, white space around the digits and the digits of
    other scripts are accepted, the separators 28..31 are not, and
    twenty nines overflow. *)
Theorem year_coercion_raises_iff_not_coercible :
  (forall table : list (pystr * pystr),
    let w0 := world_of (frame_of_table (raw table)) in
    exists w years,
      before_coercion 0 w0 = (Ok 2, w)
      /\ getitem 2 "year" w = (Ok years, w)
      /\ ~ In (Str PENDING) years
      /\ (forall e,
             (exists w', clean_same_sex_marriage_data 0 w0 = (Raise e, w'))
             <-> (exists w', year_to_int 2 w = (Raise e, w')))
      /\ ((exists e w', clean_same_sex_marriage_data 0 w0 = (Raise e, w'))
          <-> Exists (fun y => coercible y = false) years)
      /\ (forall e w',
             clean_same_sex_marriage_data 0 w0 = (Raise e, w') ->
             e = ValueError \/ e = OverflowError))
  /\ (forall table : list (pystr * pystr),
         Forall (fun '(period, _) =>
                   period = PENDING \/ plain_year period = true) table ->
         exists w,
           clean_same_sex_marriage_data 0 (world_of (frame_of_table (raw table)))
           = (Ok 2, w))
  /\ (forall (table : list (pystr * pystr)) period entities,
         In (period, entities) table ->
         period <> PENDING ->
         Exists (fun c => int_char c = false) period ->
         get_countries_from_string entities <> [] ->
         exists e w,
           clean_same_sex_marriage_data 0 (world_of (frame_of_table (raw table)))
           = (Raise e, w))
  /\ (forall p,
         plain_year p = true ->
         int_of_cell (Str p) = Ok (Int (decimal_value p)))
  /\ (forall p,
         Exists (fun c => int_char c = false) p ->
         int_of_cell (Str p) = Raise ValueError)
  /\ int_of_cell (Str (py " +2_001 ")) = Ok (Int 2001)
  /\ int_of_cell (Str FULLWIDTH_2001) = Ok (Int 2001)
  /\ int_of_cell (Str SEPARATED_2001) = Raise ValueError
  /\ int_of_cell (Str (py "99999999999999999999")) = Raise OverflowError.
Proof.
  split; [|split; [|split; [|split; [|split]]]].
  - intros table w0. subst w0. unfold frame_of_table.
    set (l := number 0 (raw table)).
    exists (mkworld [frame2 (tokenised l); frame3 (renamed l); frame3 (remaining l)] []),
           (map year3 (remaining l)).
    assert (Hclean : forall e,
               (exists w', clean_same_sex_marriage_data 0 (world_of (frame2 l))
                           = (Raise e, w'))
               <-> series_astype_int (map year3 (remaining l)) = Raise e).
    { intros e. rewrite clean_run. unfold l at 1. rewrite is_str_present2_raw.
      destruct (series_astype_int (map year3 (remaining l))) as [ys|e'].
      - split; [intros [w' [=]] | discriminate].
      - split; [intros [w' [= ->]]; reflexivity | intros [= ->]; eauto]. }
    repeat split.
    + rewrite before_coercion_run. unfold l. now rewrite is_str_present2_raw.
    + run_heap. now rewrite df_getitem_frame3_year.
    + apply not_pending_years.
    + intros H. apply Hclean in H. rewrite year_to_int_run, H. eauto.
    + intros [w' H]. apply Hclean. rewrite year_to_int_run in H.
      destruct (series_astype_int (map year3 (remaining l))); congruence.
    + intros [e [w' H]]. apply astype_raise_iff. exists e. apply Hclean. eauto.
    + intros H. apply astype_raise_iff in H as [e H]. exists e. now apply Hclean.
    + intros e w' H.
      assert (H' : series_astype_int (map year3 (remaining l)) = Raise e)
        by (apply Hclean; eauto).
      apply series_map_raise, Exists_exists in H' as [c [Hc He]].
      unfold l in Hc. rewrite remaining_years_raw in Hc.
      apply in_map_iff in Hc as [[[i p] t] [<- _]].
      eapply int_of_cell_Str_raise, He.
  - intros table H. rewrite clean_raw_ok; [eauto|].
    apply remaining_coercible. unfold periods_ok.
    eapply Forall_impl; [|exact H]. intros [p e] [Hp|Hp]; [now left|right].
    unfold coercible. now rewrite (int_of_cell_plain_year p Hp).
  - intros table period entities Hin Hp Hf Ht.
    assert (B : Exists blocking_record table).
    { apply Exists_exists. exists (period, entities). split; [exact Hin|].
      cbn. split; [exact Hp|]. split; [|exact Ht].
      unfold coercible. now rewrite (int_of_cell_foreign period Hf). }
    apply blocking_iff_remaining, astype_raise_iff in B as [e B].
    unfold frame_of_table. rewrite clean_run, is_str_present2_raw, B. eauto.
  - exact int_of_cell_plain_year.
  - exact int_of_cell_foreign.
  - repeat split; vm_compute; reflexivity.
Qed.

Lemma year_coercion_raises_iff_not_coercible_witness :
  (exists e w',
      clean_same_sex_marriage_data 0
        (world_of (frame_of_table
                     (raw [(py "2001", py "Netherlands");
                           (py "Pending", py "Example Country");
                           (py "2OO5", py "Spain (2005) Canada (2005)")])))
      = (Raise e, w'))
  /\ (exists w,
         clean_same_sex_marriage_data 0
           (world_of (frame_of_table
                        (raw [(py "2001", py "Netherlands");
                              (py "Pending", py "Example Country")])))
         = (Ok 2, w))
  /\ int_of_cell (Str (py "2001")) = Ok (Int 2001)
  /\ int_of_cell (Str (py "2OO5")) = Raise ValueError.
Proof.
  split; [|split; [|split]].
  - apply (proj1 (proj2 (proj2 year_coercion_raises_iff_not_coercible))
             [(py "2001", py "Netherlands");
              (py "Pending", py "Example Country");
              (py "2OO5", py "Spain (2005) Canada (2005)")]
             (py "2OO5") (py "Spain (2005) Canada (2005)")).
    + right. right. left. reflexivity.
    + intros H. vm_compute in H. discriminate H.
    + apply Exists_cons_tl, Exists_cons_hd. reflexivity.
    + vm_compute. discriminate.
  - apply (proj1 (proj2 year_coercion_raises_iff_not_coercible)
             [(py "2001", py "Netherlands");
              (py "Pending", py "Example Country")]).
    apply Forall_cons; [right; reflexivity|].
    apply Forall_cons; [left; reflexivity|]. apply Forall_nil.
  - apply (proj1 (proj2 (proj2 (proj2 year_coercion_raises_iff_not_coercible)))
             (py "2001")).
    reflexivity.
  - apply (proj1 (proj2 (proj2 (proj2 (proj2
             year_coercion_raises_iff_not_coercible))))
             (py "2OO5")).
    apply Exists_cons_tl, Exists_cons_hd. reflexivity.
Defined.

Lemma filter_idem {A} (p : A -> bool) l : filter p (filter p l) = filter p l.
Proof.
  induction l as [|a l IH]; [reflexivity|]. cbn [filter].
  destruct (p a) eqn:E; [|exact IH]. cbn [filter]. now rewrite E, IH.
Qed.

Lemma nth_error_alloc {A} (h : list A) (x : A) :
  nth_error (h ++ [x]) (length h) = Some x.
Proof. induction h as [|a h IH]; [reflexivity|exact IH]. Qed.

Lemma remove_pending_alloc r w df :
  nth_error (heap w) r = Some df ->
  remove_pending r w =
  match without_pending df with
  | Ok df' => (Ok (length (heap w)), mkworld (heap w ++ [df']) (log w))
  | Raise e => (Raise e, w)
  end.
Proof.
  intros H. unfold remove_pending, without_pending. run_heap. rewrite H.
  destruct (df_getitem df "year"); cbn [rbind]; [|reflexivity].
  now rewrite H.
Qed.

Lemma without_pending_idem df df' :
  without_pending df = Ok df' -> without_pending df' = Ok df'.
Proof.
  unfold without_pending, df_getitem, df_loc, series_ne.
  destruct (col_pos "year" (columns df)) as [j|] eqn:E; cbn [rbind];
    [|discriminate].
  intros [= <-]. cbn [columns rows]. rewrite E. cbn [rbind].
  rewrite (map_map (get_cell j) (fun c => negb (cell_eqb c (Str PENDING)))
             (rows df)).
  rewrite (loc_mask (fun r => negb (cell_eqb (get_cell j r) (Str PENDING)))).
  rewrite map_map.
  rewrite (loc_mask (fun r => negb (cell_eqb (get_cell j r) (Str PENDING)))).
  now rewrite filter_idem.
Qed.

(** C9.  Dropping the pending records twice leaves the frame the first
    pass produced: [remove_pending] run on its own result allocates a frame
    equal to that result.  Whenever the cleaner returns, the [year] column
    of its frame holds no "Pending". *)
Theorem remove_pending_idempotent :
  (forall w r r1 w1,
      remove_pending r w = (Ok r1, w1) ->
      exists r2 w2,
        remove_pending r1 w1 = (Ok r2, w2)
        /\ nth_error (heap w2) r2 = nth_error (heap w1) r1
        /\ nth_error (heap w1) r1 <> None)
  /\ (forall (table : list (cell * cell)) r w,
         clean_same_sex_marriage_data 0 (world_of (frame_of_table table))
         = (Ok r, w) ->
         exists df years,
           nth_error (heap w) r = Some df
           /\ df_getitem df "year" = Ok years
           /\ ~ In (Str PENDING) years).
Proof.
  split.
  - intros w r r1 w1 H.
    destruct (nth_error (heap w) r) as [df|] eqn:Hr.
    2:{ unfold remove_pending, getitem, deref, bind in H.
        rewrite Hr in H. discriminate. }
    rewrite (remove_pending_alloc _ _ _ Hr) in H.
    destruct (without_pending df) as [df'|] eqn:E; [|discriminate].
    injection H as <- <-. cbn [heap].
    assert (Hr1 : nth_error (heap w ++ [df']) (length (heap w)) = Some df')
      by apply nth_error_alloc.
    rewrite (remove_pending_alloc (length (heap w))
               (mkworld (heap w ++ [df']) (log w)) _ Hr1).
    rewrite (without_pending_idem _ _ E). cbn [heap].
    eexists _, _. split; [reflexivity|]. cbn [heap].
    rewrite Hr1, nth_error_alloc. split; [reflexivity|discriminate].
  - intros table r w H. unfold frame_of_table in H. rewrite clean_run in H.
    destruct (forallb is_str _) in H; [|discriminate].
    destruct (series_astype_int _) as [ys|] eqn:E in H; [|discriminate].
    injection H as <- <-. cbn [heap nth_error].
    eexists _, _. split; [reflexivity|].
    split; [apply df_getitem_frame3_year|].
    unfold cleaned. rewrite map_map. intros HIn.
    apply in_map_iff in HIn as [x [Hx HIn]]. cbn [with_year3 year3] in Hx.
    apply series_map_ok in E as [_ F]. rewrite Forall_forall in F.
    destruct (F (year3 x)) as [v Hv]; [now apply in_map|].
    unfold coerced in Hx. rewrite Hv in Hx.
    apply int_of_cell_Int in Hv as [z ->]. discriminate.
Qed.

Lemma remove_pending_idempotent_witness :
  exists df,
    returned_frame
      (clean_same_sex_marriage_data 0
         (world_of (frame_of_table
                      [(Str (py "2001"), Str (py "Netherlands"));
                       (Str (py "Pending"), Str (py "Example Country"))])))
    = Some df
    /\ df_getitem df "year" = Ok [Int 2001]
    /\ exists r2 w2,
        remove_pending 0
          (world_of (frame3 [mkrow3 0 (Int 0) (Str (py "2001")) (Str (py "Netherlands"));
                             mkrow3 1 (Int 1) (Str (py "Pending")) (Str (py "Example Country"))]))
        = (Ok 1, mkworld [frame3 [mkrow3 0 (Int 0) (Str (py "2001")) (Str (py "Netherlands"));
                             mkrow3 1 (Int 1) (Str (py "Pending")) (Str (py "Example Country"))];
                          frame3 [mkrow3 0 (Int 0) (Str (py "2001")) (Str (py "Netherlands"))]] [])
        /\ remove_pending 1
          (mkworld [frame3 [mkrow3 0 (Int 0) (Str (py "2001")) (Str (py "Netherlands"));
                             mkrow3 1 (Int 1) (Str (py "Pending")) (Str (py "Example Country"))];
                          frame3 [mkrow3 0 (Int 0) (Str (py "2001")) (Str (py "Netherlands"))]] [])
           = (Ok r2, w2)
        /\ nth_error (heap w2) r2
           = Some (frame3 [mkrow3 0 (Int 0) (Str (py "2001")) (Str (py "Netherlands"))]).
Proof.
  destruct (proj2 remove_pending_idempotent
              [(Str (py "2001"), Str (py "Netherlands"));
               (Str (py "Pending"), Str (py "Example Country"))]
              2 _ eq_refl) as [df [years [Hdf [Hget _]]]].
  exists df. split; [exact Hdf|].
  split; [injection Hdf as <-; reflexivity|].
  destruct (proj1 remove_pending_idempotent
              (world_of (frame3 [mkrow3 0 (Int 0) (Str (py "2001")) (Str (py "Netherlands"));
                                 mkrow3 1 (Int 1) (Str (py "Pending")) (Str (py "Example Country"))]))
              0 _ _ eq_refl) as [r2 [w2 [H2 [Heq _]]]].
  exists r2, w2. split; [reflexivity|]. split; [exact H2|]. exact Heq.
Defined.

(* ===================================================================== *)
(** * The resolver *)
(* ===================================================================== *)

(** ** [sorted] *)

Lemma pystr_leb_total s t : pystr_leb s t = false -> pystr_leb t s = true.
Proof.
  revert t; induction s as [|a s IH]; intros [|b t]; cbn [pystr_leb];
    try discriminate; try reflexivity.
  destruct (a <? b)%N eqn:E1; [discriminate|].
  destruct (b <? a)%N eqn:E2; [reflexivity|]. apply IH.
Qed.

Lemma insert_sorted_HdRel a s l :
  pystr_le a s -> HdRel pystr_le a l -> HdRel pystr_le a (insert_sorted s l).
Proof.
  intros Has H. destruct l as [|t l]; cbn [insert_sorted].
  - now constructor.
  - inversion H; subst. destruct (pystr_leb s t); now constructor.
Qed.

Lemma insert_sorted_Sorted s l :
  Sorted pystr_le l -> Sorted pystr_le (insert_sorted s l).
Proof.
  induction 1 as [|t l Hl IH Hd]; cbn [insert_sorted].
  - repeat constructor.
  - destruct (pystr_leb s t) eqn:E.
    + constructor; [now constructor|]. now constructor.
    + constructor; [exact IH|].
      apply insert_sorted_HdRel; [|exact Hd]. now apply pystr_leb_total.
Qed.

Lemma sort_Sorted l : Sorted pystr_le (sort l).
Proof.
  induction l as [|s l IH]; cbn [sort]; [constructor|].
  now apply insert_sorted_Sorted.
Qed.

Lemma insert_sorted_Permutation s l : Permutation (insert_sorted s l) (s :: l).
Proof.
  induction l as [|t l IH]; cbn [insert_sorted]; [reflexivity|].
  destruct (pystr_leb s t); [reflexivity|].
  rewrite IH. apply perm_swap.
Qed.

Lemma sort_Permutation l : Permutation (sort l) l.
Proof.
  induction l as [|s l IH]; cbn [sort]; [reflexivity|].
  rewrite insert_sorted_Permutation. now constructor.
Qed.

(** ** The lookup *)

Lemma strs_of_texts s : forallb is_str s = true -> strs_of s = Ok (texts s).
Proof.
  induction s as [|c s IH]; [reflexivity|]. cbn [forallb].
  destruct c; try discriminate. cbn [is_str andb strs_of texts].
  intros H. now rewrite (IH H).
Qed.

Section ResolverFacts.

Variable countries_get_name : pystr -> option Country.

Lemma get_iso_code_run s w :
  get_iso_code_from_country countries_get_name (Str s) w
  = (Ok (resolved countries_get_name s), w).
Proof.
  unfold get_iso_code_from_country, try_except, bind, lift, ret, resolved.
  cbn [pycountry_countries_get].
  now destruct (countries_get_name s).
Qed.

Lemma series_mapM_get_iso_code s w :
  forallb is_str s = true ->
  series_mapM (get_iso_code_from_country countries_get_name) s w
  = (Ok (map (resolved_cell countries_get_name) s), w).
Proof.
  induction s as [|c s IH]; [reflexivity|]. cbn [forallb].
  destruct c; try discriminate. cbn [is_str andb]. intros H.
  cbn [series_mapM]. rewrite bind_run, get_iso_code_run.
  rewrite bind_run, (IH H). reflexivity.
Qed.

Lemma is_str_unmatched l :
  forallb is_str (map country3 l) = true ->
  forallb is_str
    (map country4 (filter unmatched4 (with_resolved countries_get_name l)))
  = true.
Proof.
  induction l as [|r l IH]; [reflexivity|]. cbn [map forallb].
  intros H. apply andb_true_iff in H as [Hr H].
  unfold with_resolved. cbn [map filter].
  destruct (unmatched4 _); [|now apply IH].
  cbn [map forallb]. unfold with_iso_code at 1. cbn [country4].
  rewrite Hr. now apply IH.
Qed.

Lemma texts_unmatched l :
  forallb is_str (map country3 l) = true ->
  texts (map country4 (filter unmatched4 (with_resolved countries_get_name l)))
  = filter (unknown countries_get_name) (texts (map country3 l)).
Proof.
  induction l as [|r l IH]; [reflexivity|]. cbn [map forallb].
  intros H. apply andb_true_iff in H as [Hr H].
  unfold with_resolved. cbn [map filter].
  unfold unmatched4 at 1, with_iso_code at 1 2. cbn [iso_code4].
  destruct (country3 r) as [| |s|z|ts] eqn:E; try discriminate.
  cbn [resolved_cell texts filter]. unfold resolved. unfold unknown at 1.
  destruct (countries_get_name s); cbn [isna].
  - now apply IH.
  - cbn [map country4 texts]. f_equal. now apply IH.
Qed.

(** The resolver on a frame of the cleaner's shape, anywhere in the heap,
    statement by statement. *)
Lemma add_iso_code_run_at w r l :
  nth_error (heap w) r = Some (frame3 l) ->
  forallb is_str (map country3 l) = true ->
  add_iso_code_to_data countries_get_name r w =
  (Ok r,
   mkworld
     (set_nth r (frame4 (filter present4 (with_resolved countries_get_name l)))
              (heap w))
     (log w ++
      [DebugUnmatched
         (sort (filter (unknown countries_get_name) (texts (map country3 l))));
       InfoExtracted])).
Proof.
  intros Hr H. unfold add_iso_code_to_data.
  rewrite bind_run, (getitem_run _ _ _ _ Hr), df_getitem_frame3_country.
  rewrite bind_run, (series_mapM_get_iso_code _ _ H).
  rewrite map_map.
  rewrite bind_run,
    (setitem_run _ _ _ _ _ _ Hr (df_setitem_frame3_iso_code l _)).
  change (map (with_iso_code (resolved_cell countries_get_name)) l)
    with (with_resolved countries_get_name l).
  set (l4 := with_resolved countries_get_name l).
  assert (Hr4 : nth_error (heap (mkworld (set_nth r (frame4 l4) (heap w)) (log w))) r
                = Some (frame4 l4))
    by (cbn [heap]; eapply nth_error_set_nth; exact Hr).
  rewrite bind_run, (getitem_run _ _ _ _ Hr4), df_getitem_frame4_iso_code.
  cbv zeta. unfold series_isnull. rewrite map_map.
  change (fun x => isna (iso_code4 x)) with unmatched4.
  rewrite bind_run, (deref_run _ _ _ Hr4).
  rewrite df_loc_frame4, df_getitem_frame4_country.
  rewrite bind_run. unfold lift at 1. cbv beta iota.
  rewrite bind_run. unfold lift at 1, sorted. fold l4.
  unfold l4 at 1.
  rewrite (strs_of_texts _ (is_str_unmatched _ H)).
  rewrite (texts_unmatched _ H). cbn [rbind]. cbv beta iota.
  rewrite bind_run. unfold logger at 1. cbv beta iota. cbn [heap log].
  rewrite bind_run.
  rewrite dropna_inplace_run with (df := frame4 l4)
    by (cbn [heap]; eapply nth_error_set_nth; exact Hr).
  cbv beta iota. cbn [heap log].
  rewrite bind_run. unfold logger, ret. cbn [heap log].
  rewrite set_nth_set_nth, df_dropna_frame4, <- app_assoc.
  reflexivity.
Qed.

End ResolverFacts.

(** ** The cleaner followed by the resolver *)

Lemma replace_value_Str t :
  replace_value MANUAL_RENAMES (Str t) = Str (renamed_name t).
Proof.
  unfold renamed_name, MANUAL_RENAMES. cbn [replace_value cell_eqb].
  destruct (pystr_eqb t _); [reflexivity|].
  destruct (pystr_eqb t _); reflexivity.
Qed.

Lemma cleaned_view_raw table :
  map view3 (cleaned (number 0 (raw table)))
  = map (fun '(i, p, t) => (Int i, coerced (Str p), Str (renamed_name t)))
        (filter spec_not_pending (spec_expand 0 table)).
Proof.
  unfold cleaned. rewrite map_map.
  change (fun x => view3 (with_year3 coerced x))
    with (fun x => (fun '(i, y, c) => (i, coerced y, c)) (view3 x)).
  rewrite <- (map_map view3), remaining_raw, map_map.
  apply map_ext. intros [[i p] t]. now rewrite replace_value_Str.
Qed.

Lemma is_str_cleaned_raw table :
  forallb is_str (map country3 (cleaned (number 0 (raw table)))) = true.
Proof.
  change country3 with (fun r => snd (view3 r)).
  rewrite <- (map_map view3), cleaned_view_raw, map_map.
  apply forallb_forall. intros c Hc.
  apply in_map_iff in Hc as [[[i p] t] [<- _]]. reflexivity.
Qed.

Lemma records_frame4 l : records (frame4 l) = map fields4 l.
Proof. unfold records, frame4. cbn [rows]. now rewrite map_map. Qed.

Lemma coerced_notna p : coercible (Str p) = true -> notna (coerced (Str p)) = true.
Proof.
  intros H. apply coercible_iff in H as [v Hv]. unfold coerced. rewrite Hv.
  apply int_of_cell_Int in Hv as [z ->]. reflexivity.
Qed.

Lemma resolved_fields f l recs :
  map view3 l
  = map (fun '(i, p, t) => (Int i, coerced (Str p), Str (renamed_name t))) recs ->
  Forall (fun '(_, p, _) => coercible (Str p) = true) recs ->
  map fields4 (filter present4 (with_resolved f l))
  = flat_map (fun '(i, p, t) =>
                match f (renamed_name t) with
                | Some entry =>
                    [[Int i; coerced (Str p); Str (renamed_name t);
                      Str (alpha_3 entry)]]
                | None => []
                end) recs.
Proof.
  revert recs; induction l as [|[k ri ry rc] l IH]; intros [|[[i p] t] recs];
    cbn [map]; try discriminate; [reflexivity|].
  intros E F. unfold view3 at 1 in E. cbn [index3 year3 country3] in E.
  injection E as -> -> -> E.
  inversion F as [|? ? Hc F']; subst.
  unfold with_resolved. cbn [map filter flat_map].
  unfold present4 at 1. unfold with_iso_code at 1 2 3 4 5.
  cbn [index3 year3 country3 label3 index4 year4 country4 iso_code4].
  rewrite (coerced_notna _ Hc). cbn [notna isna negb andb resolved_cell].
  unfold resolved.
  fold (with_resolved f l).
  destruct (f (renamed_name t)) as [entry|] eqn:Ef; cbn [notna isna negb].
  - cbn [map app fields4 index4 year4 country4 iso_code4].
    f_equal. now apply IH.
  - cbn [app]. now apply IH.
Qed.

Lemma clean_and_resolve_raw f table :
  periods_ok table ->
  clean_and_resolve f 0 (world_of (frame_of_table (raw table))) =
  (Ok 2,
   mkworld [frame2 (tokenised (number 0 (raw table)));
            frame3 (renamed (number 0 (raw table)));
            frame4 (filter present4
                      (with_resolved f (cleaned (number 0 (raw table)))))]
           [InfoCleaned (length (cleaned (number 0 (raw table))), 3);
            DebugUnmatched
              (sort (filter (unknown f)
                       (texts (map country3 (cleaned (number 0 (raw table)))))));
            InfoExtracted]).
Proof.
  intros H. unfold clean_and_resolve.
  rewrite bind_run, clean_raw_ok by now apply remaining_coercible.
  rewrite bind_run.
  rewrite (add_iso_code_run_at f _ 2 (cleaned (number 0 (raw table))));
    [reflexivity | reflexivity | apply is_str_cleaned_raw].
Qed.

(** The records the two stages leave are those of the specification. *)
Lemma clean_and_resolve_records f table :
  periods_ok table ->
  exists w df,
    clean_and_resolve f 0 (world_of (frame_of_table (raw table))) = (Ok 2, w)
    /\ nth_error (heap w) 2 = Some df
    /\ columns df = ["index"; "year"; "country"; "iso_code"]
    /\ records df = spec_resolve f table.
Proof.
  intros H. rewrite (clean_and_resolve_raw f _ H).
  eexists _, _. split; [reflexivity|]. split; [reflexivity|].
  split; [reflexivity|].
  rewrite records_frame4. unfold spec_resolve.
  apply resolved_fields; [apply cleaned_view_raw | now apply kept_coercible].
Qed.

Lemma replace_value_renames t :
  replace_value MANUAL_RENAMES (Str t) <> Str (py "Taiwan")
  /\ replace_value MANUAL_RENAMES (Str t) <> Str (py "England and Wales").
Proof.
  unfold MANUAL_RENAMES. cbn [replace_value cell_eqb].
  let x := eval cbv in (py "Taiwan") in change (py "Taiwan") with x.
  let x := eval cbv in (py "England and Wales") in
  change (py "England and Wales") with x.
  repeat match goal with
         | |- context [pystr_eqb t ?x] => destruct (pystr_eqb t x) eqn:?
         end;
    split; try discriminate; intros [= ->]; discriminate.
Qed.

(** C7.  The rename table sends "Taiwan" to "Taiwan, Province of China"
    and "England and Wales" to "United Kingdom".  Whenever the cleaner
    returns, the [country] column of its frame holds the renamed tokens of
    the records that are not pending, so neither old name is left for the
    resolver.  The cleaner followed by the resolver leaves the records of
    [spec_resolve], where the database is asked for the renamed name.
    With "Taiwan (2019)" in the table, the code the resolver writes is the
    one the database gives for "Taiwan, Province of China". *)
Theorem manual_renames_before_lookup :
  replace_value MANUAL_RENAMES (Str (py "Taiwan"))
  = Str (py "Taiwan, Province of China")
  /\ replace_value MANUAL_RENAMES (Str (py "England and Wales"))
     = Str (py "United Kingdom")
  /\ (forall (table : list (pystr * pystr)) r w,
         clean_same_sex_marriage_data 0 (world_of (frame_of_table (raw table)))
         = (Ok r, w) ->
         exists df countries,
           nth_error (heap w) r = Some df
           /\ df_getitem df "country" = Ok countries
           /\ countries
              = map (fun '(_, _, token) =>
                       replace_value MANUAL_RENAMES (Str token))
                    (filter spec_not_pending (spec_expand 0 table))
           /\ ~ In (Str (py "Taiwan")) countries
           /\ ~ In (Str (py "England and Wales")) countries)
  /\ (forall (countries_get_name : pystr -> option Country)
             (table : list (pystr * pystr)),
         periods_ok table ->
         exists w df,
           clean_and_resolve countries_get_name 0
             (world_of (frame_of_table (raw table))) = (Ok 2, w)
           /\ nth_error (heap w) 2 = Some df
           /\ records df = spec_resolve countries_get_name table)
  /\ (forall (countries_get_name : pystr -> option Country) entry,
         countries_get_name (py "Taiwan, Province of China") = Some entry ->
         returned_frame
           (clean_and_resolve countries_get_name 0
              (world_of (frame_of_table (raw [(py "2019", py "Taiwan (2019)")]))))
         = Some (mkdf ["index"; "year"; "country"; "iso_code"]
                      [mkrow 0 [Int 0; Int 2019;
                                Str (py "Taiwan, Province of China");
                                Str (alpha_3 entry)]])).
Proof.
  split; [reflexivity|]. split; [reflexivity|]. split; [|split].
  - intros table r w H. unfold frame_of_table in H. rewrite clean_run in H.
    rewrite is_str_present2_raw in H.
    destruct (series_astype_int _) in H; [|discriminate].
    injection H as <- <-. cbn [heap nth_error].
    set (l := number 0 (raw table)).
    assert (E : map country3 (cleaned l)
                = map (fun '(_, _, token) =>
                         replace_value MANUAL_RENAMES (Str token))
                      (filter spec_not_pending (spec_expand 0 table))).
    { unfold cleaned. rewrite map_map.
      change (fun x => country3 (with_year3 coerced x))
        with (fun x => snd (view3 x)).
      rewrite <- (map_map view3). unfold l. rewrite remaining_raw, map_map.
      apply map_ext. now intros [[i p] t]. }
    eexists _, _. split; [reflexivity|].
    split; [apply df_getitem_frame3_country|].
    split; [exact E|]. rewrite E.
    split; intros H; apply in_map_iff in H as [[[i p] t] [H _]];
      now apply (replace_value_renames t) in H.
  - intros f table H.
    destruct (clean_and_resolve_records f table H) as [w [df [H1 [H2 [_ H3]]]]].
    eauto.
  - intros f entry H. vm_compute. vm_compute in H. rewrite H. reflexivity.
Qed.

Lemma manual_renames_before_lookup_witness :
  exists df,
    returned_frame
      (clean_same_sex_marriage_data 0
         (world_of (frame_of_table
                      (raw [(py "2019", py "Taiwan (2019)");
                            (py "2014", py "England and Wales[nationwide] (2014)")]))))
    = Some df
    /\ df_getitem df "country"
       = Ok [Str (py "Taiwan, Province of China"); Str (py "United Kingdom")]
    /\ returned_frame
         (clean_and_resolve sample_countries 0
            (world_of (frame_of_table (raw [(py "2019", py "Taiwan (2019)")]))))
       = Some (mkdf ["index"; "year"; "country"; "iso_code"]
                    [mkrow 0 [Int 0; Int 2019;
                              Str (py "Taiwan, Province of China");
                              Str (py "TWN")]]).
Proof.
  destruct (proj1 (proj2 (proj2 manual_renames_before_lookup))
              [(py "2019", py "Taiwan (2019)");
               (py "2014", py "England and Wales[nationwide] (2014)")]
              2 _ eq_refl) as [df [countries [Hdf [Hget [Hc _]]]]].
  exists df. split; [exact Hdf|]. split.
  - rewrite Hget, Hc. reflexivity.
  - apply (proj2 (proj2 (proj2 (proj2 manual_renames_before_lookup)))
             sample_countries
             (mkCountry (py "Taiwan, Province of China") (py "TW") (py "TWN"))).
    reflexivity.
Defined.

(** C6.  For every name and every state of the database,
    [get_iso_code_from_country] returns without raising and without
    logging: the [alpha_3] of the entry the database has under that name,
    and [None] when it has none.  So "Canada" gives "CAN" as soon as the
    database lists Canada with that code. *)
Theorem get_iso_code_exact_or_none :
  forall (countries_get_name : pystr -> option Country) (country : pystr) w,
    (forall entry,
        countries_get_name country = Some entry ->
        get_iso_code_from_country countries_get_name (Str country) w
        = (Ok (Str (alpha_3 entry)), w))
    /\ (countries_get_name country = None ->
        get_iso_code_from_country countries_get_name (Str country) w
        = (Ok PyNone, w))
    /\ (forall entry,
           countries_get_name (py "Canada") = Some entry ->
           alpha_3 entry = py "CAN" ->
           get_iso_code_from_country countries_get_name (Str (py "Canada")) w
           = (Ok (Str (py "CAN")), w)).
Proof.
  intros f country w. repeat split.
  - intros entry H. rewrite get_iso_code_run. unfold resolved. now rewrite H.
  - intros H. rewrite get_iso_code_run. unfold resolved. now rewrite H.
  - intros entry H E. rewrite get_iso_code_run. unfold resolved.
    now rewrite H, E.
Qed.

Lemma get_iso_code_exact_or_none_witness :
  get_iso_code_from_country sample_countries (Str (py "Canada")) (mkworld [] [])
  = (Ok (Str (py "CAN")), mkworld [] [])
  /\ get_iso_code_from_country sample_countries (Str (py "Example Country"))
       (mkworld [] [])
     = (Ok PyNone, mkworld [] []).
Proof.
  split.
  - apply (proj2 (proj2 (get_iso_code_exact_or_none sample_countries
                           (py "Canada") (mkworld [] [])))
             (mkCountry (py "Canada") (py "CA") (py "CAN")));
      reflexivity.
  - apply (proj1 (proj2 (get_iso_code_exact_or_none sample_countries
                           (py "Example Country") (mkworld [] [])))).
    reflexivity.
Defined.

(** C8, as amended.  On a frame of the cleaner's shape whose countries
    are text, wherever it lives in the heap, the resolver returns and logs
    one list of unmatched names: it is sorted, and it is a rearrangement of
    the names, taken in row order, that the database does not know, so a
    name unmatched in several rows is listed as many times. *)
Theorem unmatched_countries_sorted_not_deduplicated :
  forall (countries_get_name : pystr -> option Country) w r (l : list row3),
    nth_error (heap w) r = Some (frame3 l) ->
    forallb is_str (map country3 l) = true ->
    exists names w',
      add_iso_code_to_data countries_get_name r w = (Ok r, w')
      /\ log w' = log w ++ [DebugUnmatched names; InfoExtracted]
      /\ Sorted pystr_le names
      /\ Permutation names
           (filter (unknown countries_get_name) (texts (map country3 l))).
Proof.
  intros f w r l Hr H. eexists _, _.
  split; [exact (add_iso_code_run_at f w r l Hr H)|].
  split; [reflexivity|]. split; [apply sort_Sorted|apply sort_Permutation].
Qed.

Lemma unmatched_countries_sorted_not_deduplicated_witness :
  exists names w,
    add_iso_code_to_data sample_countries 0 (world_of (frame3 two_unmatched_rows))
    = (Ok 0, w)
    /\ log w = [DebugUnmatched names; InfoExtracted]
    /\ Sorted pystr_le names
    /\ Permutation names [py "Mexico City"; py "Coahuila"; py "Mexico City"].
Proof.
  apply (unmatched_countries_sorted_not_deduplicated sample_countries
           (world_of (frame3 two_unmatched_rows)) 0 two_unmatched_rows);
    reflexivity.
Defined.

(** C8, as stated, fails: a name that is unmatched in two rows is logged
    twice. *)
Lemma unmatched_countries_counterexample :
  snd (add_iso_code_to_data sample_countries 0
         (world_of (frame3 two_unmatched_rows)))
  = mkworld
      [frame4 [mkrow4 1 (Int 1) (Int 2001) (Str (py "Netherlands"))
                      (Str (py "NLD"))]]
      [DebugUnmatched [py "Coahuila"; py "Mexico City"; py "Mexico City"];
       InfoExtracted]
  /\ ~ NoDup [py "Coahuila"; py "Mexico City"; py "Mexico City"].
Proof.
  split; [vm_compute; reflexivity|].
  intros H. inversion H as [|? ? _ H']. inversion H' as [|? ? Hn _].
  apply Hn. now left.
Qed.

(** C1.  With a database that lists the Netherlands under the code "NLD",
    the cleaner followed by the resolver turns the table
    [("2001", "Netherlands"), ("Pending", "Example Country")] into a frame
    with one record, year 2001, country "Netherlands", code "NLD"; the
    pending row is gone. *)
Theorem clean_and_resolve_two_rows :
  forall (countries_get_name : pystr -> option Country) entry,
    countries_get_name (py "Netherlands") = Some entry ->
    alpha_3 entry = py "NLD" ->
    exists r w df,
      clean_and_resolve countries_get_name 0
        (world_of (frame_of_table
                     (raw [(py "2001", py "Netherlands");
                           (py "Pending", py "Example Country")])))
      = (Ok r, w)
      /\ nth_error (heap w) r = Some df
      /\ columns df = ["index"; "year"; "country"; "iso_code"]
      /\ records df
         = [[Int 0; Int 2001; Str (py "Netherlands"); Str (py "NLD")]].
Proof.
  intros f [n a2 a3] H E. cbn [alpha_3] in E. subst a3. vm_compute in H.
  eexists _, _, _. split; [|split; [|split]].
  - vm_compute. rewrite H. reflexivity.
  - reflexivity.
  - reflexivity.
  - reflexivity.
Qed.

Lemma clean_and_resolve_two_rows_witness :
  exists r w df,
    clean_and_resolve sample_countries 0
      (world_of (frame_of_table
                   (raw [(py "2001", py "Netherlands");
                         (py "Pending", py "Example Country")])))
    = (Ok r, w)
    /\ nth_error (heap w) r = Some df
    /\ columns df = ["index"; "year"; "country"; "iso_code"]
    /\ records df = [[Int 0; Int 2001; Str (py "Netherlands"); Str (py "NLD")]].
Proof.
  apply (clean_and_resolve_two_rows sample_countries
           (mkCountry (py "Netherlands") (py "NL") (py "NLD")));
    reflexivity.
Defined.

(* ===================================================================== *)
(** * The frame of the caller *)
(* ===================================================================== *)

Lemma tokenised_raw_differs table :
  table <> [] ->
  frame2 (tokenised (number 0 (raw table))) <> frame2 (number 0 (raw table)).
Proof.
  destruct table as [|[p e] table]; [congruence|]. intros _.
  unfold tokenised. rewrite present2_raw. cbn [raw map number].
  unfold frame2. cbn [map with_country2 tokenise_cell country2 year2 label2].
  intros H. injection H as H _. discriminate H.
Qed.

(** C10.  Both stages write into the frame they are given.  After the
    cleaner has run on a table with a missing period, the caller's frame
    has lost that row and its [country] cells hold token lists, while the
    result is another object; the resolver returns the very object it was
    given, now with an [iso_code] column and without the unmatched row.
    For every non-empty table of raw records, whether the cleaner returns
    or raises, the caller's frame is no longer what it was. *)
Theorem stages_mutate_their_argument :
  (let df := frame_of_table [(Str (py "2001"), Str (py "Netherlands"));
                             (NaN, Str (py "Spain (2005)"))] in
   exists w,
     clean_same_sex_marriage_data 0 (world_of df) = (Ok 2, w)
     /\ nth_error (heap w) 0
        = Some (frame2 [mkrow2 0 (Str (py "2001")) (Lst [py "Netherlands"])])
     /\ nth_error (heap w) 0 <> Some df)
  /\ (let df := frame3 [mkrow3 0 (Int 0) (Int 2001) (Str (py "Netherlands"));
                        mkrow3 1 (Int 1) (Int 2010) (Str (py "Mexico City"))] in
      exists w,
        add_iso_code_to_data sample_countries 0 (world_of df) = (Ok 0, w)
        /\ nth_error (heap w) 0
           = Some (frame4 [mkrow4 0 (Int 0) (Int 2001) (Str (py "Netherlands"))
                                  (Str (py "NLD"))])
        /\ nth_error (heap w) 0 <> Some df)
  /\ (forall (table : list (pystr * pystr)) out w,
         table <> [] ->
         clean_same_sex_marriage_data 0 (world_of (frame_of_table (raw table)))
         = (out, w) ->
         nth_error (heap w) 0 <> Some (frame_of_table (raw table))).
Proof.
  split; [|split].
  - cbv zeta. eexists. split; [vm_compute; reflexivity|].
    split; [reflexivity|]. vm_compute. discriminate.
  - cbv zeta. eexists. split; [vm_compute; reflexivity|].
    split; [reflexivity|]. vm_compute. discriminate.
  - intros table out w Hne H. unfold frame_of_table in *.
    rewrite clean_run, is_str_present2_raw in H.
    destruct (series_astype_int _) in H; injection H as <- <-;
      cbn [heap nth_error]; intros H;
      apply (tokenised_raw_differs table Hne); congruence.
Qed.

Lemma stages_mutate_their_argument_witness :
  nth_error
    (heap (snd (clean_same_sex_marriage_data 0
                  (world_of (frame_of_table (raw [(py "soon", py "Spain (2005)")]))))))
    0
  <> Some (frame_of_table (raw [(py "soon", py "Spain (2005)")])).
Proof.
  apply (proj2 (proj2 stages_mutate_their_argument)
           [(py "soon", py "Spain (2005)")]
           (fst (clean_same_sex_marriage_data 0
                   (world_of (frame_of_table (raw [(py "soon", py "Spain (2005)")])))))).
  - discriminate.
  - apply surjective_pairing.
Defined.

(* ===================================================================== *)
(** * More on the text parser *)
(* ===================================================================== *)

(** ** Trimming *)

Lemma lstrip_suffix s :
  exists ws, s = ws ++ lstrip s /\ forallb isspace ws = true.
Proof.
  induction s as [|c s [ws [E F]]]; cbn [lstrip].
  - exists []. split; reflexivity.
  - destruct (isspace c) eqn:Ec.
    + exists (c :: ws). cbn [app forallb]. rewrite Ec, F. split; [|reflexivity].
      now rewrite <- E.
    + exists []. split; reflexivity.
Qed.

Lemma lstrip_idem s : lstrip (lstrip s) = lstrip s.
Proof.
  induction s as [|c s IH]; [reflexivity|]. cbn [lstrip].
  destruct (isspace c) eqn:E; [exact IH|]. cbn [lstrip]. now rewrite E.
Qed.

Lemma rstrip_idem s : rstrip (rstrip s) = rstrip s.
Proof. unfold rstrip. now rewrite rev_involutive, lstrip_idem. Qed.

Lemma rstrip_prefix s :
  exists ws, s = rstrip s ++ ws /\ forallb isspace ws = true.
Proof.
  unfold rstrip. destruct (lstrip_suffix (rev s)) as [ws [E F]].
  exists (rev ws). split.
  - rewrite <- rev_app_distr, <- E. now rewrite rev_involutive.
  - rewrite forallb_forall in *. intros c Hc. apply F. now apply in_rev.
Qed.

Lemma lstrip_fixed_head s c t : s = c :: t -> lstrip s = s -> isspace c = false.
Proof. intros -> H. now apply (lstrip_head (c :: t) c t). Qed.

Lemma lstrip_rstrip s : lstrip s = s -> lstrip (rstrip s) = rstrip s.
Proof.
  intros H. destruct (rstrip_prefix s) as [ws [E F]].
  destruct (rstrip s) as [|c t] eqn:R; [reflexivity|].
  rewrite E in H. cbn [app] in H.
  assert (Hc : isspace c = false) by now apply (lstrip_fixed_head _ c (t ++ ws) eq_refl).
  cbn [lstrip]. now rewrite Hc.
Qed.

Lemma strip_idem s : strip (strip s) = strip s.
Proof.
  unfold strip. rewrite (lstrip_rstrip (lstrip s)) by apply lstrip_idem.
  apply rstrip_idem.
Qed.

Lemma strip_fixed_ends t :
  strip t = t ->
  (forall c, hd_error t = Some c -> isspace c = false)
  /\ (forall c, hd_error (rev t) = Some c -> isspace c = false).
Proof.
  intros H. split; intros c Hc.
  - destruct t as [|d t]; [discriminate|]. injection Hc as ->.
    unfold strip in H.
    destruct (rstrip_prefix (lstrip (c :: t))) as [ws [E _]].
    rewrite H in E. cbn [app] in E.
    destruct (lstrip (c :: t)) as [|d u] eqn:L; [discriminate|].
    injection E as -> _. now apply (lstrip_head _ _ _ L).
  - unfold strip, rstrip in H. apply (f_equal (@rev _)) in H.
    rewrite rev_involutive in H.
    destruct (rev t) as [|d u]; [discriminate|]. injection Hc as ->.
    now apply (lstrip_head _ _ _ H).
Qed.

(** X1.  Every token [get_countries_from_string] returns is trimmed: it
    equals its own [strip], so it neither starts nor ends with a
    whitespace character. *)
Theorem get_countries_tokens_trimmed :
  forall s token,
    In token (get_countries_from_string s) ->
    strip token = token
    /\ (forall c, hd_error token = Some c -> isspace c = false)
    /\ (forall c, hd_error (rev token) = Some c -> isspace c = false).
Proof.
  intros s token H.
  assert (E : strip token = token).
  { apply get_countries_from_kept_fragments in H as [f [_ [_ ->]]].
    unfold clean_fragment. apply strip_idem. }
  split; [exact E|]. now apply strip_fixed_ends.
Qed.

Lemma get_countries_tokens_trimmed_witness :
  strip (py "Canada") = py "Canada"
  /\ (forall c, hd_error (py "Canada") = Some c -> isspace c = false)
  /\ (forall c, hd_error (rev (py "Canada")) = Some c -> isspace c = false).
Proof.
  apply (get_countries_tokens_trimmed
           (py "  Spain  (2005) Canada [nationwide] (2005)") (py "Canada")).
  vm_compute. right. left. reflexivity.
Defined.

(** ** Any number of annotated names *)

Lemma split_annotated_tail entries :
  Forall well_formed_entry entries ->
  Re.split (annotated_tail entries)
  = map (fun entry => SPACE :: fst entry) entries ++ [[]].
Proof.
  induction 1 as [|[A x] entries [HA [Hx [Hn _]]] _ IH].
  - cbn [annotated_tail map app]. now rewrite split_unfold.
  - cbn [annotated_tail map app fst].
    change (SPACE :: A ++ SPACE :: Re.LPAREN :: x ++ Re.RPAREN :: annotated_tail entries)
      with ((SPACE :: A) ++ SPACE :: Re.LPAREN :: x ++ Re.RPAREN :: annotated_tail entries).
    rewrite split_annotation, IH; try assumption; [reflexivity|].
    cbn [In]. intros [E|E]; [discriminate E|contradiction].
Qed.

Lemma keep_annotated_tail entries :
  Forall well_formed_entry entries ->
  map clean_fragment
      (filter keep_fragment (map (fun entry => SPACE :: fst entry) entries ++ [[]]))
  = map (fun entry => clean_fragment (fst entry)) entries.
Proof.
  induction 1 as [|[A x] entries [_ [_ [_ HA]]] _ IH]; [reflexivity|].
  cbn [map app filter fst].
  rewrite (keep_fragment_true (SPACE :: A)) by (rewrite strip_space; exact HA).
  cbn [map]. now rewrite clean_fragment_space, IH.
Qed.

(** X2.  For any number of entries "name (annotation)" separated by one
    space, where no name holds a [(] or is blank and no annotation holds a
    [)] or a line feed, [get_countries_from_string] returns the names in
    order, one token per entry, each with the tag removed and trimmed. *)
Theorem get_countries_annotated :
  forall entries : list (pystr * pystr),
    Forall well_formed_entry entries ->
    get_countries_from_string (annotated entries)
    = map (fun entry => clean_fragment (fst entry)) entries.
Proof.
  intros entries H. destruct H as [|[A x] entries [HA [Hx [Hn SA]]] H].
  - reflexivity.
  - unfold get_countries_from_string. cbn [annotated].
    rewrite split_annotation, split_annotated_tail by assumption.
    cbn [filter map fst]. rewrite (keep_fragment_true A SA). cbn [map].
    now rewrite keep_annotated_tail.
Qed.

Lemma get_countries_annotated_witness :
  get_countries_from_string (py "Spain (2005) Canada[nationwide] (2005) South Africa (2006)")
  = [py "Spain"; py "Canada"; py "South Africa"].
Proof.
  apply (get_countries_annotated
           [(py "Spain", py "2005"); (py "Canada[nationwide]", py "2005");
            (py "South Africa", py "2006")]).
  repeat (apply Forall_cons;
          [repeat split; first [not_in_literal | vm_compute; discriminate]|]).
  apply Forall_nil.
Defined.

(** ** Texts without an annotation *)

Lemma search_no_lparen s : ~ In Re.LPAREN s -> Re.search s = None.
Proof.
  induction s as [|a s IH]; intros H; [reflexivity|].
  cbn [In] in H. cbn [Re.search].
  assert (Re.match_here (a :: s) = None) as ->.
  { destruct s as [|b s]; [reflexivity|]. apply match_here_no_lparen.
    cbn [In] in H. intros ->. tauto. }
  rewrite IH by tauto. reflexivity.
Qed.

Lemma lazy_dots_no_rparen s : ~ In Re.RPAREN s -> Re.lazy_dots_rparen s = None.
Proof.
  induction s as [|c s IH]; intros H; [reflexivity|].
  cbn [In] in H. cbn [Re.lazy_dots_rparen].
  destruct (char_eqb c Re.RPAREN) eqn:E.
  { apply char_eqb_eq in E. subst. tauto. }
  destruct (char_eqb c Re.NEWLINE); [reflexivity|]. apply IH. tauto.
Qed.

Lemma search_no_rparen s : ~ In Re.RPAREN s -> Re.search s = None.
Proof.
  induction s as [|a s IH]; intros H; [reflexivity|].
  cbn [In] in H. cbn [Re.search].
  assert (Re.match_here (a :: s) = None) as ->.
  { destruct s as [|b s]; [reflexivity|]. cbn [Re.match_here].
    rewrite lazy_dots_no_rparen; [now destruct (_ && _)|].
    cbn [In] in H. tauto. }
  rewrite IH by tauto. reflexivity.
Qed.

(** X3.  A text that holds no [(], or no [)], is never split: it comes
    back as one token, cleaned, or as no token at all when it is blank.
    So a name without annotation is kept, and an opening parenthesis that
    is never closed stays in the token. *)
Theorem get_countries_unannotated :
  forall s,
    ~ In Re.LPAREN s \/ ~ In Re.RPAREN s ->
    get_countries_from_string s
    = if pystr_eqb (strip s) [] then [] else [strip (replace NATIONWIDE [] s)].
Proof.
  intros s H. unfold get_countries_from_string.
  assert (Re.search s = None) as E
    by (destruct H; [now apply search_no_lparen | now apply search_no_rparen]).
  rewrite split_unfold, E. cbn [filter]. unfold keep_fragment.
  now destruct (pystr_eqb (strip s) []).
Qed.

Lemma get_countries_unannotated_witness :
  get_countries_from_string (py " Mexico (some states ") = [py "Mexico (some states"]
  /\ get_countries_from_string (py "   ") = [].
Proof.
  split.
  - apply (get_countries_unannotated (py " Mexico (some states ")).
    right. not_in_literal.
  - apply (get_countries_unannotated (py "   ")). left. not_in_literal.
Defined.

(** ** No annotation is left behind *)

Lemma lazy_dots_rparen_extend a b r :
  Re.lazy_dots_rparen a = Some r -> Re.lazy_dots_rparen (a ++ b) = Some (r ++ b).
Proof.
  induction a as [|c a IH]; cbn [Re.lazy_dots_rparen app]; [discriminate|].
  destruct (char_eqb c Re.RPAREN); [now intros [= ->]|].
  destruct (char_eqb c Re.NEWLINE); [discriminate|]. exact IH.
Qed.

Lemma match_here_extend a b r :
  Re.match_here a = Some r -> Re.match_here (a ++ b) = Some (r ++ b).
Proof.
  destruct a as [|c [|d a]]; cbn [Re.match_here app]; try discriminate.
  destruct (Re.is_space c && char_eqb d Re.LPAREN); [|discriminate].
  apply lazy_dots_rparen_extend.
Qed.

Lemma search_tail c s : Re.search (c :: s) = None -> Re.search s = None.
Proof.
  cbn [Re.search]. destruct (Re.match_here (c :: s)); [discriminate|].
  now destruct (Re.search s) as [[pre rest]|].
Qed.

Lemma search_suffix a b : Re.search (a ++ b) = None -> Re.search b = None.
Proof.
  induction a as [|c a IH]; [trivial|]. cbn [app]. intros H.
  apply IH. exact (search_tail _ _ H).
Qed.

Lemma search_prefix a b : Re.search (a ++ b) = None -> Re.search a = None.
Proof.
  induction a as [|c a IH]; intros H.
  - reflexivity.
  - cbn [app] in H. cbn [Re.search].
    destruct (Re.match_here (c :: a)) as [r|] eqn:E.
    + apply (match_here_extend _ b) in E. cbn [app] in E.
      cbn [Re.search] in H. rewrite E in H. discriminate.
    + rewrite (IH (search_tail _ _ H)). reflexivity.
Qed.

(** What [search] returns: the text is the part before the match, the
    match, and the rest. *)
Lemma search_some_app s pre rest :
  Re.search s = Some (pre, rest) -> exists m, s = pre ++ m ++ rest.
Proof.
  revert pre; induction s as [|c s IH]; intros pre.
  - cbn. discriminate.
  - cbn [Re.search]. destruct (Re.match_here (c :: s)) as [r|] eqn:E.
    + intros [= <- <-]. clear IH.
      assert (G : forall t r, Re.lazy_dots_rparen t = Some r ->
                              exists m, t = m ++ r).
      { induction t as [|d t IHt]; cbn [Re.lazy_dots_rparen]; intros r'.
        - discriminate.
        - destruct (char_eqb d Re.RPAREN).
          + intros [= <-]. now exists [d].
          + destruct (char_eqb d Re.NEWLINE); [discriminate|].
            intros H. destruct (IHt _ H) as [m ->]. now exists (d :: m). }
      destruct s as [|d s]; [discriminate|]. cbn [Re.match_here] in E.
      destruct (Re.is_space c && char_eqb d Re.LPAREN); [|discriminate].
      destruct (G _ _ E) as [m ->]. now exists (c :: d :: m).
    + destruct (Re.search s) as [[p r]|]; [|discriminate].
      intros [= <- <-]. destruct (IH _ eq_refl) as [m ->]. now exists m.
Qed.

(** The match [search] finds is the leftmost one: there is none before it. *)
Lemma search_pre_none s pre rest :
  Re.search s = Some (pre, rest) -> Re.search pre = None.
Proof.
  revert pre; induction s as [|c s IH]; intros pre.
  - cbn. discriminate.
  - cbn [Re.search]. destruct (Re.match_here (c :: s)) as [r|] eqn:E.
    + intros [= <- <-]. reflexivity.
    + destruct (Re.search s) as [[p r]|] eqn:S; [|discriminate].
      intros [= <- <-]. destruct (search_some_app _ _ _ S) as [m ->].
      cbn [Re.search]. rewrite (IH _ eq_refl).
      destruct (Re.match_here (c :: p)) as [r'|] eqn:E'; [|reflexivity].
      apply (match_here_extend _ (m ++ r)) in E'. cbn [app] in E'.
      rewrite E' in E. discriminate.
Qed.

(** Induction along the matches [split] goes through. *)
Lemma split_induction (P : pystr -> list pystr -> Prop) :
  (forall s, Re.search s = None -> P s [s]) ->
  (forall s pre rest,
      Re.search s = Some (pre, rest) ->
      P rest (Re.split rest) -> P s (pre :: Re.split rest)) ->
  forall s, P s (Re.split s).
Proof.
  intros Hnone Hsome s.
  assert (G : forall n s, length s < n -> P s (Re.split s)).
  { induction n as [|n IH]; intros t Hn; [lia|].
    rewrite split_unfold. destruct (Re.search t) as [[pre rest]|] eqn:E.
    - apply Hsome; [exact E|]. apply IH.
      apply Re.search_length in E. lia.
    - now apply Hnone. }
  apply (G (S (length s))). lia.
Qed.

Lemma split_fragments_unmatched s :
  Forall (fun fragment => Re.search fragment = None) (Re.split s).
Proof.
  apply (split_induction (fun _ l => Forall (fun f => Re.search f = None) l)).
  - intros t H. now repeat constructor.
  - intros t pre rest H IH. constructor; [|exact IH].
    exact (search_pre_none _ _ _ H).
Qed.

Lemma split_fragments_incl s :
  Forall (fun fragment => incl fragment s) (Re.split s).
Proof.
  apply (split_induction (fun s l => Forall (fun f => incl f s) l)).
  - intros t _. repeat constructor. apply incl_refl.
  - intros t pre rest H IH. destruct (search_some_app _ _ _ H) as [m ->].
    constructor.
    + apply incl_appl, incl_refl.
    + eapply Forall_impl; [|exact IH]. intros f Hf.
      apply incl_appr, incl_appr. exact Hf.
Qed.

Lemma replace_no_bracket s :
  ~ In LBRACKET s -> replace NATIONWIDE [] s = s.
Proof.
  induction s as [|c s IH]; intros H; [reflexivity|].
  cbn [In] in H. unfold NATIONWIDE. rewrite replace_cons. cbn [strip_prefix].
  destruct (char_eqb 91%N c) eqn:E.
  - apply char_eqb_eq in E. subst c. exfalso. apply H. now left.
  - f_equal. apply IH. tauto.
Qed.

Lemma search_strip s : Re.search s = None -> Re.search (strip s) = None.
Proof.
  intros H. unfold strip.
  destruct (lstrip_suffix s) as [ws [E _]]. rewrite E in H.
  apply search_suffix in H.
  destruct (rstrip_prefix (lstrip s)) as [ws' [E' _]]. rewrite E' in H.
  exact (search_prefix _ _ H).
Qed.

(** X4.  When the text holds no [[] (so no tag can be removed), no token
    holds anything the pattern matches: no whitespace character followed
    by a parenthesised group on one line is left in any token. *)
Theorem get_countries_no_annotation_left :
  forall s token,
    ~ In LBRACKET s ->
    In token (get_countries_from_string s) ->
    Re.search token = None.
Proof.
  intros s token Hs H.
  apply get_countries_from_kept_fragments in H as [f [Hf [_ ->]]].
  pose proof (split_fragments_unmatched s) as U.
  pose proof (split_fragments_incl s) as I.
  rewrite Forall_forall in U, I.
  unfold clean_fragment. rewrite replace_no_bracket.
  - apply search_strip, U, Hf.
  - intros Hb. apply Hs. exact (I _ Hf _ Hb).
Qed.

Lemma get_countries_no_annotation_left_witness :
  Re.search (py "Canada") = None.
Proof.
  apply (get_countries_no_annotation_left
           (py "Spain (2005) Canada (2005 (July)) (20)") (py "Canada")).
  - not_in_literal.
  - vm_compute. right. left. reflexivity.
Defined.

(** With a tag in the text the removal can glue an annotation together. *)
Example get_countries_annotation_glued :
  get_countries_from_string (py "Spain [nationwide](2005)") = [py "Spain (2005)"].
Proof. vm_compute. reflexivity. Qed.

(* ===================================================================== *)
(** * More on the cleaner *)
(* ===================================================================== *)

(** ** The shape of what it returns *)

Lemma tokenised_rows l :
  forallb is_str (map country2 (filter present2 l)) = true ->
  Forall (fun r => notna (year2 r) = true /\ exists ts, country2 r = Lst ts)
         (tokenised l).
Proof.
  unfold tokenised. induction l as [|r l IH]; cbn [filter map]; [constructor|].
  destruct (present2 r) eqn:P; [|exact IH].
  cbn [map forallb]. intros H. apply andb_true_iff in H as [Hs H].
  constructor; [|now apply IH].
  unfold with_country2. cbn [year2 country2]. split.
  - unfold present2 in P. now apply andb_true_iff in P as [P _].
  - destruct (country2 r); try discriminate. cbn [tokenise_cell]. eauto.
Qed.

Lemma exploded_rows l :
  Forall (fun r => notna (year2 r) = true /\ exists ts, country2 r = Lst ts) l ->
  Forall (fun r => notna (year2 r) = true
                   /\ (country2 r = NaN \/ is_str (country2 r) = true))
         (flat_map exploded_row l).
Proof.
  induction 1 as [|r l [Hy [ts Hc]] _ IH]; cbn [flat_map]; [constructor|].
  apply Forall_app. split; [|exact IH].
  unfold exploded_row. rewrite Hc. destruct ts as [|t ts].
  - repeat constructor; cbn [year2 country2]; auto.
  - apply Forall_forall. intros x Hx. apply in_map_iff in Hx as [u [<- _]].
    cbn [year2 country2 is_str]. auto.
Qed.

Lemma reindexed_rows k l :
  Forall (fun r => notna (year2 r) = true
                   /\ (country2 r = NaN \/ is_str (country2 r) = true)) l ->
  Forall (fun r => (exists i, index3 r = Int i) /\ notna (year3 r) = true
                   /\ is_str (country3 r) = true)
         (filter present3 (reindexed k l)).
Proof.
  intros H. revert k. induction H as [|r l [Hy Hc] _ IH]; intros k;
    cbn [reindexed filter]; [constructor|].
  unfold present3 at 1. cbn [index3 year3 country3 notna isna negb andb].
  destruct Hc as [Hc|Hc].
  - rewrite Hc. cbn [isna negb]. rewrite andb_false_r. apply IH.
  - destruct (country2 r) eqn:E; try discriminate Hc.
    cbn [isna negb]. rewrite ?andb_true_r.
    rewrite Hy. constructor; [|apply IH].
    cbn [index3 year3 country3]. repeat split; eauto.
Qed.

Lemma expanded_rows l :
  forallb is_str (map country2 (filter present2 l)) = true ->
  Forall (fun r => (exists i, index3 r = Int i) /\ notna (year3 r) = true
                   /\ is_str (country3 r) = true)
         (expanded l).
Proof.
  intros H. unfold expanded. now apply reindexed_rows, exploded_rows, tokenised_rows.
Qed.

Lemma is_str_replace_value m c : is_str c = true -> is_str (replace_value m c) = true.
Proof.
  intros H. induction m as [|[k v] m IH]; cbn [replace_value]; [exact H|].
  now destruct (cell_eqb c (Str k)).
Qed.

Lemma remaining_rows l :
  forallb is_str (map country2 (filter present2 l)) = true ->
  Forall (fun r => (exists i, index3 r = Int i) /\ notna (year3 r) = true
                   /\ is_str (country3 r) = true)
         (remaining l).
Proof.
  intros H. unfold remaining, renamed. apply Forall_forall. intros r Hr.
  apply filter_In in Hr as [Hr _]. apply in_map_iff in Hr as [x [<- Hx]].
  pose proof (expanded_rows l H) as F. rewrite Forall_forall in F.
  destruct (F _ Hx) as [Hi [Hy Hc]].
  unfold with_country3. cbn [index3 year3 country3].
  repeat split; auto using is_str_replace_value.
Qed.

Lemma cleaned_rows l ys :
  forallb is_str (map country2 (filter present2 l)) = true ->
  series_astype_int (map year3 (remaining l)) = Ok ys ->
  Forall (fun r => typed_record (fields3 r)) (cleaned l).
Proof.
  intros H E. unfold cleaned. apply Forall_forall. intros r Hr.
  apply in_map_iff in Hr as [x [<- Hx]].
  pose proof (remaining_rows l H) as F. rewrite Forall_forall in F.
  destruct (F _ Hx) as [[i Hi] [_ Hc]].
  apply series_map_ok in E as [_ G]. rewrite Forall_forall in G.
  destruct (G (year3 x)) as [v Hv]; [now apply in_map|].
  unfold fields3, with_year3, coerced. cbn [index3 year3 country3].
  rewrite Hv, Hi. apply int_of_cell_Int in Hv as [z ->].
  destruct (country3 x) as [| |c| |]; try discriminate Hc.
  now exists i, z, c.
Qed.

Lemma typed_present3 l :
  Forall (fun r => typed_record (fields3 r)) l -> filter present3 l = l.
Proof.
  induction 1 as [|r l [i [y [c E]]] _ IH]; [reflexivity|].
  cbn [filter]. unfold present3 at 1. unfold fields3 in E.
  injection E as -> -> ->. cbn [notna isna negb andb]. now rewrite IH.
Qed.

(** X5.  Whatever the cells of the table, when the cleaner returns, the
    frame it returns has the columns [index], [year], [country]; each of
    its records holds an integer row number, an integer year and a text
    country; no value is missing, so a further [dropna] changes nothing;
    and the one line logged reports its shape. *)
Theorem clean_output_typed :
  forall (table : list (cell * cell)) r w,
    clean_same_sex_marriage_data 0 (world_of (frame_of_table table)) = (Ok r, w) ->
    exists df,
      nth_error (heap w) r = Some df
      /\ columns df = ["index"; "year"; "country"]
      /\ Forall typed_record (records df)
      /\ df_dropna df = df
      /\ log w = [InfoCleaned (length (rows df), 3)].
Proof.
  intros table r w H. unfold frame_of_table in H. rewrite clean_run in H.
  destruct (forallb is_str _) eqn:S in H; [|discriminate].
  destruct (series_astype_int _) as [ys|] eqn:E in H; [|discriminate].
  injection H as <- <-. cbn [heap log nth_error].
  pose proof (cleaned_rows _ _ S E) as F.
  eexists. split; [reflexivity|]. split; [reflexivity|]. split; [|split].
  - rewrite records_frame3. now apply Forall_map.
  - now rewrite df_dropna_frame3, typed_present3.
  - unfold frame3. cbn [rows]. now rewrite length_map.
Qed.

Lemma clean_output_typed_witness :
  exists df,
    returned_frame
      (clean_same_sex_marriage_data 0
         (world_of (frame_of_table
                      [(Str (py "2001"), Str (py "Netherlands"));
                       (NaN, Str (py "Spain (2005)"));
                       (Int 2010, Str (py "Portugal (2010) Iceland (2010)"));
                       (Str (py "Pending"), Str (py "Example Country"))])))
    = Some df
    /\ Forall typed_record (records df)
    /\ df_dropna df = df.
Proof.
  destruct (clean_output_typed
              [(Str (py "2001"), Str (py "Netherlands"));
               (NaN, Str (py "Spain (2005)"));
               (Int 2010, Str (py "Portugal (2010) Iceland (2010)"));
               (Str (py "Pending"), Str (py "Example Country"))]
              2 _ eq_refl) as [df [H1 [_ [H2 [H3 _]]]]].
  exists df. auto.
Defined.

(** ** Incomplete rows *)

(** X6.  The rows with a missing year or country have no influence at
    all: cleaning a frame and cleaning the frame without its incomplete
    rows give the same result, the same heap and the same log, also when
    the cleaner raises. *)
Theorem clean_ignores_incomplete_rows :
  forall l : list row2,
    clean_same_sex_marriage_data 0 (world_of (df_dropna (frame2 l)))
    = clean_same_sex_marriage_data 0 (world_of (frame2 l)).
Proof.
  intros l. rewrite df_dropna_frame2, !clean_run.
  unfold cleaned, remaining, renamed, expanded, tokenised.
  now rewrite !filter_idem.
Qed.

(** ** Errors before the coercion *)

Lemma forallb_is_str_false l :
  existsb untyped_country l = true ->
  forallb is_str (map country2 (filter present2 l)) = false.
Proof.
  induction l as [|r l IH]; cbn [existsb filter]; [discriminate|].
  unfold untyped_country at 1. intros H.
  destruct (present2 r); cbn [andb] in H.
  - cbn [map forallb]. destruct (is_str (country2 r)); cbn [negb orb andb] in *.
    + now apply IH.
    + reflexivity.
  - now apply IH.
Qed.

Lemma clean_type_error_at w r l :
  nth_error (heap w) r = Some (frame2 l) ->
  forallb is_str (map country2 (filter present2 l)) = false ->
  clean_same_sex_marriage_data r w
  = (Raise TypeError,
     mkworld (set_nth r (frame2 (filter present2 l)) (heap w)) (log w)).
Proof.
  intros Hr H. unfold clean_same_sex_marriage_data, split_countries_into_rows.
  rewrite !bind_run, (dropna_inplace_run _ _ _ Hr), df_dropna_frame2.
  cbv beta iota. rewrite bind_run.
  rewrite (getitem_run _ _ (frame2 (filter present2 l)))
    by (cbn [heap]; eapply nth_error_set_nth; exact Hr).
  rewrite df_getitem_frame2_country. cbv beta iota.
  rewrite bind_run. unfold lift at 1.
  now rewrite series_map_tokens, H.
Qed.

(** X7.  Wherever the frame lives in the heap, if one of its complete
    rows holds a [country] that is not text, the cleaner raises
    [TypeError] and logs nothing; by then the incomplete rows of the
    caller's frame are gone, and nothing else has changed. *)
Theorem clean_type_error_on_untyped_country :
  forall w r (l : list row2),
    nth_error (heap w) r = Some (frame2 l) ->
    existsb untyped_country l = true ->
    clean_same_sex_marriage_data r w
    = (Raise TypeError,
       mkworld (set_nth r (df_dropna (frame2 l)) (heap w)) (log w)).
Proof.
  intros w r l Hr H. rewrite df_dropna_frame2.
  apply clean_type_error_at; [exact Hr|]. now apply forallb_is_str_false.
Qed.

Lemma clean_type_error_on_untyped_country_witness :
  clean_same_sex_marriage_data 1
    (mkworld [frame2 []; frame2 [mkrow2 0 NaN (Str (py "Spain (2005)"));
                                 mkrow2 1 (Str (py "2001")) (Int 7)]] [])
  = (Raise TypeError,
     mkworld [frame2 []; frame2 [mkrow2 1 (Str (py "2001")) (Int 7)]] []).
Proof.
  apply (clean_type_error_on_untyped_country
           (mkworld [frame2 []; frame2 [mkrow2 0 NaN (Str (py "Spain (2005)"));
                                        mkrow2 1 (Str (py "2001")) (Int 7)]] [])
           1 [mkrow2 0 NaN (Str (py "Spain (2005)"));
              mkrow2 1 (Str (py "2001")) (Int 7)]);
    reflexivity.
Defined.

Lemma present2_tokenised l : filter present2 (tokenised l) = tokenised l.
Proof.
  unfold tokenised. induction l as [|r l IH]; [reflexivity|]. cbn [filter].
  destruct (present2 r) eqn:P; [|exact IH]. cbn [map filter].
  assert (present2 (with_country2 tokenise_cell r) = true) as ->.
  { unfold present2 in *. apply andb_true_iff in P as [Py Pc].
    unfold with_country2. cbn [year2 country2]. rewrite Py.
    now destruct (country2 r). }
  now rewrite IH.
Qed.

Lemma tokenised_raw_not_text table :
  table <> [] ->
  forallb is_str (map country2 (tokenised (number 0 (raw table)))) = false.
Proof.
  destruct table as [|[p e] table]; [congruence|]. intros _.
  unfold tokenised. rewrite present2_raw. reflexivity.
Qed.

(** X8.  The cleaner cannot be run twice on the same frame.  After it has
    run on a non-empty table of raw records, whether it returned or
    raised, the caller's frame holds token lists where the cleaner expects
    text: a second call on that frame raises [TypeError] and changes
    nothing more. *)
Theorem clean_twice_raises :
  forall (table : list (pystr * pystr)) out w,
    table <> [] ->
    clean_same_sex_marriage_data 0 (world_of (frame_of_table (raw table)))
    = (out, w) ->
    clean_same_sex_marriage_data 0 w = (Raise TypeError, w).
Proof.
  intros table out w Hne H. unfold frame_of_table in H.
  rewrite clean_run, is_str_present2_raw in H.
  set (l := number 0 (raw table)) in *.
  assert (G : forall h lg,
             clean_same_sex_marriage_data 0 (mkworld (frame2 (tokenised l) :: h) lg)
             = (Raise TypeError, mkworld (frame2 (tokenised l) :: h) lg)).
  { intros h lg.
    rewrite (clean_type_error_at _ 0 (tokenised l)); [|reflexivity|].
    - cbn [heap log set_nth]. now rewrite present2_tokenised.
    - rewrite present2_tokenised. now apply tokenised_raw_not_text. }
  destruct (series_astype_int _) in H; injection H as <- <-; apply G.
Qed.

Lemma clean_twice_raises_witness :
  let w := snd (clean_same_sex_marriage_data 0
                  (world_of (frame_of_table (raw [(py "2001", py "Netherlands")])))) in
  clean_same_sex_marriage_data 0 w = (Raise TypeError, w).
Proof.
  cbv zeta.
  apply (clean_twice_raises [(py "2001", py "Netherlands")]
           (fst (clean_same_sex_marriage_data 0
                   (world_of (frame_of_table (raw [(py "2001", py "Netherlands")])))))).
  - discriminate.
  - apply surjective_pairing.
Defined.

Lemma col_pos_dropna df name :
  col_pos name (columns (df_dropna df)) = col_pos name (columns df).
Proof. reflexivity. Qed.

(** X9.  A frame without a [country] column makes the cleaner raise
    [KeyError], but only after the first [dropna]: the incomplete rows of
    the caller's frame are already gone. *)
Theorem clean_key_error_without_country :
  forall w r df,
    nth_error (heap w) r = Some df ->
    col_pos "country" (columns df) = None ->
    clean_same_sex_marriage_data r w
    = (Raise KeyError, mkworld (set_nth r (df_dropna df) (heap w)) (log w)).
Proof.
  intros w r df Hr H.
  unfold clean_same_sex_marriage_data, split_countries_into_rows.
  rewrite !bind_run, (dropna_inplace_run _ _ _ Hr).
  cbv beta iota. rewrite bind_run.
  rewrite (getitem_run _ _ (df_dropna df))
    by (cbn [heap]; eapply nth_error_set_nth; exact Hr).
  unfold df_getitem. now rewrite col_pos_dropna, H.
Qed.

Lemma clean_key_error_without_country_witness :
  clean_same_sex_marriage_data 0
    (world_of (mkdf ["year"; "entities"]
                    [mkrow 0 [Str (py "2001"); Str (py "Netherlands")];
                     mkrow 1 [NaN; Str (py "Spain (2005)")]]))
  = (Raise KeyError,
     world_of (mkdf ["year"; "entities"]
                    [mkrow 0 [Str (py "2001"); Str (py "Netherlands")]])).
Proof.
  apply (clean_key_error_without_country
           (world_of (mkdf ["year"; "entities"]
                           [mkrow 0 [Str (py "2001"); Str (py "Netherlands")];
                            mkrow 1 [NaN; Str (py "Spain (2005)")]])) 0 _ eq_refl).
  reflexivity.
Defined.

(** ** Which tables stop the coercion *)

(** X10.  On a table of raw records the cleaner raises exactly when some
    record stops the coercion: its period is not "Pending", cannot be
    coerced to a 64-bit integer, and its entities give at least one token.
    It returns exactly when there is no such record; a malformed period in
    a record without tokens goes unnoticed.  A record whose period is one
    to eighteen ASCII digits never stops the coercion; a record with a
    token whose period is not "Pending" and holds a character that is no
    white space, sign, underscore or decimal digit always does. *)
Theorem clean_raises_iff_blocking_record :
  (forall table : list (pystr * pystr),
      let out :=
        clean_same_sex_marriage_data 0 (world_of (frame_of_table (raw table))) in
      ((exists e, fst out = Raise e) <-> Exists blocking_record table)
      /\ ((exists r, fst out = Ok r) <-> ~ Exists blocking_record table))
  /\ (forall period entities,
         plain_year period = true -> ~ blocking_record (period, entities))
  /\ (forall period entities,
         period <> PENDING ->
         Exists (fun c => int_char c = false) period ->
         get_countries_from_string entities <> [] ->
         blocking_record (period, entities)).
Proof.
  split; [|split].
  - intros table out. subst out. unfold frame_of_table.
    rewrite clean_run, is_str_present2_raw, blocking_iff_remaining.
    rewrite <- astype_raise_iff.
    destruct (series_astype_int _) as [ys|e]; cbn [fst]; split; split.
    + intros [e [=]].
    + intros [e [=]].
    + intros _ [e [=]].
    + eauto.
    + eauto.
    + eauto.
    + intros [r [=]].
    + intros H. exfalso. apply H. eauto.
  - intros period entities H [_ [B _]].
    unfold coercible in B. rewrite (int_of_cell_plain_year period H) in B.
    discriminate B.
  - intros period entities Hp Hf Ht. cbn. split; [exact Hp|]. split; [|exact Ht].
    unfold coercible. now rewrite (int_of_cell_foreign period Hf).
Qed.

Lemma clean_raises_iff_blocking_record_witness :
  (exists e,
      fst (clean_same_sex_marriage_data 0
             (world_of (frame_of_table
                          (raw [(py "2001", py "Netherlands");
                                (py "soon", py "Spain (2005)")]))))
      = Raise e)
  /\ ~ blocking_record (py "2001", py "Netherlands").
Proof.
  split.
  - apply (proj1 clean_raises_iff_blocking_record
             [(py "2001", py "Netherlands"); (py "soon", py "Spain (2005)")]).
    apply Exists_cons_tl, Exists_cons_hd.
    apply (proj2 (proj2 clean_raises_iff_blocking_record)).
    + intros H. vm_compute in H. discriminate H.
    + apply Exists_cons_hd. reflexivity.
    + vm_compute. discriminate.
  - apply (proj1 (proj2 clean_raises_iff_blocking_record)). reflexivity.
Defined.

(** A malformed period without tokens, and one with tokens. *)
Example clean_blocking_examples :
  fst (clean_same_sex_marriage_data 0
         (world_of (frame_of_table (raw [(py "soon", py " (2005)")])))) = Ok 2
  /\ fst (clean_same_sex_marriage_data 0
            (world_of (frame_of_table (raw [(py "soon", py "Spain (2005)")]))))
     = Raise ValueError.
Proof. split; vm_compute; reflexivity. Qed.

(* ===================================================================== *)
(** * More on the resolver *)
(* ===================================================================== *)

(** ** Errors *)

Lemma get_iso_code_not_text f c w :
  is_str c = false ->
  get_iso_code_from_country f c w
  = (Raise LookupError, mkworld (heap w) (log w ++ [ErrorOccured LookupError])).
Proof. now destruct c. Qed.

Lemma series_mapM_get_iso_code_fail f s w :
  forallb is_str s = false ->
  series_mapM (get_iso_code_from_country f) s w
  = (Raise LookupError, mkworld (heap w) (log w ++ [ErrorOccured LookupError])).
Proof.
  induction s as [|c s IH]; cbn [forallb]; [discriminate|].
  intros H. cbn [series_mapM]. rewrite bind_run.
  destruct (is_str c) eqn:E.
  - destruct c; try discriminate E. rewrite get_iso_code_run.
    rewrite bind_run, (IH H). reflexivity.
  - now rewrite (get_iso_code_not_text _ _ _ E).
Qed.

(** X11.  If the [country] column of the frame holds a value that is not
    text, the resolver raises [LookupError] at the first such value: it
    logs that one error, the frame gets no [iso_code] column and no row
    is dropped. *)
Theorem add_iso_code_lookup_error :
  forall (countries_get_name : pystr -> option Country) w r df countries,
    nth_error (heap w) r = Some df ->
    df_getitem df "country" = Ok countries ->
    forallb is_str countries = false ->
    add_iso_code_to_data countries_get_name r w
    = (Raise LookupError,
       mkworld (heap w) (log w ++ [ErrorOccured LookupError])).
Proof.
  intros f w r df countries Hr Hc H. unfold add_iso_code_to_data.
  rewrite bind_run, (getitem_run _ _ _ _ Hr), Hc.
  now rewrite bind_run, (series_mapM_get_iso_code_fail _ _ _ H).
Qed.

Lemma add_iso_code_lookup_error_witness :
  add_iso_code_to_data sample_countries 0
    (world_of (frame2 [mkrow2 0 (Int 2001) (Str (py "Netherlands"));
                       mkrow2 1 (Int 2005) NaN;
                       mkrow2 2 (Int 2006) PyNone]))
  = (Raise LookupError,
     mkworld [frame2 [mkrow2 0 (Int 2001) (Str (py "Netherlands"));
                      mkrow2 1 (Int 2005) NaN;
                      mkrow2 2 (Int 2006) PyNone]]
             [ErrorOccured LookupError]).
Proof.
  apply (add_iso_code_lookup_error sample_countries
           (world_of (frame2 [mkrow2 0 (Int 2001) (Str (py "Netherlands"));
                              mkrow2 1 (Int 2005) NaN;
                              mkrow2 2 (Int 2006) PyNone]))
           0 _ [Str (py "Netherlands"); NaN; PyNone] eq_refl);
    reflexivity.
Defined.

(** X12.  A frame without a [country] column makes the resolver raise
    [KeyError] before anything is written: heap and log are as they were. *)
Theorem add_iso_code_key_error_without_country :
  forall (countries_get_name : pystr -> option Country) w r df,
    nth_error (heap w) r = Some df ->
    col_pos "country" (columns df) = None ->
    add_iso_code_to_data countries_get_name r w = (Raise KeyError, w).
Proof.
  intros f w r df Hr H. unfold add_iso_code_to_data.
  rewrite bind_run, (getitem_run _ _ _ _ Hr). unfold df_getitem. now rewrite H.
Qed.

Lemma add_iso_code_key_error_without_country_witness :
  add_iso_code_to_data sample_countries 0
    (world_of (mkdf ["year"; "entities"]
                    [mkrow 0 [Int 2001; Str (py "Netherlands")]]))
  = (Raise KeyError,
     world_of (mkdf ["year"; "entities"]
                    [mkrow 0 [Int 2001; Str (py "Netherlands")]])).
Proof.
  apply (add_iso_code_key_error_without_country sample_countries
           (world_of (mkdf ["year"; "entities"]
                           [mkrow 0 [Int 2001; Str (py "Netherlands")]]))
           0 _ eq_refl).
  reflexivity.
Defined.

(** ** What the resolver returns *)

Lemma resolved_rows f l :
  forallb is_str (map country3 l) = true ->
  forallb present3 l = true ->
  filter present4 (with_resolved f l) = flat_map (resolve_row f) l.
Proof.
  unfold with_resolved.
  induction l as [|r l IH]; [reflexivity|].
  cbn [map forallb flat_map filter]. intros S P.
  apply andb_true_iff in S as [Sr S]. apply andb_true_iff in P as [Pr P].
  rewrite (IH S P). unfold present4, with_iso_code, resolve_row.
  cbn [index4 year4 country4 iso_code4].
  unfold present3 in Pr. rewrite Pr.
  destruct (country3 r) as [| |s| |]; try discriminate Sr.
  cbn [resolved_cell]. unfold resolved.
  now destruct (f s).
Qed.

Lemma resolve_row_count f r :
  is_str (country3 r) = true ->
  length (resolve_row f r)
  + length (filter (unknown f) (texts [country3 r])) = 1.
Proof.
  unfold resolve_row, unknown.
  destruct (country3 r) as [| |s| |]; try discriminate. intros _.
  cbn [texts filter]. now destruct (f s).
Qed.

Lemma texts_cons_str c s :
  is_str c = true -> texts (c :: s) = texts [c] ++ texts s.
Proof. now destruct c. Qed.

Lemma resolved_count f l :
  forallb is_str (map country3 l) = true ->
  length (flat_map (resolve_row f) l)
  + length (filter (unknown f) (texts (map country3 l))) = length l.
Proof.
  induction l as [|r l IH]; [reflexivity|].
  cbn [map forallb flat_map length]. intros S.
  apply andb_true_iff in S as [Sr S].
  rewrite (texts_cons_str _ _ Sr), filter_app, !length_app.
  pose proof (resolve_row_count f r Sr). specialize (IH S). lia.
Qed.

Lemma sort_length l : length (sort l) = length l.
Proof. apply Permutation_length, sort_Permutation. Qed.

(** X13.  On a frame of complete rows whose countries are text, the
    resolver keeps exactly the rows whose country the database knows, in
    their order and with their labels, each with the three-letter code of
    its entry; it logs the other countries, sorted, and then its closing
    message. *)
Theorem add_iso_code_keeps_known_rows :
  forall (countries_get_name : pystr -> option Country) w r (l : list row3),
    nth_error (heap w) r = Some (frame3 l) ->
    forallb is_str (map country3 l) = true ->
    forallb present3 l = true ->
    add_iso_code_to_data countries_get_name r w
    = (Ok r,
       mkworld
         (set_nth r (frame4 (flat_map (resolve_row countries_get_name) l))
                  (heap w))
         (log w ++
          [DebugUnmatched
             (sort (filter (unknown countries_get_name)
                      (texts (map country3 l))));
           InfoExtracted])).
Proof.
  intros f w r l Hr S P.
  rewrite (add_iso_code_run_at f w r l Hr S).
  now rewrite (resolved_rows f l S P).
Qed.

Lemma add_iso_code_keeps_known_rows_witness :
  add_iso_code_to_data sample_countries 0
    (world_of (frame3 [mkrow3 0 (Int 0) (Int 2001) (Str (py "Netherlands"));
                       mkrow3 1 (Int 1) (Int 2010) (Str (py "Mexico City"));
                       mkrow3 2 (Int 2) (Int 2005) (Str (py "Canada"))]))
  = (Ok 0,
     mkworld
       [frame4 [mkrow4 0 (Int 0) (Int 2001) (Str (py "Netherlands"))
                       (Str (py "NLD"));
                mkrow4 2 (Int 2) (Int 2005) (Str (py "Canada"))
                       (Str (py "CAN"))]]
       [DebugUnmatched [py "Mexico City"]; InfoExtracted]).
Proof.
  apply (add_iso_code_keeps_known_rows sample_countries
           (world_of (frame3 [mkrow3 0 (Int 0) (Int 2001) (Str (py "Netherlands"));
                              mkrow3 1 (Int 1) (Int 2010) (Str (py "Mexico City"));
                              mkrow3 2 (Int 2) (Int 2005) (Str (py "Canada"))]))
           0 _ eq_refl);
    reflexivity.
Defined.

(** X14.  No row is lost without a trace: on a frame of complete rows
    whose countries are text, the rows the resolver keeps and the names
    it logs as unmatched are together as many as the rows it was given. *)
Theorem add_iso_code_rows_kept_or_logged :
  forall (countries_get_name : pystr -> option Country) w r (l : list row3),
    nth_error (heap w) r = Some (frame3 l) ->
    forallb is_str (map country3 l) = true ->
    forallb present3 l = true ->
    exists names df w',
      add_iso_code_to_data countries_get_name r w = (Ok r, w')
      /\ nth_error (heap w') r = Some df
      /\ log w' = log w ++ [DebugUnmatched names; InfoExtracted]
      /\ length (rows df) + length names = length l.
Proof.
  intros f w r l Hr S P. eexists _, _, _.
  split; [exact (add_iso_code_run_at f w r l Hr S)|].
  cbn [heap log]. split; [eapply nth_error_set_nth; exact Hr|].
  split; [reflexivity|].
  rewrite (resolved_rows f l S P), sort_length.
  unfold frame4. cbn [rows]. rewrite length_map.
  now apply resolved_count.
Qed.

Lemma add_iso_code_rows_kept_or_logged_witness :
  exists names df w,
    add_iso_code_to_data sample_countries 0 (world_of (frame3 two_unmatched_rows))
    = (Ok 0, w)
    /\ nth_error (heap w) 0 = Some df
    /\ log w = [DebugUnmatched names; InfoExtracted]
    /\ length (rows df) + length names = 4.
Proof.
  apply (add_iso_code_rows_kept_or_logged sample_countries
           (world_of (frame3 two_unmatched_rows)) 0 two_unmatched_rows);
    reflexivity.
Defined.

(** ** Running the resolver on its own result *)

Lemma set_nth_same {A} (h : list A) r (x : A) :
  nth_error h r = Some x -> set_nth r x h = h.
Proof.
  revert r; induction h as [|a h IH]; intros [|r]; cbn; try discriminate.
  - now intros [= ->].
  - intros H. now rewrite (IH _ H).
Qed.

Lemma df_setitem_frame4_iso_code l (f : cell -> cell) :
  df_setitem (frame4 l) "iso_code" (map (fun r => f (country4 r)) l)
  = Ok (frame4 (map (with_iso_code4 f) l)).
Proof.
  unfold df_setitem, frame4. cbn [columns rows].
  rewrite eqb_length_map. simpl. rewrite zip_with_map, map_map. reflexivity.
Qed.

Lemma resolved_rows_resolved f l :
  forallb is_str (map country3 l) = true ->
  Forall (resolved_row f) (filter present4 (with_resolved f l)).
Proof.
  intros S. apply Forall_forall. intros r4 H.
  apply filter_In in H as [H P]. unfold with_resolved in H.
  apply in_map_iff in H as [r [<- Hr]].
  assert (Sr : is_str (country3 r) = true).
  { rewrite forallb_forall in S. apply S. now apply in_map. }
  unfold present4, with_iso_code in P. cbn [index4 year4 country4 iso_code4] in P.
  apply andb_true_iff in P as [P Pc]. apply andb_true_iff in P as [P _].
  apply andb_true_iff in P as [Pi Py].
  unfold resolved_row, with_iso_code. cbn [index4 year4 country4 iso_code4].
  split; [exact Pi|]. split; [exact Py|].
  destruct (country3 r) as [| |s| |]; try discriminate Sr.
  cbn [resolved_cell] in *. unfold resolved in *.
  destruct (f s) as [entry|] eqn:E; [|discriminate Pc].
  now exists s, entry.
Qed.

Lemma resolved_row_fixed f l :
  Forall (resolved_row f) l ->
  forallb is_str (map country4 l) = true
  /\ map (with_iso_code4 (resolved_cell f)) l = l
  /\ filter unmatched4 l = []
  /\ filter present4 l = l.
Proof.
  induction 1 as [|r l [Hi [Hy [s [entry [Hc [Hf Hiso]]]]]] _ IH].
  - now repeat split.
  - destruct IH as [I1 [I2 [I3 I4]]].
    cbn [map forallb filter]. rewrite I1, I2, I3, I4.
    unfold unmatched4, present4. rewrite Hi, Hy, Hc, Hiso.
    cbn [is_str notna isna negb andb]. repeat split.
    f_equal. destruct r as [lb i y c code]. unfold with_iso_code4.
    cbn [label4 index4 year4 country4 iso_code4] in *. subst c code.
    cbn [resolved_cell]. unfold resolved. now rewrite Hf.
Qed.

Lemma add_iso_code_rerun_at f w r l :
  nth_error (heap w) r = Some (frame4 l) ->
  Forall (resolved_row f) l ->
  add_iso_code_to_data f r w
  = (Ok r, mkworld (heap w) (log w ++ [DebugUnmatched []; InfoExtracted])).
Proof.
  intros Hr F. destruct (resolved_row_fixed f l F) as [S [Fx [U P]]].
  unfold add_iso_code_to_data.
  rewrite bind_run, (getitem_run _ _ _ _ Hr), df_getitem_frame4_country.
  rewrite bind_run, (series_mapM_get_iso_code _ _ _ S).
  rewrite map_map.
  rewrite bind_run,
    (setitem_run _ _ _ _ _ _ Hr (df_setitem_frame4_iso_code l _)).
  rewrite Fx, (set_nth_same _ _ _ Hr).
  assert (Hr' : nth_error (heap (mkworld (heap w) (log w))) r = Some (frame4 l))
    by exact Hr.
  rewrite bind_run, (getitem_run _ _ _ _ Hr'), df_getitem_frame4_iso_code.
  cbv zeta. unfold series_isnull. rewrite map_map.
  change (fun x => isna (iso_code4 x)) with unmatched4.
  rewrite bind_run, (deref_run _ _ _ Hr').
  rewrite df_loc_frame4, df_getitem_frame4_country, U.
  rewrite bind_run. unfold lift at 1. cbv beta iota.
  rewrite bind_run. unfold lift at 1, sorted. cbn [map strs_of rbind sort].
  cbv beta iota.
  rewrite bind_run. unfold logger at 1. cbv beta iota. cbn [heap log].
  rewrite bind_run.
  rewrite dropna_inplace_run with (df := frame4 l) by exact Hr.
  cbv beta iota. cbn [heap log].
  rewrite bind_run. unfold logger, ret. cbn [heap log].
  rewrite df_dropna_frame4, P, (set_nth_same _ _ _ Hr), <- app_assoc.
  reflexivity.
Qed.

(** X15.  The resolver can be run again on its own result: the second run
    looks every country up again, finds the same codes, changes no frame,
    and logs an empty list of unmatched countries and its closing
    message. *)
Theorem add_iso_code_rerun :
  forall (countries_get_name : pystr -> option Country) w r (l : list row3),
    nth_error (heap w) r = Some (frame3 l) ->
    forallb is_str (map country3 l) = true ->
    forall out w1,
      add_iso_code_to_data countries_get_name r w = (out, w1) ->
      add_iso_code_to_data countries_get_name r w1
      = (Ok r, mkworld (heap w1) (log w1 ++ [DebugUnmatched []; InfoExtracted])).
Proof.
  intros f w r l Hr S out w1 H.
  rewrite (add_iso_code_run_at f w r l Hr S) in H. injection H as _ <-.
  apply add_iso_code_rerun_at with
    (l := filter present4 (with_resolved f l)).
  - cbn [heap]. eapply nth_error_set_nth. exact Hr.
  - now apply resolved_rows_resolved.
Qed.

Lemma add_iso_code_rerun_witness :
  add_iso_code_to_data sample_countries 0
    (mkworld
       [frame4 [mkrow4 1 (Int 1) (Int 2001) (Str (py "Netherlands"))
                       (Str (py "NLD"))]]
       [DebugUnmatched [py "Coahuila"; py "Mexico City"; py "Mexico City"];
        InfoExtracted])
  = (Ok 0,
     mkworld
       [frame4 [mkrow4 1 (Int 1) (Int 2001) (Str (py "Netherlands"))
                       (Str (py "NLD"))]]
       [DebugUnmatched [py "Coahuila"; py "Mexico City"; py "Mexico City"];
        InfoExtracted; DebugUnmatched []; InfoExtracted]).
Proof.
  apply (add_iso_code_rerun sample_countries
           (world_of (frame3 two_unmatched_rows)) 0 two_unmatched_rows
           eq_refl eq_refl (Ok 0)).
  vm_compute. reflexivity.
Defined.

(** ** The cleaner followed by the resolver *)

Lemma typed_rows_text l :
  Forall (fun r => typed_record (fields3 r)) l ->
  forallb is_str (map country3 l) = true /\ forallb present3 l = true.
Proof.
  induction 1 as [|r l [i [y [c E]]] _ [IH1 IH2]]; [now split|].
  cbn [map forallb]. rewrite IH1, IH2. unfold present3.
  unfold fields3 in E. injection E as -> -> ->. now split.
Qed.

Lemma resolve_row_typed f r :
  typed_record (fields3 r) ->
  Forall (fun r4 => typed_record4 (fields4 r4)) (resolve_row f r).
Proof.
  intros [i [y [c E]]]. destruct r as [lb ri ry rc]. unfold fields3 in E.
  cbn [index3 year3 country3] in E. injection E as -> -> ->.
  unfold resolve_row. cbn [country3 index3 year3 label3].
  destruct (f c) as [entry|]; [|constructor].
  constructor; [|constructor]. unfold fields4.
  cbn [index4 year4 country4 iso_code4].
  now exists i, y, c, (alpha_3 entry).
Qed.

Lemma resolved_rows_typed f l :
  Forall (fun r => typed_record (fields3 r)) l ->
  Forall (fun r4 => typed_record4 (fields4 r4)) (flat_map (resolve_row f) l).
Proof.
  induction 1 as [|r l Hr _ IH]; [constructor|].
  cbn [flat_map]. apply Forall_app. split; [now apply resolve_row_typed|exact IH].
Qed.

(** X16.  Whatever table the cleaner is given, if it returns then the
    resolver accepts its frame: the two stages chained return the same
    reference, the frame behind it has the columns [index], [year],
    [country] and [iso_code], every record is two integers followed by
    two texts, and the log is the cleaner's followed by the list of
    unmatched countries and the resolver's closing message. *)
Theorem clean_and_resolve_accepts_cleaned :
  forall (countries_get_name : pystr -> option Country)
         (table : list (cell * cell)) r w,
    clean_same_sex_marriage_data 0 (world_of (frame_of_table table)) = (Ok r, w) ->
    exists names df w',
      clean_and_resolve countries_get_name 0 (world_of (frame_of_table table))
      = (Ok r, w')
      /\ nth_error (heap w') r = Some df
      /\ columns df = ["index"; "year"; "country"; "iso_code"]
      /\ Forall typed_record4 (records df)
      /\ log w' = log w ++ [DebugUnmatched names; InfoExtracted].
Proof.
  intros f table r w H. unfold frame_of_table in *.
  unfold clean_and_resolve. rewrite bind_run.
  rewrite clean_run in *.
  destruct (forallb is_str _) eqn:S; [|discriminate].
  destruct (series_astype_int _) as [ys|] eqn:E; [|discriminate].
  injection H as <- <-.
  pose proof (cleaned_rows _ _ S E) as F.
  destruct (typed_rows_text _ F) as [T P].
  rewrite bind_run.
  rewrite (add_iso_code_run_at f _ 2 (cleaned (number 0 table)));
    [|reflexivity|exact T].
  rewrite (resolved_rows f _ T P).
  eexists _, _, _. split; [reflexivity|]. cbn [heap log nth_error set_nth].
  split; [reflexivity|]. split; [reflexivity|]. split; [|reflexivity].
  rewrite records_frame4. apply Forall_map. now apply resolved_rows_typed.
Qed.

Lemma clean_and_resolve_accepts_cleaned_witness :
  exists names df w',
    clean_and_resolve sample_countries 0
      (world_of (frame_of_table
         [(Str (py "2001"), Str (py "Netherlands (1 April)"));
          (NaN, Str (py "Canada (20 July)"));
          (Str (py "Pending"), Str (py "Canada"));
          (Str (py "2010"), Str (py "Mexico City (4 March) Canada (1 May)"))]))
    = (Ok 2, w')
    /\ nth_error (heap w') 2 = Some df
    /\ columns df = ["index"; "year"; "country"; "iso_code"]
    /\ Forall typed_record4 (records df)
    /\ log w' = [InfoCleaned (3, 3)]
                ++ [DebugUnmatched names; InfoExtracted].
Proof.
  apply (clean_and_resolve_accepts_cleaned sample_countries
           [(Str (py "2001"), Str (py "Netherlands (1 April)"));
            (NaN, Str (py "Canada (20 July)"));
            (Str (py "Pending"), Str (py "Canada"));
            (Str (py "2010"), Str (py "Mexico City (4 March) Canada (1 May)"))]
           2
           (mkworld
              (heap (snd (clean_same_sex_marriage_data 0
                 (world_of (frame_of_table
                    [(Str (py "2001"), Str (py "Netherlands (1 April)"));
                     (NaN, Str (py "Canada (20 July)"));
                     (Str (py "Pending"), Str (py "Canada"));
                     (Str (py "2010"),
                      Str (py "Mexico City (4 March) Canada (1 May)"))])))))
              [InfoCleaned (3, 3)])).
  vm_compute. reflexivity.
Defined.
